(** * EPUB structure checks: a shallow embedding of [detect_no_toc.py] and
    [check_copyright_toc.py]

    The two scripts diagnose EPUB packages.  [detect_no_toc.py] classifies the
    table of contents of a package (no TOC, no content entry, a single content
    entry); [check_copyright_toc.py] looks for the copyright page and reports
    whether a table of contents reaches it.

    Conventions of the embedding.
    - A Python [str] is a Rocq [string] holding its UTF-8 bytes.  Every
      character the scripts look for (['/'], ['#'], ['%'], ['.'] and the
      keywords) is ASCII, and an ASCII byte never occurs inside a multi-byte
      UTF-8 sequence, so splitting and substring search agree on both views.
    - The operations of [str] that depend on the Unicode tables ([lower],
      [strip], whitespace [split]) and the UTF-8 codec are the fields of the
      class [PyStr]; every general theorem holds for any implementation of
      them, and [ascii_PyStr] is the implementation used to run examples.
    - Code that may raise lives in the monad [exc]; [try ... except Exception]
      is [try_except].
    - A Python [int] is a [Z]; a [float] is an IEEE 754 binary64 number, a
      [spec_float] of the standard library with 53 digits, and the product of
      an [int] and a [float] converts and rounds as CPython does.
    - A parsed XML or HTML document is the record of the values the script
      reads out of it.
    - What [main] asks of the file system is a record of functions that may
      raise; printing passes on the lines printed so far, and may raise too.
    - Functions imported from modules of the repository that are not part of
      the two scripts ([complex_scan], [check_copyright]) are section
      variables. *)

From Stdlib Require Import String Ascii List ListSet ZArith Bool Lia.
From Stdlib Require SpecFloat.
Import ListNotations.
Local Open Scope string_scope.
Local Open Scope list_scope.

(** ** Exceptions *)

Module Exc.

Inductive exception : Type :=
| IndexError (msg : string)
| TypeError (msg : string)
| KeyError (msg : string)
| OverflowError (msg : string)
| RuntimeError (msg : string)
| Exception (msg : string).

(** [str(e)] *)
Definition str_of (e : exception) : string :=
  match e with
  | IndexError m | TypeError m | KeyError m | OverflowError m | RuntimeError m
  | Exception m => m
  end.

Inductive exc (A : Type) : Type :=
| Raise (e : exception)
| Ret (a : A).
Arguments Raise {A} e.
Arguments Ret {A} a.

Definition bind {A B : Type} (m : exc A) (k : A -> exc B) : exc B :=
  match m with
  | Raise e => Raise e
  | Ret a => k a
  end.

(** [try: body / except Exception as e: handler(e)] *)
Definition try_except {A : Type} (body : exc A) (handler : exception -> exc A) : exc A :=
  match body with
  | Raise e => handler e
  | Ret a => Ret a
  end.

(** The value of a computation, [d] when it raised. *)
Definition value {A : Type} (d : A) (m : exc A) : A :=
  match m with
  | Raise _ => d
  | Ret a => a
  end.

Definition returns {A : Type} (m : exc A) : Prop := exists a, m = Ret a.

End Exc.
Export Exc.

Declare Scope exc_scope.
Delimit Scope exc_scope with exc.
Notation "x <- m ;; k" := (bind m (fun x => k))
  (at level 61, m at next level, right associativity) : exc_scope.
Notation "' pat <- m ;; k" := (bind m (fun x => match x with pat => k end))
  (at level 61, pat pattern, m at next level, right associativity) : exc_scope.
Local Open Scope exc_scope.

(** ** Python built-ins *)

Module Py.

(** [l[i]] for [i >= 0] *)
Definition getitem {A : Type} (l : list A) (i : nat) : exc A :=
  match nth_error l i with
  | Some x => Ret x
  | None => Raise (IndexError "list index out of range")
  end.

(** [l.pop()]: the list without its last element; the popped value is never
    used by the scripts. *)
Definition pop {A : Type} (l : list A) : exc (list A) :=
  match l with
  | [] => Raise (IndexError "pop from empty list")
  | _ => Ret (removelast l)
  end.

(** [l.append(x)] *)
Definition append {A : Type} (l : list A) (x : A) : list A := l ++ [x].

(** [x in l] for a list, set or tuple of strings *)
Definition mem (x : string) (l : list string) : bool :=
  existsb (String.eqb x) l.

(** Truth value of a string, and of a value that may be [None]. *)
Definition truthy (s : string) : bool := negb (s =? "").

Definition truthy_opt (o : option string) : bool :=
  match o with
  | Some s => truthy s
  | None => false
  end.

(** [o or ''] *)
Definition or_empty (o : option string) : string :=
  match o with
  | Some s => s
  | None => ""
  end.

(** [needle in hay] for strings *)
Fixpoint contains (needle hay : string) : bool :=
  prefix needle hay ||
  match hay with
  | EmptyString => false
  | String _ rest => contains needle rest
  end.

(** [c in s] for a single character *)
Fixpoint has_char (c : ascii) (s : string) : bool :=
  match s with
  | EmptyString => false
  | String a rest => (a =? c)%char || has_char c rest
  end.

(** [s.endswith(suffix)] *)
Definition endswith (s suffix : string) : bool :=
  let n := String.length s in
  let m := String.length suffix in
  (m <=? n)%nat && (substring (n - m) m s =? suffix).

(** [s.split(sep, maxsplit)] for a one-character separator; [None] is
    [maxsplit = -1].  The result is never empty. *)
Fixpoint split (sep : ascii) (maxsplit : option nat) (s : string) : list string :=
  match s with
  | EmptyString => [EmptyString]
  | String c rest =>
      let cut :=
        (c =? sep)%char &&
        match maxsplit with Some 0 => false | _ => true end in
      if cut then
        EmptyString :: split sep (option_map pred maxsplit) rest
      else
        match split sep maxsplit rest with
        | piece :: pieces => String c piece :: pieces
        | [] => [String c EmptyString]
        end
  end.

(** [sep.join(l)] *)
Definition join (sep : string) (l : list string) : string := String.concat sep l.

End Py.
Export Py.

(** ** [float]

    CPython's [float] is the binary64 format of IEEE 754: 53 digits, and
    infinities at the exponent 1024.  The operations round to nearest, ties to
    even. *)

Module PyFloat.
Import SpecFloat.

Definition prec : Z := 53.
Definition emax : Z := 1024.

(** The conversion that [int * float] applies to the [int]: correctly
    rounded, and [OverflowError] where the rounded value is out of range. *)
Definition of_int (n : Z) : exc spec_float :=
  match binary_normalize prec emax n 0 false with
  | S754_infinity _ => Raise (OverflowError "int too large to convert to float")
  | x => Ret x
  end.

(** The literal [1.5], which is [6755399441055744 * 2 ** -52]. *)
Definition one_and_a_half : spec_float := S754_finite false 6755399441055744 (-52).

(** [x * y] for two floats; it never raises, a product out of range is an
    infinity. *)
Definition mul (x y : spec_float) : spec_float := SFmul prec emax x y.

(** [n * y] for an [int] and a [float] *)
Definition int_mul (n : Z) (y : spec_float) : exc spec_float :=
  x <- of_int n ;; Ret (mul x y).

(** [n < x] for an [int] and a [float]: the comparison of the two numbers,
    which CPython makes without converting the [int]. *)
Definition int_lt (n : Z) (x : spec_float) : bool :=
  match x with
  | S754_nan => false
  | S754_infinity s => negb s
  | S754_zero _ => (n <? 0)%Z
  | S754_finite s m e =>
      let v := cond_Zopp s (Zpos m) in
      match e with
      | Zneg k => (n * 2 ^ Zpos k <? v)%Z
      | _ => (n <? v * 2 ^ e)%Z
      end
  end.

End PyFloat.

(** ** Unicode-dependent string operations *)

(** [lower] is [str.lower], [strip] is [str.strip()], [split_ws] is
    [str.split()] and [decode_replace] is [bytes.decode('utf-8', 'replace')]
    (its result again seen as UTF-8 bytes). *)
Class PyStr : Type := {
  lower : string -> string;
  strip : string -> string;
  split_ws : string -> list string;
  decode_replace : string -> string
}.

Module AsciiStr.

Definition lower_char (c : ascii) : ascii :=
  let n := nat_of_ascii c in
  if (65 <=? n)%nat && (n <=? 90)%nat then ascii_of_nat (n + 32) else c.

Fixpoint lower (s : string) : string :=
  match s with
  | EmptyString => EmptyString
  | String c rest => String (lower_char c) (lower rest)
  end.

Definition isspace (c : ascii) : bool :=
  let n := nat_of_ascii c in
  (n =? 32)%nat || ((9 <=? n)%nat && (n <=? 13)%nat) || ((28 <=? n)%nat && (n <=? 31)%nat).

Fixpoint lstrip (s : string) : string :=
  match s with
  | EmptyString => EmptyString
  | String c rest => if isspace c then lstrip rest else s
  end.

Fixpoint rstrip (s : string) : string :=
  match s with
  | EmptyString => EmptyString
  | String c rest =>
      match rstrip rest with
      | EmptyString => if isspace c then EmptyString else String c EmptyString
      | kept => String c kept
      end
  end.

Definition strip (s : string) : string := rstrip (lstrip s).

(** Words of [s]: maximal runs of characters that are not white space. *)
Fixpoint words (cur : string) (s : string) : list string :=
  match s with
  | EmptyString => if cur =? "" then [] else [cur]
  | String c rest =>
      if isspace c then
        if cur =? "" then words "" rest else cur :: words "" rest
      else words (cur ++ String c EmptyString) rest
  end.

Definition split_ws (s : string) : list string := words "" s.

End AsciiStr.

(** The operations on ASCII text; bytes above 127 are left alone. *)
#[export] Instance ascii_PyStr : PyStr := {|
  lower := AsciiStr.lower;
  strip := AsciiStr.strip;
  split_ws := AsciiStr.split_ws;
  decode_replace := fun b => b
|}.

(** ** [urllib.parse.unquote] *)

Module Urllib.
Section Unquote.
Context {U : PyStr}.

Definition hex_digit (c : ascii) : option nat :=
  let n := nat_of_ascii c in
  if (48 <=? n)%nat && (n <=? 57)%nat then Some (n - 48)
  else if (65 <=? n)%nat && (n <=? 70)%nat then Some (n - 55)
  else if (97 <=? n)%nat && (n <=? 102)%nat then Some (n - 87)
  else None.

(** [_hextobyte[item[:2]]] together with [item[2:]]; [None] is the
    [KeyError] that [unquote_to_bytes] catches. *)
Definition hextobyte (item : string) : option (ascii * string) :=
  match item with
  | String a (String b rest) =>
      match hex_digit a, hex_digit b with
      | Some x, Some y => Some (ascii_of_nat (16 * x + y), rest)
      | _, _ => None
      end
  | _ => None
  end.

Definition unquote_item (item : string) : string :=
  match hextobyte item with
  | Some (b, rest) => String b rest
  | None => String "%" item
  end.

Definition unquote_to_bytes (s : string) : string :=
  match split "%" None s with
  | [] => s
  | first :: items => first ++ String.concat "" (map unquote_item items)
  end.

Definition is_ascii (c : ascii) : bool := (nat_of_ascii c <? 128)%nat.

(** The maximal runs of ASCII and of non-ASCII bytes of [s], in order. *)
Fixpoint runs (s : string) : list (bool * string) :=
  match s with
  | EmptyString => []
  | String c rest =>
      let a := is_ascii c in
      match runs rest with
      | (b, r) :: more =>
          if Bool.eqb a b then (b, String c r) :: more
          else (a, String c EmptyString) :: (b, r) :: more
      | [] => [(a, String c EmptyString)]
      end
  end.

Definition unquote_run (run : bool * string) : string :=
  let (ascii_run, text) := run in
  if ascii_run then decode_replace (unquote_to_bytes text) else text.

Definition unquote (s : string) : string :=
  if negb (has_char "%" s) then s
  else String.concat "" (map unquote_run (runs s)).

End Unquote.
End Urllib.
Export Urllib.

(** ** [pathlib.PurePosixPath] *)

Module Pathlib.

Record PurePosixPath : Type := {
  root : string;
  tail : list string
}.

(** [posixpath.splitroot]: exactly two leading slashes are kept as a root of
    their own. *)
Definition splitroot (p : string) : string * string :=
  match p with
  | String "/" ((String "/" (String "/" _)) as rel) => ("/", rel)
  | String "/" (String "/" rel) => ("//", rel)
  | String "/" rel => ("/", rel)
  | _ => ("", p)
  end.

Definition keep_segment (x : string) : bool := truthy x && negb (x =? ".").

(** [PurePosixPath(p)] *)
Definition parse (p : string) : PurePosixPath :=
  let (r, rel) := splitroot p in
  {| root := r; tail := filter keep_segment (split "/" None rel) |}.

(** [p.as_posix()] and [str(p)] *)
Definition as_posix (p : PurePosixPath) : string :=
  match root p ++ join "/" (tail p) with
  | EmptyString => "."
  | s => s
  end.

(** [p.parts] *)
Definition parts (p : PurePosixPath) : list string :=
  if truthy (root p) then root p :: tail p else tail p.

(** [p.parent] *)
Definition parent (p : PurePosixPath) : PurePosixPath :=
  match tail p with
  | [] => p
  | _ => {| root := root p; tail := removelast (tail p) |}
  end.

(** [p.name] *)
Definition name (p : PurePosixPath) : string := last (tail p) "".

(** [p / q] *)
Definition truediv (p q : PurePosixPath) : PurePosixPath :=
  if truthy (root q) then q
  else {| root := root p; tail := tail p ++ tail q |}.

End Pathlib.
Export Pathlib.


(** ** The archive and its documents *)

Module Epub.

(** An [<item>] of the package document, with the attributes as
    [item.get(...)] returns them. *)
Record OpfItem : Type := {
  item_id : option string;
  item_href : option string;
  item_media_type : option string;
  item_properties : option string
}.

(** The [<spine>] element: its [toc] attribute and the [idref] of each
    [<itemref>]. *)
Record OpfSpine : Type := {
  spine_toc_attr : option string;
  spine_itemrefs : list (option string)
}.

(** The package document: [root.find('opf:manifest')] with its items and
    [root.find('opf:spine')], [None] when the element is missing. *)
Record OpfDoc : Type := {
  opf_manifest : option (list OpfItem);
  opf_spine : option OpfSpine
}.

(** The first [<a>] below a [<li>]: [a.get('href')] and
    [''.join(a.itertext())]. *)
Record Anchor : Type := {
  a_href : option string;
  a_text : string
}.

(** A [<nav>] element: its two type attributes, its [id], and for each
    [<li>] below it the first anchor, if any. *)
Record NavElem : Type := {
  nav_ops_type : option string;
  nav_epub_type : option string;
  nav_id : option string;
  nav_items : list (option Anchor)
}.

(** A navigation document: its [<nav>] elements and, for each [<li>] of the
    whole document, the first anchor. *)
Record NavDoc : Type := {
  doc_navs : list NavElem;
  doc_items : list (option Anchor)
}.

(** A [navPoint]: the text of its first [text] element ([None] when there is
    no such element or it has no text) and the [src] of its first [content]
    element. *)
Record NavPoint : Type := {
  np_label : option string;
  np_src : option string
}.

(** A legacy navigation map: its [navPoint]s, and [c.get('src')] for each
    [content] element. *)
Record NcxDoc : Type := {
  ncx_navpoints : list NavPoint;
  ncx_contents : list (option string)
}.

(** An open [ZipFile]: the names of its members and what parsing a member
    yields, [Raise] standing for [z.open] or [etree.parse] failing.
    [html_anchors] is [a.get('href')] for every [<a>] of an HTML page. *)
Record ZipFile : Type := {
  namelist : list string;
  opf_tree : string -> exc OpfDoc;
  nav_tree : string -> exc NavDoc;
  ncx_tree : string -> exc NcxDoc;
  html_anchors : string -> exc (list (option string))
}.

(** An entry of the manifest dictionary. *)
Record ManifestItem : Type := {
  href : string;
  media_type : option string;
  properties : string
}.

(** The manifest: a [dict] from id to item, in insertion order. *)
Definition Manifest : Type := list (string * ManifestItem).

(** [manifest.get(k)] *)
Fixpoint dict_get (manifest : Manifest) (k : string) : option ManifestItem :=
  match manifest with
  | [] => None
  | (k', v) :: rest => if k' =? k then Some v else dict_get rest k
  end.

(** [k in manifest] *)
Definition dict_has (manifest : Manifest) (k : string) : bool :=
  match dict_get manifest k with
  | Some _ => true
  | None => false
  end.

(** [manifest[k]] *)
Definition dict_getitem (manifest : Manifest) (k : string) : exc ManifestItem :=
  match dict_get manifest k with
  | Some v => Ret v
  | None => Raise (KeyError k)
  end.

(** [manifest[k] = v]: an existing key keeps its place. *)
Fixpoint dict_set (manifest : Manifest) (k : string) (v : ManifestItem) : Manifest :=
  match manifest with
  | [] => [(k, v)]
  | (k', v') :: rest =>
      if k' =? k then (k, v) :: rest else (k', v') :: dict_set rest k v
  end.

(** [{'href': ..., 'text': ..., 'source': ...}] *)
Record TocEntry : Type := {
  entry_href : string;
  entry_text : string;
  entry_source : string
}.

(** The body of [parse_opf], the same in both scripts, after the tree has
    been read. *)
Definition build_manifest (items : list OpfItem) : Manifest :=
  fold_left
    (fun manifest item =>
       match item_id item, item_href item with
       | Some iid, Some h =>
           if truthy iid && truthy h then
             dict_set manifest iid
               {| href := h;
                  media_type := item_media_type item;
                  properties := or_empty (item_properties item) |}
           else manifest
       | _, _ => manifest
       end)
    items [].

Definition build_spine (itemrefs : list (option string)) : list string :=
  fold_left
    (fun spine idref =>
       match idref with
       | Some i => if truthy i then append spine i else spine
       | None => spine
       end)
    itemrefs [].

Definition parse_opf (z : ZipFile) (opf_path : string)
  : exc (Manifest * list string * string * option string) :=
  doc <- opf_tree z opf_path ;;
  let manifest :=
    match opf_manifest doc with
    | Some items => build_manifest items
    | None => []
    end in
  let spine :=
    match opf_spine doc with
    | Some sp => build_spine (spine_itemrefs sp)
    | None => []
    end in
  let spine_toc :=
    match opf_spine doc with
    | Some sp => spine_toc_attr sp
    | None => None
    end in
  let opf_dir := as_posix (parent (parse opf_path)) in
  Ret (manifest, spine, opf_dir, spine_toc).

(** The choice of the navigation map, the same in [extract_ncx_entries] and
    [extract_ncx_hrefs]: the [for ... break] loop over [manifest.items()]. *)
Fixpoint first_ncx_item (manifest : Manifest) : option string :=
  match manifest with
  | [] => None
  | (iid, item) :: rest =>
      if or_empty (media_type item) =? "application/x-dtbncx+xml"
      then Some iid
      else first_ncx_item rest
  end.

Definition select_ncx_id (manifest : Manifest) (spine_toc : option string)
  : option string :=
  match spine_toc with
  | Some t =>
      if truthy t && dict_has manifest t then Some t
      else first_ncx_item manifest
  | None => first_ncx_item manifest
  end.

End Epub.
Export Epub.

(** ** Collapsing of [.] and [..]

    The loop over [parts] that ends both versions of [normalize_path];
    [normalized_parts] is the output stack. *)

Module Resolver.

Definition nonempty {A : Type} (l : list A) : bool :=
  match l with
  | [] => false
  | _ :: _ => true
  end.

Fixpoint collapse (parts normalized_parts : list string) : exc (list string) :=
  match parts with
  | [] => Ret normalized_parts
  | part :: rest =>
      if part =? ".." then
        if nonempty normalized_parts then
          popped <- pop normalized_parts ;;
          collapse rest popped
        else collapse rest normalized_parts
      else if negb (part =? ".") then
        collapse rest (append normalized_parts part)
      else collapse rest normalized_parts
  end.

(** [href.split('#', 1)[0]], the same in both scripts. *)
Definition strip_fragment (href : string) : exc string :=
  getitem (split "#" (Some 1) href) 0.

(** Monadic loops. *)
Fixpoint filterM {A : Type} (keep : A -> exc bool) (l : list A) : exc (list A) :=
  match l with
  | [] => Ret []
  | x :: rest =>
      k <- keep x ;;
      kept <- filterM keep rest ;;
      Ret (if k then x :: kept else kept)
  end.

Fixpoint foldM {A S : Type} (step : S -> A -> exc S) (l : list A) (s : S) : exc S :=
  match l with
  | [] => Ret s
  | x :: rest =>
      s' <- step s x ;;
      foldM step rest s'
  end.

End Resolver.
Export Resolver.

(** ** [detect_no_toc.py] *)

Module DetectNoToc.
Section DetectNoToc.
Context {U : PyStr}.

(** [ZipFile(path, 'r')], and [complex_scan.find_opf_path]. *)
Variable open_zip : string -> exc ZipFile.
Variable find_opf_path : ZipFile -> exc (option string).

Definition resolve_href (opf_dir href : string) : string :=
  let decoded_href := unquote href in
  if negb (truthy opf_dir) then as_posix (parse decoded_href)
  else as_posix (truediv (parse opf_dir) (parse decoded_href)).

Definition normalize_path (base_path href : string) : exc string :=
  let decoded_href := unquote href in
  if negb (truthy base_path) then Ret (as_posix (parse decoded_href))
  else
    let resolved := as_posix (truediv (parent (parse base_path)) (parse decoded_href)) in
    let parts := parts (parse resolved) in
    normalized_parts <- collapse parts [] ;;
    Ret (if nonempty normalized_parts then join "/" normalized_parts else "").

Definition strip_fragment := Resolver.strip_fragment.

(** The entries of a list of [<li>]: the first anchor of each, when it has
    an [href]. *)
Definition anchor_entries (items : list (option Anchor)) (nav_path : string)
  : list TocEntry :=
  flat_map
    (fun li =>
       match li with
       | Some a =>
           if truthy_opt (a_href a) then
             [{| entry_href := or_empty (a_href a);
                 entry_text := strip (a_text a);
                 entry_source := nav_path |}]
           else []
       | None => []
       end)
    items.

Definition is_toc_nav (nav : NavElem) : bool :=
  let epub_type :=
    if truthy_opt (nav_ops_type nav) then or_empty (nav_ops_type nav)
    else if truthy_opt (nav_epub_type nav) then or_empty (nav_epub_type nav)
    else "" in
  contains "toc" epub_type || contains "toc" (lower (or_empty (nav_id nav))).

(** The body of the [try] block: the first [<nav>] that is a TOC decides,
    otherwise every [<li>] of the document is read. *)
Definition nav_document_entries (doc : NavDoc) (nav_path : string) : list TocEntry :=
  match find is_toc_nav (doc_navs doc) with
  | Some nav => anchor_entries (nav_items nav) nav_path
  | None => anchor_entries (doc_items doc) nav_path
  end.

Fixpoint nav_items_loop (z : ZipFile) (opf_dir : string) (items : list ManifestItem)
  : list TocEntry :=
  match items with
  | [] => []
  | item :: rest =>
      if mem "nav" (split_ws (properties item)) then
        let nav_path := resolve_href opf_dir (href item) in
        if mem nav_path (namelist z) then
          match nav_tree z nav_path with
          | Ret doc => nav_document_entries doc nav_path
          | Raise _ => nav_items_loop z opf_dir rest
          end
        else nav_items_loop z opf_dir rest
      else nav_items_loop z opf_dir rest
  end.

Definition extract_nav_entries (z : ZipFile) (opf_dir : string) (manifest : Manifest)
  : list TocEntry :=
  nav_items_loop z opf_dir (map snd manifest).

Definition navpoint_entries (navpoints : list NavPoint) (ncx_href : string)
  : list TocEntry :=
  flat_map
    (fun np =>
       let text := if truthy_opt (np_label np) then strip (or_empty (np_label np)) else "" in
       if truthy_opt (np_src np) then
         [{| entry_href := or_empty (np_src np);
             entry_text := text;
             entry_source := ncx_href |}]
       else [])
    navpoints.

Definition extract_ncx_entries (z : ZipFile) (opf_dir : string) (manifest : Manifest)
  (spine_toc : option string) : exc (list TocEntry) :=
  let ncx_id := select_ncx_id manifest spine_toc in
  if negb (truthy_opt ncx_id) then Ret []
  else
    item <- dict_getitem manifest (or_empty ncx_id) ;;
    let ncx_href := resolve_href opf_dir (href item) in
    if negb (mem ncx_href (namelist z)) then Ret []
    else
      try_except
        (doc <- ncx_tree z ncx_href ;;
         Ret (navpoint_entries (ncx_navpoints doc) ncx_href))
        (fun _ => Ret []).

Definition content_suffixes : list string := [".xhtml"; ".html"; ".htm"; ".xml"].

Definition get_content_files (z : ZipFile) (manifest : Manifest) (spine : list string)
  (opf_dir : string) : list string :=
  fold_left
    (fun files idref =>
       match dict_get manifest idref with
       | None => files
       | Some item =>
           let href := resolve_href opf_dir (href item) in
           let lower_href := lower href in
           if existsb (endswith lower_href) content_suffixes then
             let filename := lower (name (parse href)) in
             if contains "cover" filename || contains "title" filename
                || contains "copyright" filename || contains "toc" filename
             then files
             else append files href
           else files
       end)
    spine [].

Record TocAnalysis : Type := {
  has_toc : bool;
  content_entries : nat;
  unique_targets : nat;
  single_file_target : option string
}.

Definition boilerplate_keywords : list string :=
  ["cover"; "title"; "title page"; "copyright"; "table of contents";
   "toc"; "contents"; "frontmatter"; "front matter"; "titlepage";
   "dedication"; "epigraph"; "about the author"; "also by";
   "books by"; "acknowledgments"; "acknowledgements"].

(** The test of the first loop of [analyze_toc_structure]: is [entry] a
    content entry? *)
Definition is_content_entry (content_files : list string) (entry : TocEntry) : exc bool :=
  let text := strip (lower (entry_text entry)) in
  base_href <- strip_fragment (entry_href entry) ;;
  normalized <- normalize_path (entry_source entry) base_href ;;
  let filename := lower (name (parse normalized)) in
  let is_boilerplate_text :=
    mem text boilerplate_keywords
    || existsb (fun keyword => contains keyword text) ["cover"; "title page"; "copyright"] in
  let is_boilerplate_file :=
    existsb (fun keyword => contains keyword filename) ["cover"; "title"; "copyright"; "toc"] in
  let is_in_content := mem normalized content_files in
  Ret (negb is_boilerplate_text && negb is_boilerplate_file && is_in_content).

(** The step of the second loop: [unique_targets] is a set, kept as a list
    without duplicates. *)
Definition add_target (content_files : list string) (unique_targets : list string)
  (entry : TocEntry) : exc (list string) :=
  base <- strip_fragment (entry_href entry) ;;
  normalized <- normalize_path (entry_source entry) base ;;
  Ret (if mem normalized content_files
       then set_add string_dec normalized unique_targets
       else unique_targets).

Definition analyze_toc_structure (toc_entries : list TocEntry)
  (content_files : list string) (z : ZipFile) : exc TocAnalysis :=
  if negb (nonempty toc_entries) then
    Ret {| has_toc := false; content_entries := 0;
           unique_targets := 0; single_file_target := None |}
  else
    content_entries <- filterM (is_content_entry content_files) toc_entries ;;
    unique_targets <- foldM (add_target content_files) content_entries [] ;;
    single_file <-
      (if (List.length unique_targets =? 1)%nat then
         t <- getitem unique_targets 0 ;; Ret (Some t)
       else Ret None) ;;
    Ret {| has_toc := true;
           content_entries := List.length content_entries;
           unique_targets := List.length unique_targets;
           single_file_target := single_file |}.

(** The end of [analyze_epub_single_chapter], from the call of
    [analyze_toc_structure] on: the reasons issued for a list of TOC entries. *)
Definition toc_reasons (toc_entries : list TocEntry) (content_files : list string)
  (z : ZipFile) : exc (list string) :=
  toc_analysis <- analyze_toc_structure toc_entries content_files z ;;
  if negb (has_toc toc_analysis) then Ret ["no_toc"]
  else
    let content_entry_count := content_entries toc_analysis in
    if (content_entry_count =? 0)%nat then Ret ["toc_has_no_content_entries"]
    else if (content_entry_count =? 1)%nat then Ret ["single_toc_entry"]
    else Ret [].

(** The [with] block of [analyze_epub_single_chapter]; the [debug] printing
    has no part in the result. *)
Definition single_chapter_body (path : string) : exc (list string) :=
  z <- open_zip path ;;
  opf_path <- find_opf_path z ;;
  if negb (truthy_opt opf_path) then Ret ["no_opf"]
  else
    ' (manifest, spine, opf_dir, spine_toc) <- parse_opf z (or_empty opf_path) ;;
    let content_files := get_content_files z manifest spine opf_dir in
    if negb (nonempty content_files) then Ret ["no_content_files"]
    else
      let nav_entries := extract_nav_entries z opf_dir manifest in
      ncx_entries <- extract_ncx_entries z opf_dir manifest spine_toc ;;
      let toc_entries := if nonempty nav_entries then nav_entries else ncx_entries in
      toc_reasons toc_entries content_files z.

Definition analyze_epub_single_chapter (path : string) : exc (list string) :=
  try_except (single_chapter_body path) (fun _ => Ret ["error_parsing_epub"]).

End DetectNoToc.
End DetectNoToc.

(** ** [check_copyright_toc.py] *)

Module CheckCopyrightToc.
Section CheckCopyrightToc.
Context {U : PyStr}.

(** [zipfile.ZipFile(path, 'r')] and [complex_scan.find_opf_path]. *)
Variable open_zip : string -> exc ZipFile.
Variable find_opf_path : ZipFile -> exc (option string).

(** The names imported from [check_copyright].  Scores and the threshold
    are integers. *)
Variable resolve_href : string -> string -> string.
Variable get_spine_xhtml_paths : ZipFile -> Manifest -> list string -> string -> list string.
Variable extract_text_from_xhtml : ZipFile -> string -> string.
Variable score_file : string -> string -> Z.
Variable CONFIDENCE_THRESHOLD : Z.

Definition normalize_path (base_path href : string) (namelist : list string) : exc string :=
  let decoded := unquote href in
  if mem decoded namelist then Ret decoded
  else if negb (truthy base_path) then Ret (as_posix (parse decoded))
  else
    let resolved := as_posix (truediv (parent (parse base_path)) (parse decoded)) in
    let parts := parts (parse resolved) in
    normalized <- collapse parts [] ;;
    Ret (if nonempty normalized then join "/" normalized else "").

Definition strip_fragment := Resolver.strip_fragment.

(** [enumerate(l)] *)
Definition enumerate {A : Type} (l : list A) : list (nat * A) :=
  combine (seq 0 (List.length l)) l.

(** One turn of the scoring loop on [(best_index, best_score, second_score)]. *)
Definition score_step (z : ZipFile) (state : option nat * Z * Z) (item : nat * string)
  : option nat * Z * Z :=
  let '(best_index, best_score, second_score) := state in
  let '(i, zip_path) := item in
  let text := extract_text_from_xhtml z zip_path in
  let score := score_file zip_path text in
  if (best_score <? score)%Z then (Some i, score, best_score)
  else if (second_score <? score)%Z then (best_index, best_score, score)
  else (best_index, best_score, second_score).

Definition score_loop (z : ZipFile) (xhtml_paths : list string) : option nat * Z * Z :=
  fold_left (score_step z) (enumerate xhtml_paths) (None, 0%Z, 0%Z).

Definition find_copyright_path (z : ZipFile) (manifest : Manifest) (spine : list string)
  (opf_dir : string) : exc (option string) :=
  let xhtml_paths := get_spine_xhtml_paths z manifest spine opf_dir in
  if negb (nonempty xhtml_paths) then Ret None
  else
    let '(best_index, best_score, second_score) := score_loop z xhtml_paths in
    if (best_score <? CONFIDENCE_THRESHOLD)%Z then Ret None
    else
      ambiguous <-
        (if (0 <? best_score)%Z && (0 <? second_score)%Z then
           product <- PyFloat.int_mul second_score PyFloat.one_and_a_half ;;
           Ret (PyFloat.int_lt best_score product)
         else Ret false) ;;
      if ambiguous : bool then Ret None
      else
        match best_index with
        | None => Raise (TypeError "list indices must be integers or slices, not NoneType")
        | Some i => p <- getitem xhtml_paths i ;; Ret (Some p)
        end.

(** [[(c.get('src'), ncx_href) for c in content_elems if c.get('src')]] *)
Definition content_hrefs (contents : list (option string)) (ncx_href : string)
  : list (string * string) :=
  flat_map
    (fun src => if truthy_opt src then [(or_empty src, ncx_href)] else [])
    contents.

Definition extract_ncx_hrefs (z : ZipFile) (opf_dir : string) (manifest : Manifest)
  (spine_toc : option string)
  : exc (option (list (string * string)) * option string) :=
  let ncx_id := select_ncx_id manifest spine_toc in
  if negb (truthy_opt ncx_id) then Ret (None, Some "NO NCX FOUND")
  else
    item <- dict_getitem manifest (or_empty ncx_id) ;;
    let ncx_href := resolve_href opf_dir (href item) in
    if negb (mem ncx_href (namelist z)) then
      Ret (None, Some ("NCX file missing from zip: " ++ ncx_href)%string)
    else
      try_except
        (doc <- ncx_tree z ncx_href ;;
         Ret (Some (content_hrefs (ncx_contents doc) ncx_href), None))
        (fun e => Ret (None, Some ("NCX parse error: " ++ str_of e)%string)).

Definition extract_human_toc_hrefs (z : ZipFile) (manifest : Manifest)
  (spine : list string) (opf_dir : string) : list (string * string) :=
  fold_left
    (fun results idref =>
       match dict_get manifest idref with
       | None => results
       | Some item =>
           let href := resolve_href opf_dir (href item) in
           let filename := lower (name (parse href)) in
           if negb (contains "toc" filename) && negb (contains "contents" filename)
           then results
           else if negb (mem href (namelist z)) then results
           else
             match html_anchors z href with
             | Ret anchors =>
                 results ++
                 flat_map
                   (fun link => if truthy_opt link then [(or_empty link, href)] else [])
                   anchors
             | Raise _ => results
             end
       end)
    spine [].

Definition parts_eqb (p q : list string) : bool :=
  if list_eq_dec string_dec p q then true else false.

Fixpoint hrefs_contain_path (hrefs : list (string * string)) (copyright_path : string)
  (namelist : list string) : exc bool :=
  let target_parts := parts (parse copyright_path) in
  match hrefs with
  | [] => Ret false
  | (href, source_path) :: rest =>
      base <- strip_fragment href ;;
      normalized <- normalize_path source_path base namelist ;;
      if parts_eqb (parts (parse normalized)) target_parts then Ret true
      else hrefs_contain_path rest copyright_path namelist
  end.

(** The end of [analyze_epub], once a copyright page has been found: the
    list [hits], before it is replaced by [None] when empty. *)
Definition reachability_hits (z : ZipFile) (manifest : Manifest) (spine : list string)
  (opf_dir : string) (ncx_hrefs : option (list (string * string)))
  (copyright_path : string) : exc (list string) :=
  let namelist := namelist z in
  in_ncx <-
    match ncx_hrefs with
    | Some l =>
        if nonempty l then hrefs_contain_path l copyright_path namelist else Ret false
    | None => Ret false
    end ;;
  let hits := if in_ncx : bool then ["in ncx"] else [] in
  let human_hrefs := extract_human_toc_hrefs z manifest spine opf_dir in
  in_human <- hrefs_contain_path human_hrefs copyright_path namelist ;;
  Ret (if in_human : bool then append hits "in human toc page" else hits).

Definition analyze_epub (epub_path : string)
  : exc (option (list string) * list string) :=
  try_except
    (z <- open_zip epub_path ;;
     opf_path <- find_opf_path z ;;
     match opf_path with
     | None => Ret (None, ["OPF not found"])
     | Some opf_path =>
         ' (manifest, spine, opf_dir, spine_toc) <- parse_opf z opf_path ;;
         ' (ncx_hrefs, ncx_error) <- extract_ncx_hrefs z opf_dir manifest spine_toc ;;
         let warnings :=
           if truthy_opt ncx_error then [or_empty ncx_error] else [] in
         copyright_path <- find_copyright_path z manifest spine opf_dir ;;
         match copyright_path with
         | None => Ret (None, warnings)
         | Some copyright_path =>
             hits <- reachability_hits z manifest spine opf_dir ncx_hrefs copyright_path ;;
             Ret ((if nonempty hits then Some hits else None), warnings)
         end
     end)
    (fun e => Ret (None, [("error: " ++ str_of e)%string])).

End CheckCopyrightToc.
End CheckCopyrightToc.

(** ** Values

    The value of the computations that never raise, for use in statements. *)

Module Values.
Section Values.
Context {U : PyStr}.

(** [strip_fragment(href)] *)
Definition fragment_free (href : string) : string :=
  value "" (strip_fragment href).

(** The resolved target of a TOC entry in [detect_no_toc.py]. *)
Definition entry_target (entry : TocEntry) : string :=
  value "" (DetectNoToc.normalize_path (entry_source entry)
              (fragment_free (entry_href entry))).

(** The label and the file name that [analyze_toc_structure] tests. *)
Definition entry_label (entry : TocEntry) : string :=
  strip (lower (entry_text entry)).

Definition entry_filename (entry : TocEntry) : string :=
  lower (name (parse (entry_target entry))).

(** The resolved target of a pair [(href, source_path)] in
    [check_copyright_toc.py]. *)
Definition href_target (namelist : list string) (link : string * string) : string :=
  value "" (CheckCopyrightToc.normalize_path (snd link) (fragment_free (fst link)) namelist).

End Values.
End Values.
Export Values.

(** ** Predicates used in the statements *)

Module Props.

(** A path segment as [parse] keeps it: not empty, not [.], without ['/']. *)
Definition clean_segment (x : string) : Prop :=
  keep_segment x = true /\ has_char "/" x = false.

(** A segment that the collapsing loop pushes and never pops by itself. *)
Definition plain_segment (x : string) : Prop := clean_segment x /\ x <> "..".

(** The paths that [parse] builds. *)
Definition wf_path (p : PurePosixPath) : Prop :=
  (root p = "" \/ root p = "/" \/ root p = "//") /\ Forall clean_segment (tail p).

(** [PurePosixPath('.')], the directory of a document at the archive root. *)
Definition root_dir : PurePosixPath := {| root := ""; tail := [] |}.

(** Does the first loop of [analyze_toc_structure] keep [entry]? *)
Definition is_content `{PyStr} (content_files : list string) (entry : TocEntry) : bool :=
  value false (DetectNoToc.is_content_entry content_files entry).

Definition ncx_media_type : string := "application/x-dtbncx+xml".

Definition is_ncx (item : ManifestItem) : Prop := media_type item = Some ncx_media_type.

(** Every id of the manifest is a non-empty string, as [parse_opf] ensures. *)
Definition manifest_ok (manifest : Manifest) : Prop :=
  Forall (fun kv => truthy (fst kv) = true) manifest.

(** Does the link, resolved, name the same path as [copyright_path]? *)
Definition reaches `{PyStr} (namelist : list string) (copyright_path : string)
  (link : string * string) : bool :=
  CheckCopyrightToc.parts_eqb (parts (parse (href_target namelist link)))
    (parts (parse copyright_path)).

Section Scoring.
Variable extract_text_from_xhtml : ZipFile -> string -> string.
Variable score_file : string -> string -> Z.
Variable z : ZipFile.

(** The score of the document at [zip_path]. *)
Definition score_of (zip_path : string) : Z :=
  score_file zip_path (extract_text_from_xhtml z zip_path).

(** What the scoring loop knows after the first [n] documents:
    [best_score] bounds every score and is met at [best_index], or is 0 when
    no score is positive; [second_score] bounds the score of every other
    document and is met by one of them, or is 0. *)
Definition scored (xhtml_paths : list string) (n : nat) (state : option nat * Z * Z) : Prop :=
  let '(best_index, best_score, second_score) := state in
  (0 <= second_score <= best_score)%Z /\
  (forall j p, j < n -> nth_error xhtml_paths j = Some p -> (score_of p <= best_score)%Z) /\
  (forall j p, j < n -> nth_error xhtml_paths j = Some p -> best_index <> Some j ->
               (score_of p <= second_score)%Z) /\
  (second_score = 0%Z \/
   exists j p, j < n /\ best_index <> Some j /\
               nth_error xhtml_paths j = Some p /\ score_of p = second_score) /\
  match best_index with
  | None => best_score = 0%Z
  | Some i => i < n /\ (0 < best_score)%Z /\
              exists p, nth_error xhtml_paths i = Some p /\ score_of p = best_score
  end.

End Scoring.

End Props.
Export Props.

(** ** Sample packages *)

Module Scenario.

Definition missing {A : Type} (member : string) : exc A :=
  Raise (KeyError ("There is no item named " ++ member ++ " in the archive")%string).

Definition xhtml_item (iid h : string) (props : option string) : OpfItem :=
  {| item_id := Some iid; item_href := Some h;
     item_media_type := Some "application/xhtml+xml"; item_properties := props |}.

Definition link (h t : string) : option Anchor :=
  Some {| a_href := Some h; a_text := t |}.

(** Three chapters, and a navigation document that links the first one
    three times. *)
Definition three_chapters_opf : OpfDoc :=
  {| opf_manifest :=
       Some [xhtml_item "nav" "nav.xhtml" (Some "nav");
             xhtml_item "ch1" "ch1.xhtml" None;
             xhtml_item "ch2" "ch2.xhtml" None;
             xhtml_item "ch3" "ch3.xhtml" None];
     opf_spine :=
       Some {| spine_toc_attr := None;
               spine_itemrefs := [Some "ch1"; Some "ch2"; Some "ch3"] |} |}.

Definition repeated_links : list (option Anchor) :=
  [link "ch1.xhtml" "Chapter 1"; link "ch1.xhtml" "Chapter 1"; link "ch1.xhtml" "Chapter 1"].

Definition repeated_nav : NavDoc :=
  {| doc_navs :=
       [{| nav_ops_type := Some "toc"; nav_epub_type := None; nav_id := None;
           nav_items := repeated_links |}];
     doc_items := repeated_links |}.

Definition three_chapters : ZipFile :=
  {| namelist := ["mimetype"; "META-INF/container.xml"; "OEBPS/content.opf";
                  "OEBPS/nav.xhtml"; "OEBPS/ch1.xhtml"; "OEBPS/ch2.xhtml";
                  "OEBPS/ch3.xhtml"];
     opf_tree := fun p => if p =? "OEBPS/content.opf" then Ret three_chapters_opf else missing p;
     nav_tree := fun p => if p =? "OEBPS/nav.xhtml" then Ret repeated_nav else missing p;
     ncx_tree := missing;
     html_anchors := missing |}.

(** The same chapters without any navigation document. *)
Definition no_toc_opf : OpfDoc :=
  {| opf_manifest :=
       Some [xhtml_item "ch1" "ch1.xhtml" None;
             xhtml_item "ch2" "ch2.xhtml" None;
             xhtml_item "ch3" "ch3.xhtml" None];
     opf_spine := opf_spine three_chapters_opf |}.

Definition no_toc_package : ZipFile :=
  {| namelist := ["mimetype"; "META-INF/container.xml"; "OEBPS/content.opf";
                  "OEBPS/ch1.xhtml"; "OEBPS/ch2.xhtml"; "OEBPS/ch3.xhtml"];
     opf_tree := fun p => if p =? "OEBPS/content.opf" then Ret no_toc_opf else missing p;
     nav_tree := missing;
     ncx_tree := missing;
     html_anchors := missing |}.

(** A package whose spine holds a cover page only. *)
Definition cover_only_opf : OpfDoc :=
  {| opf_manifest := Some [xhtml_item "cover" "cover.xhtml" None];
     opf_spine := Some {| spine_toc_attr := None; spine_itemrefs := [Some "cover"] |} |}.

Definition cover_only : ZipFile :=
  {| namelist := ["mimetype"; "content.opf"; "cover.xhtml"];
     opf_tree := fun p => if p =? "content.opf" then Ret cover_only_opf else missing p;
     nav_tree := missing;
     ncx_tree := missing;
     html_anchors := missing |}.

(** An archive without a package document. *)
Definition no_opf_package : ZipFile :=
  {| namelist := ["mimetype"; "ch1.xhtml"];
     opf_tree := missing; nav_tree := missing; ncx_tree := missing;
     html_anchors := missing |}.

(** An EPUB 2 package: cover, title page and a chapter, with a navigation map
    whose target carries a fragment. *)
Definition legacy_opf : OpfDoc :=
  {| opf_manifest :=
       Some [{| item_id := Some "ncx"; item_href := Some "toc.ncx";
                item_media_type := Some "application/x-dtbncx+xml";
                item_properties := None |};
             xhtml_item "cover" "content/cover.xhtml" None;
             xhtml_item "title" "content/title.xhtml" None;
             xhtml_item "chapter1" "content/chapter1.xhtml" None];
     opf_spine :=
       Some {| spine_toc_attr := Some "ncx";
               spine_itemrefs := [Some "cover"; Some "title"; Some "chapter1"] |} |}.

Definition legacy_ncx : NcxDoc :=
  {| ncx_navpoints :=
       [{| np_label := Some "Chapter 1"; np_src := Some "content/chapter1.xhtml#top" |}];
     ncx_contents := [Some "content/chapter1.xhtml#top"] |}.

Definition legacy : ZipFile :=
  {| namelist := ["mimetype"; "META-INF/container.xml"; "OEBPS/content.opf";
                  "OEBPS/toc.ncx"; "OEBPS/content/cover.xhtml";
                  "OEBPS/content/title.xhtml"; "OEBPS/content/chapter1.xhtml"];
     opf_tree := fun p => if p =? "OEBPS/content.opf" then Ret legacy_opf else missing p;
     nav_tree := missing;
     ncx_tree := fun p => if p =? "OEBPS/toc.ncx" then Ret legacy_ncx else missing p;
     html_anchors := missing |}.

(** The files of the sample folder; anything else is not a ZIP file. *)
Definition open_zip (path : string) : exc ZipFile :=
  if path =? "three-chapters.epub" then Ret three_chapters
  else if path =? "no-toc.epub" then Ret no_toc_package
  else if path =? "cover-only.epub" then Ret cover_only
  else if path =? "no-opf.epub" then Ret no_opf_package
  else if path =? "legacy.epub" then Ret legacy
  else Raise (Exception "File is not a zip file").

(** Stand-ins for the collaborators that are not part of the two scripts:
    the package document is the first member named [*.opf]; the spine
    documents are the resolved spine items found in the archive; a score is
    read from a table. *)
Definition find_opf_path (z : ZipFile) : exc (option string) :=
  Ret (find (fun member => endswith member ".opf") (namelist z)).

Definition spine_paths (z : ZipFile) (manifest : Manifest) (spine : list string)
  (opf_dir : string) : list string :=
  flat_map
    (fun idref =>
       match dict_get manifest idref with
       | Some item =>
           let p := DetectNoToc.resolve_href opf_dir (href item) in
           if mem p (namelist z) && endswith p ".xhtml" then [p] else []
       | None => []
       end)
    spine.

Definition fixed_paths (paths : list string)
  (z : ZipFile) (manifest : Manifest) (spine : list string) (opf_dir : string)
  : list string := paths.

Definition no_text (z : ZipFile) (zip_path : string) : string := "".

Definition table_score (table : list (string * Z)) (zip_path text : string) : Z :=
  match find (fun row => fst row =? zip_path) table with
  | Some row => snd row
  | None => 0%Z
  end.

Definition legacy_scores : list (string * Z) :=
  [("OEBPS/content/cover.xhtml", 0%Z);
   ("OEBPS/content/title.xhtml", 2%Z);
   ("OEBPS/content/chapter1.xhtml", 9%Z)].

(** A package without navigation map, whose spine holds a contents page
    that links the copyright notice and the first chapter. *)
Definition contents_page_opf : OpfDoc :=
  {| opf_manifest :=
       Some [xhtml_item "cover" "cover.xhtml" None;
             xhtml_item "contents" "contents.xhtml" None;
             xhtml_item "copyright" "copyright.xhtml" None;
             xhtml_item "ch1" "ch1.xhtml" None];
     opf_spine :=
       Some {| spine_toc_attr := None;
               spine_itemrefs :=
                 [Some "cover"; Some "contents"; Some "copyright"; Some "ch1"] |} |}.

Definition contents_page : ZipFile :=
  {| namelist := ["mimetype"; "META-INF/container.xml"; "OEBPS/content.opf";
                  "OEBPS/cover.xhtml"; "OEBPS/contents.xhtml";
                  "OEBPS/copyright.xhtml"; "OEBPS/ch1.xhtml"];
     opf_tree := fun p => if p =? "OEBPS/content.opf" then Ret contents_page_opf else missing p;
     nav_tree := missing;
     ncx_tree := missing;
     html_anchors :=
       fun p =>
         if p =? "OEBPS/contents.xhtml"
         then Ret [Some "ch1.xhtml"; None; Some "copyright.xhtml#notice"]
         else missing p |}.

Definition contents_page_scores : list (string * Z) :=
  [("OEBPS/cover.xhtml", 0%Z);
   ("OEBPS/contents.xhtml", 1%Z);
   ("OEBPS/copyright.xhtml", 9%Z);
   ("OEBPS/ch1.xhtml", 2%Z)].

(** The sample folder with that package added. *)
Definition open_book (path : string) : exc ZipFile :=
  if path =? "contents-page.epub" then Ret contents_page else open_zip path.

End Scenario.

(** ** The rest of the two scripts: the batch drivers and the page metrics *)

Module Batch.

(** [s.replace(old, new)] for a non-empty [old]: every occurrence, from the
    left, without overlap.  [skip] counts the characters of an occurrence
    still to be passed over. *)
Fixpoint replace_from (old new : string) (skip : nat) (s : string) : string :=
  match s with
  | EmptyString => EmptyString
  | String c rest =>
      match skip with
      | S k => replace_from old new k rest
      | O =>
          if prefix old s
          then (new ++ replace_from old new (String.length old - 1) rest)%string
          else String c (replace_from old new 0 rest)
      end
  end.

Definition replace (old new s : string) : string := replace_from old new 0 s.

(** What [main] asks of the file system.  [resolve_folder] is
    [Path(folder).expanduser().resolve()], as [str(p)]; it raises where the
    home directory of a [~user] is unknown or the path cannot be resolved.
    [is_dir] is [p.is_dir()], which raises on an error of [stat] other than a
    missing path.  [rglob_epub] is [sorted(p.rglob('*.epub'))], each path as
    [str(epub)]. *)
Record FileSystem : Type := {
  resolve_folder : string -> exc string;
  is_dir : string -> exc bool;
  rglob_epub : string -> exc (list string)
}.

(** Code that prints.  A computation takes the lines printed so far and
    yields the lines printed when it ends, with its value or the exception
    that ended it. *)
Definition io (A : Type) : Type := list string -> list string * exc A.

Definition io_ret {A : Type} (a : A) : io A := fun out => (out, Ret a).

Definition io_bind {A B : Type} (m : io A) (k : A -> io B) : io B :=
  fun out =>
    match m out with
    | (out', Ret a) => k a out'
    | (out', Raise e) => (out', Raise e)
    end.

(** A computation that prints nothing. *)
Definition lift {A : Type} (m : exc A) : io A := fun out => (out, m).

(** [print(line)].  Writing to the standard output may fail (a closed pipe,
    a character that its encoding lacks): [write_error] tells, from the lines
    printed so far and the line to print, whether it does and with what. *)
Definition print (write_error : list string -> string -> option exception)
  (line : string) : io unit :=
  fun out =>
    match write_error out line with
    | Some e => (out, Raise e)
    | None => (append out line, Ret tt)
    end.

(** The value of a run of [main]: [None] when it returns, the status when
    it ends in [sys.exit(status)]. *)
Definition sys_exit (status : nat) : io (option nat) := io_ret (Some status).

End Batch.
Export Batch.

Declare Scope io_scope.
Delimit Scope io_scope with io.
Notation "x <- m ;; k" := (io_bind m (fun x => k))
  (at level 61, m at next level, right associativity) : io_scope.
Notation "' pat <- m ;; k" := (io_bind m (fun x => match x with pat => k end))
  (at level 61, pat pattern, m at next level, right associativity) : io_scope.

Module DetectNoTocMain.
Section DetectNoTocMain.
Context {U : PyStr}.

Variable open_zip : string -> exc ZipFile.
Variable find_opf_path : ZipFile -> exc (option string).
Variable file_system : FileSystem.
Variable write_error : list string -> string -> option exception.

(** The parsed page of [count_headings_in_file]: [tree.find(...) or
    tree.find(...)] for the body, and [body.findall(path)]. *)
Variable Body : Type.
Variable html_body : ZipFile -> string -> exc (option Body).
Variable findall : Body -> string -> list string.

(** [f'.//{{{http://www.w3.org/1999/xhtml}}}{tag}']: the doubled braces are
    literal braces, so the replacement field is the expression [http] with
    the format [//www.w3.org/1999/xhtml]; the module binds no name [http],
    and evaluating the string raises [NameError]. *)
Definition namespaced_heading_path (tag : string) : exc string :=
  Raise (Exception "name 'http' is not defined").

Definition heading_tags : list string := ["h1"; "h2"; "h3"; "h4"; "h5"; "h6"].

Definition count_headings_in_file (z : ZipFile) (filepath : string) : exc nat :=
  try_except
    (body <- html_body z filepath ;;
     match body with
     | None => Ret 0
     | Some body =>
         headings <-
           foldM
             (fun headings tag =>
                path <- namespaced_heading_path tag ;;
                let found :=
                  if nonempty (findall body path) then findall body path
                  else findall body (".//" ++ tag)%string in
                Ret (headings ++ found))
             heading_tags [] ;;
         Ret (List.length headings)
     end)
    (fun _ => Ret 0).

(** The line printed for a file with reasons. *)
Definition report_line (epub : string) (reasons : list string) : string :=
  (replace ".epub" "" (name (parse epub)) ++ ": " ++ join ", " reasons)%string.

(** The loop of [main] over the files, on [found_issues]. *)
Fixpoint report_loop (epubs : list string) (found_issues : nat) : io nat :=
  match epubs with
  | [] => io_ret found_issues
  | epub :: rest =>
      (reasons <- lift (DetectNoToc.analyze_epub_single_chapter open_zip find_opf_path epub) ;;
       if nonempty reasons then
         _ <- print write_error (report_line epub reasons) ;;
         report_loop rest (found_issues + 1)
       else report_loop rest found_issues)%io
  end.

(** [main(folder)], with [debug] left at [False]. *)
Definition main (folder : string) : io (option nat) :=
  (_ <- print write_error "Detecting EPUBs with single-chapter issues..." ;;
   p <- lift (resolve_folder file_system folder) ;;
   dir <- lift (is_dir file_system p) ;;
   if negb dir then
     _ <- print write_error ("Folder not found: " ++ p)%string ;;
     sys_exit 1
   else
     epub_paths <- lift (rglob_epub file_system p) ;;
     if negb (nonempty epub_paths) then
       _ <- print write_error "No EPUB files found" ;;
       io_ret None
     else
       found_issues <- report_loop epub_paths 0 ;;
       if (found_issues =? 0)%nat then
         _ <- print write_error "No single-chapter issues detected" ;;
         io_ret None
       else io_ret None)%io.

End DetectNoTocMain.
End DetectNoTocMain.

Module CheckCopyrightTocMain.
Section CheckCopyrightTocMain.
Context {U : PyStr}.

Variable open_zip : string -> exc ZipFile.
Variable find_opf_path : ZipFile -> exc (option string).
Variable resolve_href : string -> string -> string.
Variable get_spine_xhtml_paths : ZipFile -> Manifest -> list string -> string -> list string.
Variable extract_text_from_xhtml : ZipFile -> string -> string.
Variable score_file : string -> string -> Z.
Variable CONFIDENCE_THRESHOLD : Z.
Variable file_system : FileSystem.
Variable write_error : list string -> string -> option exception.

(** [s[:n]], the first [n] characters of a [str]. *)
Variable slice_to : nat -> string -> string.

(** [for line in lines: print(line)] *)
Fixpoint print_all (lines : list string) : io unit :=
  match lines with
  | [] => io_ret tt
  | line :: rest => (_ <- print write_error line ;; print_all rest)%io
  end.

(** The lines printed for one file, in the order of the [print] calls of the
    loop body: one for each warning, then one for the hits when [result] is
    true. *)
Definition file_lines (epub_path : string) (result : option (list string))
  (warnings : list string) : list string :=
  let name := replace ".epub" "" (name (parse epub_path)) in
  map (fun w => (slice_to 30 name ++ ": " ++ w)%string) warnings
  ++ match result with
     | Some hits =>
         if nonempty hits then [(slice_to 30 name ++ ": " ++ join ", " hits)%string]
         else []
     | None => []
     end.

Definition truthy_result (result : option (list string)) : bool :=
  match result with
  | Some hits => nonempty hits
  | None => false
  end.

(** The loop of [main] over the files, on [found]. *)
Fixpoint report_loop (epubs : list string) (found : nat) : io nat :=
  match epubs with
  | [] => io_ret found
  | epub_path :: rest =>
      (' (result, warnings) <-
         lift (CheckCopyrightToc.analyze_epub open_zip find_opf_path resolve_href
                 get_spine_xhtml_paths extract_text_from_xhtml score_file
                 CONFIDENCE_THRESHOLD epub_path) ;;
       _ <- print_all (file_lines epub_path result warnings) ;;
       report_loop rest (if truthy_result result then found + 1 else found))%io
  end.

Definition main (folder : string) : io (option nat) :=
  (p <- lift (resolve_folder file_system folder) ;;
   dir <- lift (is_dir file_system p) ;;
   if negb dir then
     _ <- print write_error ("Folder not found: " ++ p)%string ;;
     sys_exit 1
   else
     epub_paths <- lift (rglob_epub file_system p) ;;
     if negb (nonempty epub_paths) then
       _ <- print write_error "No EPUB files found" ;;
       io_ret None
     else
       found <- report_loop epub_paths 0 ;;
       if (found =? 0)%nat then
         _ <- print write_error "No copyright pages found in any TOC" ;;
         io_ret None
       else io_ret None)%io.

End CheckCopyrightTocMain.
End CheckCopyrightTocMain.

(** ** A sample folder *)

Module Shelf.

(** The folder [books] of the reader holds four files, one of them no
    archive; the home directory of the user [ghost] is unknown. *)
Definition file_system : FileSystem :=
  {| resolve_folder :=
       fun folder =>
         if folder =? "~ghost/books"
         then Raise (RuntimeError "Could not determine home directory.")
         else Ret ("/home/reader/" ++ folder)%string;
     is_dir := fun p => Ret (p =? "/home/reader/books");
     rglob_epub :=
       fun p =>
         if p =? "/home/reader/books"
         then Ret ["/home/reader/books/broken.epub";
                   "/home/reader/books/contents-page.epub";
                   "/home/reader/books/legacy.epub";
                   "/home/reader/books/three-chapters.epub"]
         else Ret [] |}.

(** The archive behind a path of the folder. *)
Definition open_zip (path : string) : exc ZipFile :=
  Scenario.open_book (name (parse path)).

(** A standard output that takes every line. *)
Definition writable (out : list string) (line : string) : option exception := None.

Definition scores : list (string * Z) :=
  Scenario.legacy_scores ++ Scenario.contents_page_scores.

(** [s[:n]] for a name of ASCII characters. *)
Definition slice_to (n : nat) (s : string) : string := substring 0 n s.

End Shelf.

(** ** Further predicates used in the statements *)

Module MoreProps.

(** Segments that the collapsing loop may leave: the root of an absolute
    path, or a segment that is not empty, [.] or [..] and holds no [/]. *)
Definition solid_segment (x : string) : Prop :=
  plain_segment x \/ x = "/" \/ x = "//".

(** The step of the loop over the [<item>] elements. *)
Definition manifest_step (manifest : Manifest) (item : OpfItem) : Manifest :=
  match item_id item, item_href item with
  | Some iid, Some h =>
      if truthy iid && truthy h then
        dict_set manifest iid
          {| href := h;
             media_type := item_media_type item;
             properties := or_empty (item_properties item) |}
      else manifest
  | _, _ => manifest
  end.

(** Does [item] declare the id [iid], with an id and an href that are not
    empty? *)
Definition declares (iid : string) (item : OpfItem) : bool :=
  match item_id item, item_href item with
  | Some i, Some h => (i =? iid) && truthy i && truthy h
  | _, _ => false
  end.

(** The manifest entry that [item] declares. *)
Definition declared_entry (item : OpfItem) : ManifestItem :=
  {| href := or_empty (item_href item);
     media_type := item_media_type item;
     properties := or_empty (item_properties item) |}.

(** A manifest with distinct, non-empty ids and non-empty hrefs. *)
Definition manifest_wf (manifest : Manifest) : Prop :=
  NoDup (map fst manifest) /\
  Forall (fun kv => truthy (fst kv) = true /\ truthy (href (snd kv)) = true) manifest.

(** The results of [analyze_epub_single_chapter] and of [analyze_epub]. *)
Definition reason_lists : list (list string) :=
  [[]; ["no_opf"]; ["no_content_files"]; ["no_toc"];
   ["toc_has_no_content_entries"]; ["single_toc_entry"]; ["error_parsing_epub"]].

Definition hit_lists : list (option (list string)) :=
  [None; Some ["in ncx"]; Some ["in human toc page"];
   Some ["in ncx"; "in human toc page"]].

Section Paths.
Context {U : PyStr}.

(** Is the resolved path [f] a content document: a markup extension, and a
    file name without boilerplate keyword? *)
Definition is_content_path (f : string) : bool :=
  existsb (endswith (lower f)) DetectNoToc.content_suffixes
  && negb (existsb (fun keyword => contains keyword (lower (name (parse f))))
             ["cover"; "title"; "copyright"; "toc"]).

(** What one spine id adds to the list of content files. *)
Definition content_file_of (manifest : Manifest) (opf_dir idref : string) : list string :=
  match dict_get manifest idref with
  | Some item =>
      if is_content_path (DetectNoToc.resolve_href opf_dir (href item))
      then [DetectNoToc.resolve_href opf_dir (href item)]
      else []
  | None => []
  end.

(** Can the navigation document of [item] be used: is [item] marked [nav],
    is its resolved href in the archive, and does it parse? *)
Definition usable_nav (z : ZipFile) (opf_dir : string) (item : ManifestItem) : bool :=
  mem "nav" (split_ws (properties item))
  && mem (DetectNoToc.resolve_href opf_dir (href item)) (namelist z)
  && match nav_tree z (DetectNoToc.resolve_href opf_dir (href item)) with
     | Ret _ => true
     | Raise _ => false
     end.

End Paths.

Section HumanToc.
Context {U : PyStr}.
Variable resolve_href : string -> string -> string.

(** What one spine id adds to the links of the human TOC pages. *)
Definition human_toc_links (z : ZipFile) (manifest : Manifest) (opf_dir idref : string)
  : list (string * string) :=
  match dict_get manifest idref with
  | None => []
  | Some item =>
      let page := resolve_href opf_dir (href item) in
      if (contains "toc" (lower (name (parse page)))
          || contains "contents" (lower (name (parse page))))
         && mem page (namelist z)
      then match html_anchors z page with
           | Ret anchors =>
               flat_map
                 (fun link => if truthy_opt link then [(or_empty link, page)] else [])
                 anchors
           | Raise _ => []
           end
      else []
  end.

End HumanToc.

Section DetectLines.
Context {U : PyStr}.
Variable open_zip : string -> exc ZipFile.
Variable find_opf_path : ZipFile -> exc (option string).

(** The line that [main] prints for a file, if any. *)
Definition issue_line (epub : string) : list string :=
  let reasons := value [] (DetectNoToc.analyze_epub_single_chapter open_zip find_opf_path epub) in
  if nonempty reasons then [DetectNoTocMain.report_line epub reasons] else [].

End DetectLines.

Section CheckLines.
Context {U : PyStr}.
Variable open_zip : string -> exc ZipFile.
Variable find_opf_path : ZipFile -> exc (option string).
Variable resolve_href : string -> string -> string.
Variable get_spine_xhtml_paths : ZipFile -> Manifest -> list string -> string -> list string.
Variable extract_text_from_xhtml : ZipFile -> string -> string.
Variable score_file : string -> string -> Z.
Variable CONFIDENCE_THRESHOLD : Z.
Variable slice_to : nat -> string -> string.

(** The result and the warnings of one file. *)
Definition outcome (epub_path : string) : option (list string) * list string :=
  value (None, []) (CheckCopyrightToc.analyze_epub open_zip find_opf_path resolve_href
               get_spine_xhtml_paths extract_text_from_xhtml score_file
               CONFIDENCE_THRESHOLD epub_path).

(** The lines that [main] prints for one file. *)
Definition lines_of (epub_path : string) : list string :=
  CheckCopyrightTocMain.file_lines slice_to epub_path
    (fst (outcome epub_path)) (snd (outcome epub_path)).

Definition has_hits (epub_path : string) : bool :=
  CheckCopyrightTocMain.truthy_result (fst (outcome epub_path)).

End CheckLines.

End MoreProps.
Export MoreProps.


(** * Proofs *)

(** ** The error monad *)

Lemma returns_Ret {A : Type} (a : A) : returns (Ret a).
Proof. now exists a. Qed.

Lemma returns_value {A : Type} (d : A) (m : exc A) :
  returns m -> m = Ret (value d m).
Proof. intros [a ->]. reflexivity. Qed.

Lemma bind_Ret {A B : Type} (a : A) (k : A -> exc B) : bind (Ret a) k = k a.
Proof. reflexivity. Qed.

Lemma try_except_returns {A : Type} (body : exc A) (handler : exception -> exc A) :
  (forall e, returns (handler e)) -> returns (try_except body handler).
Proof.
  intros H. destruct body as [e|a]; simpl.
  - apply H.
  - apply returns_Ret.
Qed.

(** ** Strings *)

Lemma mem_In (x : string) (l : list string) : mem x l = true <-> In x l.
Proof.
  unfold mem. rewrite existsb_exists. split.
  - intros [y [Hy Heq]]. apply String.eqb_eq in Heq. now subst.
  - intros H. exists x. split; [assumption | apply String.eqb_refl].
Qed.

Lemma mem_false_In (x : string) (l : list string) : mem x l = false <-> ~ In x l.
Proof.
  rewrite <- mem_In. destruct (mem x l); split; intros; congruence.
Qed.

Lemma truthy_false (s : string) : truthy s = false <-> s = "".
Proof.
  unfold truthy. destruct (String.eqb_spec s ""); simpl; split; intros; congruence.
Qed.

Lemma split_nonempty (sep : ascii) (m : option nat) (s : string) :
  split sep m s <> [].
Proof.
  revert m. induction s as [|c s IH]; intros m; simpl.
  - discriminate.
  - destruct ((c =? sep)%char && _); [discriminate|].
    destruct (split sep m s); discriminate.
Qed.

(** [needle in hay] holds exactly when [needle] occurs in [hay]. *)
Lemma prefix_app (needle hay : string) :
  prefix needle hay = true <-> exists post, hay = (needle ++ post)%string.
Proof.
  revert hay. induction needle as [|c n IH]; intros hay.
  - split; [intros _; now exists hay | intros _; now destruct hay].
  - destruct hay as [|d h]; simpl.
    + split; [discriminate | intros [post H]; discriminate].
    + destruct (Ascii.ascii_dec c d) as [->|Hne].
      * rewrite IH. split; intros [post H]; exists post; congruence.
      * split; [discriminate | intros [post H]; congruence].
Qed.

Lemma contains_cons (needle : string) (c : ascii) (hay : string) :
  contains needle (String c hay) = prefix needle (String c hay) || contains needle hay.
Proof. reflexivity. Qed.

Lemma contains_occurs (needle hay : string) :
  contains needle hay = true <->
  exists pre post, hay = (pre ++ needle ++ post)%string.
Proof.
  induction hay as [|c h IH].
  - change (contains needle "") with (prefix needle "" || false).
    rewrite orb_false_r, prefix_app. split.
    + intros [post H]. now exists "", post.
    + intros [pre [post H]]. destruct pre; simpl in H; [now exists post | discriminate].
  - rewrite contains_cons, orb_true_iff, prefix_app, IH. split.
    + intros [[post H] | [pre [post H]]].
      * now exists "", post.
      * exists (String c pre), post. simpl. now rewrite H.
    + intros [pre [post H]]. destruct pre as [|d pre]; simpl in H.
      * left. now exists post.
      * right. exists pre, post. congruence.
Qed.

(** ** Fragment stripping and collapsing never raise *)

Lemma strip_fragment_returns (href : string) : returns (strip_fragment href).
Proof.
  unfold strip_fragment, getitem.
  destruct (split "#" (Some 1) href) eqn:E.
  - now apply split_nonempty in E.
  - apply returns_Ret.
Qed.

Lemma strip_fragment_value (href : string) :
  strip_fragment href = Ret (fragment_free href).
Proof. apply returns_value, strip_fragment_returns. Qed.

Lemma collapse_returns (parts acc : list string) : returns (collapse parts acc).
Proof.
  revert acc. induction parts as [|part rest IH]; intros acc; simpl.
  - apply returns_Ret.
  - destruct (part =? "..").
    + destruct acc as [|a acc]; simpl; apply IH.
    + destruct (negb (part =? ".")); apply IH.
Qed.

Lemma detect_normalize_path_returns `{PyStr} (base_path href : string) :
  returns (DetectNoToc.normalize_path base_path href).
Proof.
  unfold DetectNoToc.normalize_path.
  destruct (negb (truthy base_path)); [apply returns_Ret|].
  destruct (collapse_returns
              (parts (parse (as_posix (truediv (parent (parse base_path))
                                         (parse (unquote href)))))) []) as [out ->].
  apply returns_Ret.
Qed.

Lemma check_normalize_path_detect `{PyStr} (base_path href : string) (namelist : list string) :
  CheckCopyrightToc.normalize_path base_path href namelist =
  if mem (unquote href) namelist then Ret (unquote href)
  else DetectNoToc.normalize_path base_path href.
Proof. reflexivity. Qed.

Lemma check_normalize_path_returns `{PyStr} (base_path href : string) (namelist : list string) :
  returns (CheckCopyrightToc.normalize_path base_path href namelist).
Proof.
  rewrite check_normalize_path_detect.
  destruct (mem _ _); [apply returns_Ret | apply detect_normalize_path_returns].
Qed.

(** ** Splitting and joining *)

Lemma split_sep (sep : ascii) (rest : string) :
  split sep None (String sep rest) = "" :: split sep None rest.
Proof. simpl. now rewrite Ascii.eqb_refl. Qed.

Lemma split_other (sep c : ascii) (rest : string) :
  (c =? sep)%char = false ->
  split sep None (String c rest) =
  match split sep None rest with
  | piece :: pieces => String c piece :: pieces
  | [] => [String c ""]
  end.
Proof. intros H. simpl. now rewrite H. Qed.

Lemma split_no_sep (sep : ascii) (x : string) :
  has_char sep x = false -> split sep None x = [x].
Proof.
  induction x as [|c x IH]; intros H.
  - reflexivity.
  - simpl in H. apply orb_false_iff in H as [Hc Hx].
    rewrite split_other by assumption. now rewrite IH.
Qed.

Lemma split_app_sep (sep : ascii) (x rest : string) :
  has_char sep x = false ->
  split sep None (x ++ String sep rest) = x :: split sep None rest.
Proof.
  induction x as [|c x IH]; intros H.
  - apply split_sep.
  - simpl in H. apply orb_false_iff in H as [Hc Hx].
    change (String c x ++ String sep rest)%string with (String c (x ++ String sep rest)).
    rewrite split_other by assumption. now rewrite IH.
Qed.

Lemma split_pieces_no_sep (sep : ascii) (s : string) :
  Forall (fun x => has_char sep x = false) (split sep None s).
Proof.
  induction s as [|c s IH].
  - repeat constructor.
  - destruct (c =? sep)%char eqn:E.
    + apply Ascii.eqb_eq in E. subst c. rewrite split_sep.
      constructor; [reflexivity | assumption].
    + rewrite split_other by assumption.
      destruct (split sep None s) as [|piece pieces].
      * repeat constructor. simpl. now rewrite E.
      * inversion IH; subst. constructor; [|assumption].
        simpl. now rewrite E.
Qed.

Lemma join_cons (sep x y : string) (l : list string) :
  join sep (x :: y :: l) = (x ++ sep ++ join sep (y :: l))%string.
Proof. reflexivity. Qed.

Lemma split_join (l : list string) :
  l <> [] ->
  Forall (fun x => has_char "/" x = false) l ->
  split "/" None (join "/" l) = l.
Proof.
  induction l as [|x l IH]; intros Hne Hall; [congruence|].
  inversion Hall as [|? ? Hx Hl]; subst.
  destruct l as [|y l].
  - simpl. now apply split_no_sep.
  - rewrite join_cons.
    change ("/" ++ join "/" (y :: l))%string with (String "/" (join "/" (y :: l))).
    rewrite split_app_sep by assumption.
    rewrite IH; [reflexivity | discriminate | assumption].
Qed.

(** ** Paths *)

Lemma splitroot_root (p : string) :
  fst (splitroot p) = "" \/ fst (splitroot p) = "/" \/ fst (splitroot p) = "//".
Proof.
  unfold splitroot.
  repeat match goal with
         | |- context [match ?x with _ => _ end] => destruct x; simpl; auto
         end.
Qed.

Lemma parse_wf (s : string) : wf_path (parse s).
Proof.
  unfold parse. pose proof (splitroot_root s) as Hr.
  destruct (splitroot s) as [r rel]. simpl in Hr. split; [exact Hr|]. simpl.
  apply Forall_forall. intros x Hx. apply filter_In in Hx as [Hin Hkeep].
  split; [assumption|].
  pose proof (split_pieces_no_sep "/" rel) as Hall.
  rewrite Forall_forall in Hall. now apply Hall.
Qed.

Lemma splitroot_relative (c : ascii) (s : string) :
  (c =? "/")%char = false -> splitroot (String c s) = ("", String c s).
Proof.
  intros H. unfold splitroot.
  destruct c as [[] [] [] [] [] [] [] []]; try reflexivity; discriminate.
Qed.

Lemma splitroot_slash (c : ascii) (s : string) :
  (c =? "/")%char = false -> splitroot (String "/" (String c s)) = ("/", String c s).
Proof.
  intros H. unfold splitroot.
  destruct c as [[] [] [] [] [] [] [] []]; try reflexivity; discriminate.
Qed.

Lemma splitroot_slash2 (c : ascii) (s : string) :
  (c =? "/")%char = false ->
  splitroot (String "/" (String "/" (String c s))) = ("//", String c s).
Proof.
  intros H. unfold splitroot.
  destruct c as [[] [] [] [] [] [] [] []]; try reflexivity; discriminate.
Qed.

Lemma filter_keep_clean (l : list string) :
  Forall clean_segment l -> filter keep_segment l = l.
Proof.
  induction 1 as [|x l [Hk _] _ IH]; simpl; [reflexivity|].
  now rewrite Hk, IH.
Qed.

Lemma clean_no_slash (l : list string) :
  Forall clean_segment l -> Forall (fun x => has_char "/" x = false) l.
Proof. apply Forall_impl. now intros x [_ H]. Qed.

(** The joined segments of a path start with a character other than ['/']. *)
Lemma join_clean_head (x : string) (l : list string) :
  clean_segment x ->
  exists c s, join "/" (x :: l) = String c s /\ (c =? "/")%char = false.
Proof.
  intros [Hk Hs]. destruct x as [|c x]; [discriminate|].
  simpl in Hs. apply orb_false_iff in Hs as [Hc _].
  destruct l as [|y l].
  - now exists c, x.
  - rewrite join_cons. simpl. eauto.
Qed.

Lemma parse_join_clean (l : list string) :
  Forall clean_segment l ->
  tail (parse (join "/" l)) = l /\ root (parse (join "/" l)) = "".
Proof.
  intros Hall. destruct l as [|x l].
  - now split.
  - inversion Hall as [|? ? Hx Hl]; subst.
    destruct (join_clean_head x l Hx) as [c [s [E Hc]]].
    assert (Hsplit : filter keep_segment (split "/" None (String c s)) = x :: l).
    { rewrite <- E. rewrite split_join; [|discriminate|now apply clean_no_slash].
      now apply filter_keep_clean. }
    unfold parse. rewrite E, (splitroot_relative c s Hc). cbv beta iota.
    now rewrite Hsplit.
Qed.

(** Parsing the text of a parsed path gives the path back. *)
Lemma parse_as_posix (p : PurePosixPath) :
  wf_path p -> parse (as_posix p) = p.
Proof.
  destruct p as [r t]. intros [Hr Ht]. simpl in Hr, Ht. unfold as_posix. simpl.
  destruct t as [|x t].
  - destruct Hr as [-> | [-> | ->]]; reflexivity.
  - inversion Ht as [|? ? Hx Hl]; subst.
    destruct (join_clean_head x t Hx) as [c [s [E Hc]]].
    assert (Hsplit : filter keep_segment (split "/" None (String c s)) = x :: t).
    { rewrite <- E. rewrite split_join; [|discriminate|now apply clean_no_slash].
      now apply filter_keep_clean. }
    rewrite E.
    destruct Hr as [-> | [-> | ->]]; simpl; unfold parse.
    + rewrite (splitroot_relative c s Hc). cbv beta iota. now rewrite Hsplit.
    + rewrite (splitroot_slash c s Hc). cbv beta iota. now rewrite Hsplit.
    + rewrite (splitroot_slash2 c s Hc). cbv beta iota. now rewrite Hsplit.
Qed.

Lemma as_posix_parse_idem (s : string) :
  as_posix (parse (as_posix (parse s))) = as_posix (parse s).
Proof. now rewrite parse_as_posix by apply parse_wf. Qed.

(** ** The collapsing loop *)

Lemma Forall_removelast {A : Type} (P : A -> Prop) (l : list A) :
  Forall P l -> Forall P (removelast l).
Proof.
  induction 1 as [|x l Hx Hl IH]; simpl; [constructor|].
  destruct l; [constructor | now constructor].
Qed.

Lemma collapse_plain (parts acc : list string) :
  Forall clean_segment parts -> Forall plain_segment acc ->
  exists out, collapse parts acc = Ret out /\ Forall plain_segment out.
Proof.
  intros Hparts. revert acc.
  induction Hparts as [|part rest Hpart _ IH]; intros acc Hacc; simpl.
  - now exists acc.
  - destruct (String.eqb_spec part "..") as [->|Hne].
    + destruct acc as [|a acc]; simpl.
      * now apply IH.
      * apply IH. now apply (Forall_removelast _ (a :: acc)).
    + destruct Hpart as [Hk Hs].
      assert (Hdot : (part =? ".") = false).
      { unfold keep_segment in Hk. apply andb_true_iff in Hk as [_ Hk].
        now apply negb_true_iff in Hk. }
      rewrite Hdot. simpl. apply IH. unfold append.
      apply Forall_app. split; [assumption|].
      constructor; [|constructor]. now repeat split.
Qed.

Lemma collapse_of_plain (l acc : list string) :
  Forall plain_segment l -> collapse l acc = Ret (acc ++ l).
Proof.
  intros Hl. revert acc.
  induction Hl as [|x l [[Hk Hs] Hne] _ IH]; intros acc; simpl.
  - now rewrite app_nil_r.
  - apply String.eqb_neq in Hne. rewrite Hne.
    unfold keep_segment in Hk. apply andb_true_iff in Hk as [_ Hk]. rewrite Hk.
    rewrite IH. unfold append. now rewrite <- app_assoc.
Qed.

Lemma truediv_root_dir (q : PurePosixPath) : truediv root_dir q = q.
Proof.
  unfold truediv. destruct (truthy (root q)) eqn:E; [reflexivity|].
  apply truthy_false in E. destruct q as [r t]. simpl in *. now subst.
Qed.

Lemma parts_relative (p : PurePosixPath) : root p = "" -> parts p = tail p.
Proof. unfold parts. now intros ->. Qed.

(** The text that [normalize_path] builds from a clean output stack parses
    back to that stack. *)
Lemma parse_joined (out : list string) :
  Forall plain_segment out ->
  parse (if nonempty out then join "/" out else "") = {| root := ""; tail := out |}.
Proof.
  intros Hout. destruct out as [|x out]; [reflexivity|].
  assert (Hclean : Forall clean_segment (x :: out)).
  { eapply Forall_impl; [|exact Hout]. now intros y [Hy _]. }
  destruct (parse_join_clean (x :: out) Hclean) as [Ht Hr].
  simpl nonempty. cbv iota.
  destruct (parse (join "/" (x :: out))) as [r t]. simpl in *. now subst.
Qed.

Section Idempotence.
Context {U : PyStr}.

Lemma detect_normalize_path_idempotent (base_path href : string) :
  parent (parse base_path) = root_dir ->
  root (parse (unquote href)) = "" ->
  exists r,
    DetectNoToc.normalize_path base_path href = Ret r /\
    (unquote r = r -> DetectNoToc.normalize_path base_path r = Ret r).
Proof.
  intros Hbase Hrel. unfold DetectNoToc.normalize_path.
  destruct (negb (truthy base_path)).
  - eexists. split; [reflexivity|]. intros ->. now rewrite as_posix_parse_idem.
  - rewrite Hbase, truediv_root_dir.
    rewrite parse_as_posix by apply parse_wf.
    rewrite parts_relative by assumption.
    destruct (collapse_plain (tail (parse (unquote href))) [])
      as [out [Hout Hplain]]; [apply parse_wf | constructor |].
    rewrite Hout. simpl. eexists. split; [reflexivity|]. intros ->.
    rewrite truediv_root_dir.
    rewrite parse_as_posix by apply parse_wf.
    rewrite parse_joined by assumption.
    rewrite parts_relative by reflexivity. simpl tail.
    now rewrite collapse_of_plain.
Qed.

Lemma check_normalize_path_idempotent (base_path href : string) (namelist : list string) :
  parent (parse base_path) = root_dir ->
  root (parse (unquote href)) = "" ->
  exists r,
    CheckCopyrightToc.normalize_path base_path href namelist = Ret r /\
    (unquote r = r -> CheckCopyrightToc.normalize_path base_path r namelist = Ret r).
Proof.
  intros Hbase Hrel. rewrite check_normalize_path_detect.
  destruct (mem (unquote href) namelist) eqn:Hmem.
  - eexists. split; [reflexivity|]. intros Hr.
    rewrite check_normalize_path_detect, Hr, Hmem. reflexivity.
  - destruct (detect_normalize_path_idempotent base_path href Hbase Hrel)
      as [r [Hr Hidem]].
    exists r. split; [assumption|]. intros Hu.
    rewrite check_normalize_path_detect, Hu.
    destruct (mem r namelist); [reflexivity | now apply Hidem].
Qed.

End Idempotence.

(** ** The loops of [analyze_toc_structure] *)

Lemma filterM_filter {A : Type} (keep : A -> exc bool) (l : list A) :
  (forall x, returns (keep x)) ->
  filterM keep l = Ret (filter (fun x => value false (keep x)) l).
Proof.
  intros Hret. induction l as [|x l IH]; simpl; [reflexivity|].
  destruct (Hret x) as [k ->]. simpl. rewrite IH. reflexivity.
Qed.

Lemma foldM_returns {A S : Type} (step : S -> A -> exc S) (l : list A) (s : S) :
  (forall s x, returns (step s x)) -> returns (foldM step l s).
Proof.
  intros Hret. revert s. induction l as [|x l IH]; intros s; simpl.
  - apply returns_Ret.
  - destruct (Hret s x) as [s' ->]. simpl. apply IH.
Qed.

Section Classifier.
Context {U : PyStr}.

Lemma detect_normalize_path_value (base_path href : string) :
  DetectNoToc.normalize_path base_path href =
  Ret (value "" (DetectNoToc.normalize_path base_path href)).
Proof. apply returns_value, detect_normalize_path_returns. Qed.

Lemma is_content_entry_value (content_files : list string) (entry : TocEntry) :
  DetectNoToc.is_content_entry content_files entry =
  Ret (negb (mem (entry_label entry) DetectNoToc.boilerplate_keywords
             || existsb (fun keyword => contains keyword (entry_label entry))
                  ["cover"; "title page"; "copyright"])
       && negb (existsb (fun keyword => contains keyword (entry_filename entry))
                  ["cover"; "title"; "copyright"; "toc"])
       && mem (entry_target entry) content_files).
Proof.
  unfold DetectNoToc.is_content_entry, DetectNoToc.strip_fragment.
  rewrite strip_fragment_value, bind_Ret.
  rewrite detect_normalize_path_value, bind_Ret.
  reflexivity.
Qed.

Lemma is_content_entry_returns (content_files : list string) (entry : TocEntry) :
  returns (DetectNoToc.is_content_entry content_files entry).
Proof. rewrite is_content_entry_value. apply returns_Ret. Qed.

Lemma add_target_returns (content_files unique_targets : list string) (entry : TocEntry) :
  returns (DetectNoToc.add_target content_files unique_targets entry).
Proof.
  unfold DetectNoToc.add_target, DetectNoToc.strip_fragment.
  rewrite strip_fragment_value, bind_Ret.
  rewrite detect_normalize_path_value, bind_Ret.
  apply returns_Ret.
Qed.

Lemma is_content_in_content_files (content_files : list string) (entry : TocEntry) :
  is_content content_files entry = true -> mem (entry_target entry) content_files = true.
Proof.
  unfold is_content. rewrite is_content_entry_value. simpl.
  intros E. now apply andb_true_iff in E as [_ E].
Qed.

Lemma add_target_value (content_files unique_targets : list string) (entry : TocEntry) :
  DetectNoToc.add_target content_files unique_targets entry =
  Ret (if mem (entry_target entry) content_files
       then set_add string_dec (entry_target entry) unique_targets
       else unique_targets).
Proof.
  unfold DetectNoToc.add_target, DetectNoToc.strip_fragment.
  rewrite strip_fragment_value, bind_Ret.
  rewrite detect_normalize_path_value, bind_Ret.
  reflexivity.
Qed.

(** The second loop collects the targets of the entries, each once. *)
Lemma unique_targets_value (content_files : list string) (entries : list TocEntry)
  (unique_targets : list string) :
  Forall (fun e => mem (entry_target e) content_files = true) entries ->
  NoDup unique_targets ->
  exists targets,
    foldM (DetectNoToc.add_target content_files) entries unique_targets = Ret targets /\
    NoDup targets /\
    forall x, In x targets <-> In x unique_targets \/ In x (map entry_target entries).
Proof.
  intros Hall. revert unique_targets.
  induction Hall as [|e entries He _ IH]; intros unique_targets Hnodup.
  - exists unique_targets. simpl. repeat split; [assumption | tauto | tauto].
  - cbn [foldM]. rewrite add_target_value, bind_Ret, He.
    destruct (IH (set_add string_dec (entry_target e) unique_targets))
      as [targets [Hfold [Hnd Hin]]]; [now apply set_add_nodup|].
    exists targets. split; [assumption|]. split; [assumption|].
    intros x. rewrite Hin, set_add_iff. simpl. intuition congruence.
Qed.

Lemma analyze_toc_structure_value (toc_entries : list TocEntry)
  (content_files : list string) (z : ZipFile) :
  exists analysis,
    DetectNoToc.analyze_toc_structure toc_entries content_files z = Ret analysis /\
    DetectNoToc.has_toc analysis = nonempty toc_entries /\
    DetectNoToc.content_entries analysis =
    List.length (filter (is_content content_files) toc_entries) /\
    DetectNoToc.unique_targets analysis =
    List.length (nodup string_dec
                   (map entry_target (filter (is_content content_files) toc_entries))).
Proof.
  unfold DetectNoToc.analyze_toc_structure.
  destruct toc_entries as [|e toc]; simpl negb; cbv iota.
  - eexists. split; [reflexivity|]. now repeat split.
  - rewrite filterM_filter by apply is_content_entry_returns. rewrite bind_Ret.
    fold (is_content content_files).
    set (kept := filter (is_content content_files) (e :: toc)).
    destruct (unique_targets_value content_files kept [])
      as [targets [-> [Hnd Hin]]]; [| constructor |].
    { apply Forall_forall. intros x Hx. apply filter_In in Hx as [_ Hx].
      now apply is_content_in_content_files. }
    rewrite bind_Ret.
    assert (Hlen : List.length targets
                   = List.length (nodup string_dec (map entry_target kept))).
    { apply Nat.le_antisymm; apply NoDup_incl_length;
        try assumption; try apply NoDup_nodup.
      - intros x Hx. apply nodup_In. apply Hin in Hx as [[]|Hx]. exact Hx.
      - intros x Hx. apply nodup_In in Hx. apply Hin. now right. }
    destruct targets as [|t [|t' targets]]; simpl;
      (eexists; split; [reflexivity|]; now repeat split).
Qed.

Lemma toc_reasons_value (toc_entries : list TocEntry) (content_files : list string)
  (z : ZipFile) :
  DetectNoToc.toc_reasons toc_entries content_files z =
  Ret (if negb (nonempty toc_entries) then ["no_toc"]
       else match List.length (filter (is_content content_files) toc_entries) with
            | 0 => ["toc_has_no_content_entries"]
            | 1 => ["single_toc_entry"]
            | _ => []
            end).
Proof.
  unfold DetectNoToc.toc_reasons.
  destruct (analyze_toc_structure_value toc_entries content_files z)
    as [a [-> [Htoc [Hcount _]]]].
  rewrite bind_Ret, Htoc, Hcount.
  destruct (nonempty toc_entries); [|reflexivity]. simpl negb. cbv iota.
  destruct (List.length _) as [|[|n]]; reflexivity.
Qed.

End Classifier.

(** ** The product of a score and [1.5]

    Where three times the integer has at most 53 digits, neither the
    conversion nor the product rounds, and the comparison is that of the
    rationals. *)

Section FloatProduct.
Import SpecFloat.
Local Open Scope Z_scope.

Lemma digits2_log2 (p : positive) : Zpos (digits2_pos p) = Z.log2 (Zpos p) + 1.
Proof.
  induction p as [p IH|p IH|]; cbn [digits2_pos].
  - rewrite Pos2Z.inj_succ, IH.
    change (Zpos p~1) with (2 * Zpos p + 1). rewrite Z.log2_succ_double by lia. lia.
  - rewrite Pos2Z.inj_succ, IH.
    change (Zpos p~0) with (2 * Zpos p). rewrite Z.log2_double by lia. lia.
  - reflexivity.
Qed.

Lemma iter_xO_pow2 (p n : positive) : Zpos (Pos.iter xO p n) = Zpos p * 2 ^ Zpos n.
Proof.
  revert p. induction n as [|n IH] using Pos.peano_ind; intros p.
  - cbn [Pos.iter]. rewrite Pos2Z.inj_xO, Z.pow_1_r. lia.
  - rewrite Pos.iter_succ, Pos2Z.inj_xO, IH, Pos2Z.inj_succ, Z.pow_succ_r by lia. lia.
Qed.

Lemma shr_1_double (m : Z) :
  0 < m ->
  shr_1 {| shr_m := 2 * m; shr_r := false; shr_s := false |}
  = {| shr_m := m; shr_r := false; shr_s := false |}.
Proof. destruct m; [lia | reflexivity | lia]. Qed.

Lemma iter_shr_1_pow2 (n : positive) (m : Z) :
  0 < m ->
  iter_pos shr_1 n {| shr_m := m * 2 ^ Zpos n; shr_r := false; shr_s := false |}
  = {| shr_m := m; shr_r := false; shr_s := false |}.
Proof.
  revert m. induction n as [n IH|n IH|]; intros m Hm; cbn [iter_pos].
  - replace (m * 2 ^ Zpos n~1) with (2 * ((m * 2 ^ Zpos n) * 2 ^ Zpos n)).
    + rewrite shr_1_double by (apply Z.mul_pos_pos; [apply Z.mul_pos_pos|]; lia).
      rewrite IH by (apply Z.mul_pos_pos; lia). now apply IH.
    + rewrite (Pos2Z.inj_xI n), Z.add_1_r, Z.pow_succ_r, Z.pow_twice_r by lia. ring.
  - replace (m * 2 ^ Zpos n~0) with ((m * 2 ^ Zpos n) * 2 ^ Zpos n).
    + rewrite IH by (apply Z.mul_pos_pos; lia). now apply IH.
    + rewrite (Pos2Z.inj_xO n), Z.pow_twice_r. ring.
  - rewrite Z.pow_1_r, Z.mul_comm. now apply shr_1_double.
Qed.

(** A mantissa of 53 digits with an exponent in range is kept as it is. *)
Lemma round_canonical (s : bool) (m : positive) (e : Z) :
  Z.log2 (Zpos m) = 52 -> -1074 <= e <= 971 ->
  binary_round_aux PyFloat.prec PyFloat.emax s (Zpos m) e loc_Exact = S754_finite s m e.
Proof.
  intros Hd He.
  assert (Hshift : shr_fexp PyFloat.prec PyFloat.emax (Zpos m) e loc_Exact
                   = ({| shr_m := Zpos m; shr_r := false; shr_s := false |}, e)).
  { unfold shr_fexp. cbn [Zdigits2 shr_record_of_loc].
    rewrite digits2_log2, Hd.
    replace (fexp PyFloat.prec PyFloat.emax (52 + 1 + e) - e) with 0
      by (unfold fexp, emin, PyFloat.prec, PyFloat.emax; lia).
    reflexivity. }
  unfold binary_round_aux. rewrite Hshift.
  cbn [shr_m loc_of_shr_record round_nearest_even]. rewrite Hshift. cbn [shr_m].
  replace (e <=? PyFloat.emax - PyFloat.prec) with true; [reflexivity|].
  symmetry. apply Z.leb_le. unfold PyFloat.emax, PyFloat.prec. lia.
Qed.

(** Zeros below a mantissa of 53 digits are shifted out without rounding. *)
Lemma round_shift (s : bool) (m n : positive) (e : Z) :
  Z.log2 (Zpos m) = 52 -> -1074 <= e + Zpos n <= 971 ->
  binary_round_aux PyFloat.prec PyFloat.emax s (Zpos m * 2 ^ Zpos n) e loc_Exact
  = S754_finite s m (e + Zpos n).
Proof.
  intros Hd He.
  assert (Hpos : 0 < Zpos m * 2 ^ Zpos n) by (apply Z.mul_pos_pos; lia).
  assert (Hshift : shr_fexp PyFloat.prec PyFloat.emax (Zpos m * 2 ^ Zpos n) e loc_Exact
                   = ({| shr_m := Zpos m; shr_r := false; shr_s := false |}, e + Zpos n)).
  { unfold shr_fexp. cbn [shr_record_of_loc].
    replace (Zdigits2 (Zpos m * 2 ^ Zpos n)) with (52 + Zpos n + 1).
    - replace (fexp PyFloat.prec PyFloat.emax (52 + Zpos n + 1 + e) - e) with (Zpos n)
        by (unfold fexp, emin, PyFloat.prec, PyFloat.emax; lia).
      cbn [shr]. now rewrite iter_shr_1_pow2 by lia.
    - destruct (Zpos m * 2 ^ Zpos n) as [|q|q] eqn:Hq; try lia.
      cbn [Zdigits2]. rewrite digits2_log2, <- Hq, Z.log2_mul_pow2 by lia. lia. }
  unfold binary_round_aux. rewrite Hshift.
  cbn [shr_m loc_of_shr_record round_nearest_even].
  assert (Hkeep : shr_fexp PyFloat.prec PyFloat.emax (Zpos m) (e + Zpos n) loc_Exact
                  = ({| shr_m := Zpos m; shr_r := false; shr_s := false |}, e + Zpos n)).
  { unfold shr_fexp. cbn [Zdigits2 shr_record_of_loc].
    rewrite digits2_log2, Hd.
    replace (fexp PyFloat.prec PyFloat.emax (52 + 1 + (e + Zpos n)) - (e + Zpos n)) with 0
      by (unfold fexp, emin, PyFloat.prec, PyFloat.emax; lia).
    reflexivity. }
  rewrite Hkeep. cbn [shr_m].
  replace (e + Zpos n <=? PyFloat.emax - PyFloat.prec) with true; [reflexivity|].
  symmetry. apply Z.leb_le. unfold PyFloat.emax, PyFloat.prec. lia.
Qed.

(** An integer of at most 53 digits converts without rounding. *)
Lemma of_int_exact (s : Z) :
  0 < s -> s < 2 ^ 53 ->
  exists m e,
    PyFloat.of_int s = Ret (S754_finite false m e) /\
    Z.log2 (Zpos m) = 52 /\ e = Z.log2 s - 52 /\ Zpos m = s * 2 ^ (- e).
Proof.
  intros Hpos Hlt. destruct s as [|p|p]; try lia.
  assert (Hd : 0 <= Z.log2 (Zpos p) <= 52).
  { split; [apply Z.log2_nonneg|].
    assert (Z.log2 (Zpos p) < 53) by (apply Z.log2_lt_pow2; lia). lia. }
  unfold PyFloat.of_int, binary_normalize, binary_round.
  rewrite digits2_log2.
  replace (fexp PyFloat.prec PyFloat.emax (Z.log2 (Zpos p) + 1 + 0))
    with (Z.log2 (Zpos p) - 52)
    by (unfold fexp, emin, PyFloat.prec, PyFloat.emax; lia).
  unfold shl_align.
  destruct (Z.log2 (Zpos p) - 52 - 0) as [|k|k] eqn:Hk; try lia.
  - rewrite round_canonical by lia.
    exists p, 0. split; [reflexivity|]. split; [lia|]. split; [lia|].
    rewrite Z.pow_0_r. lia.
  - assert (Hm : Zpos (Pos.iter xO p k) = Zpos p * 2 ^ Zpos k) by apply iter_xO_pow2.
    assert (Hshift : Zpos k = 52 - Z.log2 (Zpos p)) by (pose proof (Pos2Z.opp_pos k); lia).
    rewrite round_canonical.
    + exists (Pos.iter xO p k), (Z.log2 (Zpos p) - 52).
      split; [reflexivity|].
      split; [rewrite Hm, Z.log2_mul_pow2 by lia; lia|].
      split; [lia|]. rewrite Hm. f_equal. f_equal. lia.
    + rewrite Hm, Z.log2_mul_pow2 by lia. lia.
    + lia.
Qed.

(** The product with [1.5] is exact when three times the integer has at most
    53 digits. *)
Lemma int_mul_one_and_a_half (s : Z) :
  0 < s -> 3 * s < 2 ^ 53 ->
  exists m e,
    PyFloat.int_mul s PyFloat.one_and_a_half = Ret (S754_finite false m e) /\
    e < 0 /\ 2 * Zpos m = 3 * s * 2 ^ (- e).
Proof.
  intros Hpos Hlt.
  destruct (of_int_exact s Hpos) as (m & e & Hconv & Hm & He & Hval); [lia|].
  unfold PyFloat.int_mul. rewrite Hconv. cbn [bind].
  unfold PyFloat.mul, PyFloat.one_and_a_half. cbn [SFmul xorb].
  assert (Hs : 0 <= Z.log2 s) by apply Z.log2_nonneg.
  assert (Ht : Z.log2 s + 1 <= Z.log2 (3 * s) <= 52).
  { split.
    - replace (Z.log2 s + 1) with (Z.log2 (2 * s)) by (rewrite Z.log2_double; lia).
      apply Z.log2_le_mono. lia.
    - assert (Z.log2 (3 * s) < 53) by (apply Z.log2_lt_pow2; lia). lia. }
  set (t := Z.log2 (3 * s)) in *.
  set (m' := Z.to_pos (3 * s * 2 ^ (52 - t))).
  set (n := Z.to_pos (t - e - 1)).
  assert (Hm' : Zpos m' = 3 * s * 2 ^ (52 - t)).
  { unfold m'. rewrite Z2Pos.id; [reflexivity|].
    apply Z.mul_pos_pos; [lia | apply Z.pow_pos_nonneg; lia]. }
  assert (Hn : Zpos n = t - e - 1) by (unfold n; rewrite Z2Pos.id; lia).
  replace (Zpos (m * 6755399441055744)) with (Zpos m' * 2 ^ Zpos n).
  - rewrite round_shift.
    + exists m', (e + -52 + Zpos n). split; [reflexivity|]. split; [lia|].
      rewrite Hm'. replace (- (e + -52 + Zpos n)) with (52 - t + 1) by lia.
      rewrite Z.pow_add_r, Z.pow_1_r by lia. ring.
    + rewrite Hm'. rewrite Z.log2_mul_pow2 by lia. fold t. lia.
    + lia.
  - rewrite Pos2Z.inj_mul, Hval, Hm', Hn.
    change (Zpos 6755399441055744) with (3 * 2 ^ 51).
    replace (- e) with (52 - t + (t - e - 1) - 51) by lia.
    replace (3 * s * 2 ^ (52 - t) * 2 ^ (t - e - 1))
      with (3 * s * 2 ^ (52 - t + (t - e - 1))) by (rewrite Z.pow_add_r by lia; ring).
    replace (52 - t + (t - e - 1)) with (52 - t + (t - e - 1) - 51 + 51) at 1 by lia.
    rewrite (Z.pow_add_r 2 (52 - t + (t - e - 1) - 51) 51) by lia. ring.
Qed.

(** [b < s * 1.5] for two integers, below the size where the product
    rounds. *)
Lemma int_lt_one_and_a_half (b s : Z) :
  0 < s -> 3 * s < 2 ^ 53 ->
  exists x,
    PyFloat.int_mul s PyFloat.one_and_a_half = Ret x /\
    PyFloat.int_lt b x = (2 * b <? 3 * s).
Proof.
  intros Hpos Hlt.
  destruct (int_mul_one_and_a_half s Hpos Hlt) as (m & e & Hmul & He & Hval).
  exists (S754_finite false m e). split; [assumption|].
  destruct e as [|k|k]; try lia.
  cbn [PyFloat.int_lt cond_Zopp]. change (- Zneg k) with (Zpos k) in Hval.
  assert (Hpow : 0 < 2 ^ Zpos k) by (apply Z.pow_pos_nonneg; lia).
  destruct (Z.ltb_spec (b * 2 ^ Zpos k) (Zpos m));
    destruct (Z.ltb_spec (2 * b) (3 * s)); try reflexivity; exfalso; nia.
Qed.

End FloatProduct.

(** ** The scoring loop of [find_copyright_path] *)

Section Scoring.
Variable extract_text_from_xhtml : ZipFile -> string -> string.
Variable score_file : string -> string -> Z.
Variable z : ZipFile.

Local Abbreviation score_step := (CheckCopyrightToc.score_step extract_text_from_xhtml score_file z).
Local Abbreviation score_of := (Props.score_of extract_text_from_xhtml score_file z).
Local Abbreviation scored := (Props.scored extract_text_from_xhtml score_file z).
Local Abbreviation score_loop := (CheckCopyrightToc.score_loop extract_text_from_xhtml score_file z).

Lemma score_step_scored (xhtml_paths : list string) (n : nat) (p : string)
  (state : option nat * Z * Z) :
  nth_error xhtml_paths n = Some p ->
  scored xhtml_paths n state ->
  scored xhtml_paths (S n) (score_step state (n, p)).
Proof.
  intros Hp. destruct state as [[best_index best_score] second_score].
  intros (Hord & Hbest & Hsecond & Hmet & Hidx).
  unfold CheckCopyrightToc.score_step. fold (score_of p).
  assert (Hlt : forall j q, j < S n -> nth_error xhtml_paths j = Some q ->
                            j < n \/ (j = n /\ q = p)).
  { intros j q Hj Hq. destruct (Nat.eq_dec j n) as [->|]; [right|left; lia].
    split; congruence. }
  assert (Hfresh : best_index <> Some n).
  { destruct best_index as [i|]; [|discriminate].
    destruct Hidx as (Hi & _). intros [= ->]. lia. }
  destruct (Z.ltb_spec best_score (score_of p)).
  - (* a new best document: the former best score becomes the second *)
    split; [lia|]. split; [|split; [|split]].
    + intros j q Hj Hq. destruct (Hlt j q Hj Hq) as [Hj'|[-> ->]]; [|lia].
      specialize (Hbest j q Hj' Hq). lia.
    + intros j q Hj Hq Hne. destruct (Hlt j q Hj Hq) as [Hj'|[-> ->]]; [|congruence].
      now apply (Hbest j q).
    + destruct best_index as [i|]; [|now left].
      destruct Hidx as (Hi & _ & w & Hw & Hscore). right.
      exists i, w. repeat split; [lia | intros [= E]; lia | assumption | assumption].
    + repeat split; [lia | lia |]. now exists p.
  - destruct (Z.ltb_spec second_score (score_of p)).
    + (* a new second-best document *)
      split; [lia|]. split; [|split; [|split]].
      * intros j q Hj Hq. destruct (Hlt j q Hj Hq) as [Hj'|[-> ->]]; [|lia].
        now apply (Hbest j q).
      * intros j q Hj Hq Hne. destruct (Hlt j q Hj Hq) as [Hj'|[-> ->]]; [|lia].
        specialize (Hsecond j q Hj' Hq Hne). lia.
      * right. exists n, p. repeat split; [lia | assumption | assumption].
      * destruct best_index as [i|]; [|assumption].
        destruct Hidx as (Hi & Hpos & Hex). repeat split; [lia|assumption|assumption].
    + (* nothing changes *)
      split; [lia|]. split; [|split; [|split]].
      * intros j q Hj Hq. destruct (Hlt j q Hj Hq) as [Hj'|[-> ->]]; [|lia].
        now apply (Hbest j q).
      * intros j q Hj Hq Hne. destruct (Hlt j q Hj Hq) as [Hj'|[-> ->]]; [|lia].
        now apply (Hsecond j q).
      * destruct Hmet as [Hzero | (j & q & Hj & Hne & Hq & Hscore)]; [now left|].
        right. exists j, q. repeat split; [lia | assumption | assumption | assumption].
      * destruct best_index as [i|]; [|assumption].
        destruct Hidx as (Hi & Hpos & Hex). repeat split; [lia|assumption|assumption].
Qed.

Lemma score_fold_scored (xhtml_paths done todo : list string) (state : option nat * Z * Z) :
  xhtml_paths = done ++ todo ->
  scored xhtml_paths (List.length done) state ->
  scored xhtml_paths (List.length xhtml_paths)
    (fold_left score_step
       (combine (seq (List.length done) (List.length todo)) todo) state).
Proof.
  revert done state. induction todo as [|p todo IH]; intros done state Hsplit Hinv.
  - simpl. subst xhtml_paths. rewrite app_nil_r in *. exact Hinv.
  - simpl.
    assert (Hp : nth_error xhtml_paths (List.length done) = Some p).
    { subst. now rewrite nth_error_app2, Nat.sub_diag by lia. }
    specialize (IH (done ++ [p]) (score_step state (List.length done, p))).
    rewrite length_app in IH. simpl in IH. rewrite Nat.add_1_r in IH.
    apply IH.
    + subst. now rewrite <- app_assoc.
    + now apply score_step_scored.
Qed.

Lemma score_loop_scored (xhtml_paths : list string) :
  scored xhtml_paths (List.length xhtml_paths) (score_loop xhtml_paths).
Proof.
  apply (score_fold_scored xhtml_paths [] xhtml_paths); [reflexivity|].
  simpl. repeat split; try lia.
Qed.

End Scoring.

Section Verdict.
Variable get_spine_xhtml_paths : ZipFile -> Manifest -> list string -> string -> list string.
Variable extract_text_from_xhtml : ZipFile -> string -> string.
Variable score_file : string -> string -> Z.
Variable CONFIDENCE_THRESHOLD : Z.
Variables (z : ZipFile) (manifest : Manifest) (spine : list string) (opf_dir : string).

Local Abbreviation xhtml_paths := (get_spine_xhtml_paths z manifest spine opf_dir).
Local Abbreviation score := (Props.score_of extract_text_from_xhtml score_file z).
Local Abbreviation find_copyright_path :=
  (CheckCopyrightToc.find_copyright_path get_spine_xhtml_paths extract_text_from_xhtml
     score_file CONFIDENCE_THRESHOLD z manifest spine opf_dir).
Local Abbreviation score_loop :=
  (CheckCopyrightToc.score_loop extract_text_from_xhtml score_file z xhtml_paths).

Lemma best_score_bounds (best_index : option nat) (best_score second_score : Z) :
  score_loop = (best_index, best_score, second_score) ->
  forall p, In p xhtml_paths -> (score p <= best_score)%Z.
Proof.
  intros Hloop p Hin.
  pose proof (score_loop_scored extract_text_from_xhtml score_file z xhtml_paths) as Hinv.
  rewrite Hloop in Hinv. destruct Hinv as (_ & Hbest & _).
  apply In_nth_error in Hin as [j Hj].
  apply (Hbest j p); [|assumption].
  apply nth_error_Some. congruence.
Qed.

Lemma second_score_bounds (best_index : option nat) (best_score second_score : Z) :
  score_loop = (best_index, best_score, second_score) ->
  (0 <= second_score <= best_score)%Z /\
  (forall j p, nth_error xhtml_paths j = Some p -> best_index <> Some j ->
               (score p <= second_score)%Z) /\
  (second_score = 0%Z \/
   exists j p, best_index <> Some j /\ nth_error xhtml_paths j = Some p /\
               score p = second_score).
Proof.
  intros Hloop.
  pose proof (score_loop_scored extract_text_from_xhtml score_file z xhtml_paths) as Hinv.
  rewrite Hloop in Hinv. destruct Hinv as (Hord & _ & Hsecond & Hmet & _).
  split; [assumption|]. split.
  - intros j p Hp Hne. apply (Hsecond j p); [|assumption|assumption].
    apply nth_error_Some. congruence.
  - destruct Hmet as [Hzero | (j & p & _ & Hne & Hp & Hscore)]; [now left|].
    right. now exists j, p.
Qed.

(** The test of the ambiguity guard, where the product is exact. *)
Lemma guard_exact (best_score second_score : Z) :
  (3 * second_score < 2 ^ 53)%Z ->
  (if (0 <? best_score)%Z && (0 <? second_score)%Z then
     product <- PyFloat.int_mul second_score PyFloat.one_and_a_half ;;
     Ret (PyFloat.int_lt best_score product)
   else Ret false)
  = Ret ((0 <? best_score)%Z && (0 <? second_score)%Z
         && (2 * best_score <? 3 * second_score)%Z).
Proof.
  intros Hsmall.
  destruct (0 <? best_score)%Z; [|reflexivity].
  destruct (Z.ltb_spec 0 second_score); [|reflexivity].
  destruct (int_lt_one_and_a_half best_score second_score) as (x & Hmul & Hlt);
    [assumption | assumption |].
  rewrite Hmul, bind_Ret, Hlt. reflexivity.
Qed.

Lemma below_threshold (best_index : option nat) (best_score second_score : Z) :
  score_loop = (best_index, best_score, second_score) ->
  (best_score < CONFIDENCE_THRESHOLD)%Z ->
  find_copyright_path = Ret None.
Proof.
  intros Hloop Hlow. unfold CheckCopyrightToc.find_copyright_path.
  destruct (negb (nonempty xhtml_paths)); [reflexivity|].
  rewrite Hloop. apply Z.ltb_lt in Hlow. now rewrite Hlow.
Qed.

Lemma ambiguous (best_index : option nat) (best_score second_score : Z) :
  score_loop = (best_index, best_score, second_score) ->
  (3 * second_score < 2 ^ 53)%Z ->
  (0 < best_score)%Z -> (0 < second_score)%Z ->
  (2 * best_score < 3 * second_score)%Z ->
  find_copyright_path = Ret None.
Proof.
  intros Hloop Hsmall Hb Hs Hratio. unfold CheckCopyrightToc.find_copyright_path.
  destruct (negb (nonempty xhtml_paths)); [reflexivity|].
  rewrite Hloop. destruct (best_score <? CONFIDENCE_THRESHOLD)%Z; [reflexivity|].
  rewrite guard_exact by assumption.
  apply Z.ltb_lt in Hb, Hs, Hratio. now rewrite Hb, Hs, Hratio.
Qed.

Lemma confident_winner (best_index : option nat) (best_score second_score : Z) :
  score_loop = (best_index, best_score, second_score) ->
  (0 < CONFIDENCE_THRESHOLD)%Z ->
  (3 * second_score < 2 ^ 53)%Z ->
  (CONFIDENCE_THRESHOLD <= best_score)%Z ->
  ~ ((0 < best_score)%Z /\ (0 < second_score)%Z /\ (2 * best_score < 3 * second_score)%Z) ->
  exists i p,
    best_index = Some i /\ nth_error xhtml_paths i = Some p /\
    score p = best_score /\
    find_copyright_path = Ret (Some p).
Proof.
  intros Hloop Hpos Hsmall Hhigh Hclear.
  pose proof (score_loop_scored extract_text_from_xhtml score_file z xhtml_paths) as Hinv.
  rewrite Hloop in Hinv. destruct Hinv as (_ & _ & _ & _ & Hidx).
  destruct best_index as [i|]; [|lia].
  destruct Hidx as (Hi & _ & p & Hp & Hscore).
  exists i, p. repeat split; try assumption.
  unfold CheckCopyrightToc.find_copyright_path.
  destruct (nonempty xhtml_paths) eqn:Hne.
  - simpl negb. cbv iota. rewrite Hloop.
    apply Z.ltb_ge in Hhigh. rewrite Hhigh.
    rewrite guard_exact, bind_Ret by assumption.
    destruct ((0 <? best_score)%Z && (0 <? second_score)%Z
              && (2 * best_score <? 3 * second_score)%Z) eqn:Hguard.
    + exfalso. apply Hclear.
      apply andb_true_iff in Hguard as [Hguard H3].
      apply andb_true_iff in Hguard as [H1 H2].
      apply Z.ltb_lt in H1, H2, H3. auto.
    + unfold getitem. rewrite Hp. reflexivity.
  - destruct xhtml_paths; [destruct i; discriminate | discriminate].
Qed.

Lemma tie_rejected (i j : nat) (p q : string) :
  i <> j ->
  nth_error xhtml_paths i = Some p ->
  nth_error xhtml_paths j = Some q ->
  score p = score q ->
  (0 < score p)%Z ->
  (3 * score p < 2 ^ 53)%Z ->
  (forall x, In x xhtml_paths -> (score x <= score p)%Z) ->
  find_copyright_path = Ret None.
Proof.
  intros Hij Hp Hq Htie Hpos Hsmall Hmax.
  destruct score_loop as [[best_index best_score] second_score] eqn:Hloop.
  pose proof (score_loop_scored extract_text_from_xhtml score_file z xhtml_paths) as Hinv.
  rewrite Hloop in Hinv. destruct Hinv as (Hord & Hbest & Hsecond & _ & Hidx).
  assert (Hi : i < List.length xhtml_paths) by (apply nth_error_Some; congruence).
  assert (Hj : j < List.length xhtml_paths) by (apply nth_error_Some; congruence).
  pose proof (Hbest i p Hi Hp) as Hle.
  destruct best_index as [k|]; [|lia].
  destruct Hidx as (_ & _ & w & Hw & Hwscore).
  assert (Hbest_eq : best_score = score p).
  { apply nth_error_In in Hw. specialize (Hmax w Hw). lia. }
  assert (Hsecond_eq : second_score = score p).
  { destruct (Nat.eq_dec i k) as [->|Hik].
    - specialize (Hsecond j q Hj Hq). 
      assert (Some k <> Some j) by congruence. specialize (Hsecond H). lia.
    - specialize (Hsecond i p Hi Hp).
      assert (Some k <> Some i) by congruence. specialize (Hsecond H). lia. }
  apply (ambiguous _ _ _ Hloop); lia.
Qed.

End Verdict.

(** ** Reachability *)

Lemma parts_eqb_eq (p q : list string) : CheckCopyrightToc.parts_eqb p q = true <-> p = q.
Proof.
  unfold CheckCopyrightToc.parts_eqb. destruct (list_eq_dec string_dec p q); split; congruence.
Qed.

Lemma split_no_more (sep : ascii) (s : string) : split sep (Some 0) s = [s].
Proof.
  induction s as [|c s IH]; [reflexivity|].
  simpl. rewrite andb_false_r. fold (split sep (Some 0) s). now rewrite IH.
Qed.

Lemma split_once_fragment (href frag : string) :
  has_char "#" href = false ->
  split "#" (Some 1) (href ++ String "#" frag) = [href; frag].
Proof.
  induction href as [|c href IH]; intros H.
  - simpl. fold (split "#" (Some 0) frag). now rewrite split_no_more.
  - simpl in H. apply orb_false_iff in H as [Hc Hrest].
    simpl. rewrite Hc. simpl. fold (split "#" (Some 1) (href ++ String "#" frag)).
    now rewrite IH.
Qed.

Lemma split_once_plain (href : string) :
  has_char "#" href = false -> split "#" (Some 1) href = [href].
Proof.
  induction href as [|c href IH]; intros H.
  - reflexivity.
  - simpl in H. apply orb_false_iff in H as [Hc Hrest].
    simpl. rewrite Hc. simpl. fold (split "#" (Some 1) href).
    now rewrite IH.
Qed.

Lemma fragment_free_fragment (href frag : string) :
  has_char "#" href = false ->
  fragment_free (href ++ String "#" frag) = href.
Proof.
  intros H. unfold fragment_free, strip_fragment.
  now rewrite split_once_fragment.
Qed.

Lemma fragment_free_plain (href : string) :
  has_char "#" href = false -> fragment_free href = href.
Proof.
  intros H. unfold fragment_free, strip_fragment.
  now rewrite split_once_plain.
Qed.

Section Reachability.
Context {U : PyStr}.

Lemma hrefs_contain_path_value (hrefs : list (string * string)) (copyright_path : string)
  (namelist : list string) :
  CheckCopyrightToc.hrefs_contain_path hrefs copyright_path namelist =
  Ret (existsb (reaches namelist copyright_path) hrefs).
Proof.
  induction hrefs as [|[href source_path] rest IH]; [reflexivity|].
  cbn [CheckCopyrightToc.hrefs_contain_path existsb].
  unfold CheckCopyrightToc.strip_fragment.
  rewrite strip_fragment_value, bind_Ret.
  rewrite (returns_value "" _ (check_normalize_path_returns _ _ _)), bind_Ret.
  unfold reaches at 1, href_target. cbn [fst snd].
  destruct (CheckCopyrightToc.parts_eqb _ _); [reflexivity | exact IH].
Qed.

Lemma reachability_hits_value (resolve_href : string -> string -> string)
  (z : ZipFile) (manifest : Manifest) (spine : list string) (opf_dir : string)
  (ncx_hrefs : option (list (string * string))) (copyright_path : string) :
  CheckCopyrightToc.reachability_hits resolve_href z manifest spine opf_dir
    ncx_hrefs copyright_path =
  Ret ((if existsb (reaches (namelist z) copyright_path)
             (match ncx_hrefs with Some l => l | None => [] end)
        then ["in ncx"] else [])
       ++ (if existsb (reaches (namelist z) copyright_path)
                (CheckCopyrightToc.extract_human_toc_hrefs resolve_href z manifest
                   spine opf_dir)
           then ["in human toc page"] else [])).
Proof.
  unfold CheckCopyrightToc.reachability_hits.
  assert (Hncx :
    match ncx_hrefs with
    | Some l =>
        if nonempty l
        then CheckCopyrightToc.hrefs_contain_path l copyright_path (namelist z)
        else Ret false
    | None => Ret false
    end = Ret (existsb (reaches (namelist z) copyright_path)
                 (match ncx_hrefs with Some l => l | None => [] end))).
  { destruct ncx_hrefs as [[|link l]|]; try reflexivity.
    apply hrefs_contain_path_value. }
  rewrite Hncx, bind_Ret, hrefs_contain_path_value, bind_Ret.
  destruct (existsb _ _); destruct (existsb _ _); reflexivity.
Qed.

End Reachability.

(** ** The manifest and the choice of the navigation map *)

Lemma is_ncx_test (item : ManifestItem) :
  (or_empty (media_type item) =? "application/x-dtbncx+xml") = true <-> is_ncx item.
Proof.
  unfold is_ncx, ncx_media_type. rewrite String.eqb_eq.
  destruct (media_type item) as [m|]; simpl; split; intros E; congruence.
Qed.

Lemma dict_get_In (manifest : Manifest) (k : string) :
  dict_get manifest k <> None <-> In k (map fst manifest).
Proof.
  induction manifest as [|[k' v] rest IH]; simpl.
  - split; [congruence | tauto].
  - destruct (String.eqb_spec k' k) as [->|Hne].
    + split; [auto | discriminate].
    + rewrite IH. split; [auto | intros [E|H]; [congruence | assumption]].
Qed.

Lemma dict_has_In (manifest : Manifest) (k : string) :
  dict_has manifest k = true <-> In k (map fst manifest).
Proof.
  rewrite <- dict_get_In. unfold dict_has.
  destruct (dict_get manifest k); split; congruence.
Qed.

Lemma first_ncx_item_found (before after : Manifest) (iid : string) (item : ManifestItem) :
  Forall (fun kv => ~ is_ncx (snd kv)) before ->
  is_ncx item ->
  first_ncx_item (before ++ (iid, item) :: after) = Some iid.
Proof.
  intros Hbefore Hitem. induction Hbefore as [|[k v] before Hkv _ IH]; simpl.
  - apply is_ncx_test in Hitem. now rewrite Hitem.
  - destruct (or_empty (media_type v) =? "application/x-dtbncx+xml") eqn:E.
    + apply is_ncx_test in E. now elim Hkv.
    + exact IH.
Qed.

Lemma first_ncx_item_none (manifest : Manifest) :
  Forall (fun kv => ~ is_ncx (snd kv)) manifest -> first_ncx_item manifest = None.
Proof.
  induction 1 as [|[k v] rest Hkv _ IH]; simpl; [reflexivity|].
  destruct (or_empty (media_type v) =? "application/x-dtbncx+xml") eqn:E.
  - apply is_ncx_test in E. now elim Hkv.
  - exact IH.
Qed.

Lemma first_ncx_item_In (manifest : Manifest) (iid : string) :
  first_ncx_item manifest = Some iid -> In iid (map fst manifest).
Proof.
  induction manifest as [|[k v] rest IH]; simpl; [discriminate|].
  destruct (or_empty (media_type v) =? "application/x-dtbncx+xml").
  - intros [= ->]. now left.
  - auto.
Qed.

Lemma select_ncx_id_In (manifest : Manifest) (spine_toc : option string) (iid : string) :
  select_ncx_id manifest spine_toc = Some iid -> In iid (map fst manifest).
Proof.
  unfold select_ncx_id. destruct spine_toc as [t|].
  - destruct (truthy t && dict_has manifest t) eqn:E.
    + intros [= ->]. apply andb_true_iff in E as [_ E]. now apply dict_has_In.
    + apply first_ncx_item_In.
  - apply first_ncx_item_In.
Qed.

Lemma manifest_ok_truthy (manifest : Manifest) (k : string) :
  manifest_ok manifest -> In k (map fst manifest) -> truthy k = true.
Proof.
  intros Hok Hin. apply in_map_iff in Hin as [[k' v] [<- Hin]].
  unfold manifest_ok in Hok. rewrite Forall_forall in Hok. now apply (Hok (k', v)).
Qed.

Lemma select_declared (manifest : Manifest) (t : string) :
  manifest_ok manifest -> In t (map fst manifest) ->
  select_ncx_id manifest (Some t) = Some t.
Proof.
  intros Hok Hin. unfold select_ncx_id.
  rewrite (manifest_ok_truthy manifest t Hok Hin).
  apply dict_has_In in Hin. now rewrite Hin.
Qed.

Lemma select_fallback (manifest : Manifest) (spine_toc : option string) :
  (forall t, spine_toc = Some t -> ~ In t (map fst manifest)) ->
  select_ncx_id manifest spine_toc = first_ncx_item manifest.
Proof.
  intros Habsent. unfold select_ncx_id. destruct spine_toc as [t|]; [|reflexivity].
  destruct (dict_has manifest t) eqn:E.
  - apply dict_has_In in E. now elim (Habsent t eq_refl).
  - now rewrite andb_false_r.
Qed.

Lemma dict_set_ok (manifest : Manifest) (k : string) (v : ManifestItem) :
  truthy k = true -> manifest_ok manifest -> manifest_ok (dict_set manifest k v).
Proof.
  intros Hk. induction 1 as [|[k' v'] rest Hkv Hrest IH]; simpl.
  - now repeat constructor.
  - destruct (k' =? k); constructor; assumption.
Qed.

Lemma build_manifest_ok (items : list OpfItem) : manifest_ok (build_manifest items).
Proof.
  unfold build_manifest.
  assert (H : forall acc, manifest_ok acc ->
    manifest_ok
      (fold_left
         (fun manifest item =>
            match item_id item, item_href item with
            | Some iid, Some h =>
                if truthy iid && truthy h then
                  dict_set manifest iid
                    {| href := h; media_type := item_media_type item;
                       properties := or_empty (item_properties item) |}
                else manifest
            | _, _ => manifest
            end) items acc)).
  { induction items as [|item items IH]; intros acc Hacc; simpl; [assumption|].
    apply IH. destruct (item_id item) as [iid|]; [|assumption].
    destruct (item_href item) as [h|]; [|assumption].
    destruct (truthy iid) eqn:E; simpl; [|assumption].
    destruct (truthy h); [|assumption].
    now apply dict_set_ok. }
  apply H. constructor.
Qed.

Lemma parse_opf_manifest_ok (z : ZipFile) (opf_path : string) (manifest : Manifest)
  (spine : list string) (opf_dir : string) (spine_toc : option string) :
  parse_opf z opf_path = Ret (manifest, spine, opf_dir, spine_toc) ->
  manifest_ok manifest.
Proof.
  unfold parse_opf. destruct (opf_tree z opf_path) as [e|doc]; [discriminate|].
  simpl. intros [= <- _ _ _].
  destruct (opf_manifest doc); [apply build_manifest_ok | constructor].
Qed.

Section NcxExtraction.
Context {U : PyStr}.
Variable resolve_href : string -> string -> string.

Lemma extract_ncx_hrefs_returns (z : ZipFile) (opf_dir : string) (manifest : Manifest)
  (spine_toc : option string) :
  returns (CheckCopyrightToc.extract_ncx_hrefs resolve_href z opf_dir manifest spine_toc).
Proof.
  unfold CheckCopyrightToc.extract_ncx_hrefs.
  destruct (select_ncx_id manifest spine_toc) as [iid|] eqn:Hsel; simpl;
    [|apply returns_Ret].
  destruct (truthy iid); simpl; [|apply returns_Ret].
  apply select_ncx_id_In, dict_get_In in Hsel. unfold dict_getitem.
  destruct (dict_get manifest iid) as [item|]; [|congruence]. simpl.
  destruct (mem _ _); simpl; [|apply returns_Ret].
  apply try_except_returns. intros e. apply returns_Ret.
Qed.

Lemma extract_ncx_entries_returns (z : ZipFile) (opf_dir : string) (manifest : Manifest)
  (spine_toc : option string) :
  returns (DetectNoToc.extract_ncx_entries z opf_dir manifest spine_toc).
Proof.
  unfold DetectNoToc.extract_ncx_entries.
  destruct (select_ncx_id manifest spine_toc) as [iid|] eqn:Hsel; simpl;
    [|apply returns_Ret].
  destruct (truthy iid); simpl; [|apply returns_Ret].
  apply select_ncx_id_In, dict_get_In in Hsel. unfold dict_getitem.
  destruct (dict_get manifest iid) as [item|]; [|congruence]. simpl.
  destruct (mem _ _); simpl; [|apply returns_Ret].
  apply try_except_returns. intros e. apply returns_Ret.
Qed.

Lemma selected_map_is_read (z : ZipFile) (opf_dir : string) (manifest : Manifest)
  (spine_toc : option string) (iid : string) (item : ManifestItem) (doc : NcxDoc) :
  manifest_ok manifest ->
  select_ncx_id manifest spine_toc = Some iid ->
  dict_get manifest iid = Some item ->
  (mem (resolve_href opf_dir (href item)) (namelist z) = true ->
   ncx_tree z (resolve_href opf_dir (href item)) = Ret doc ->
   CheckCopyrightToc.extract_ncx_hrefs resolve_href z opf_dir manifest spine_toc
   = Ret (Some (CheckCopyrightToc.content_hrefs (ncx_contents doc)
                  (resolve_href opf_dir (href item))), None)) /\
  (mem (DetectNoToc.resolve_href opf_dir (href item)) (namelist z) = true ->
   ncx_tree z (DetectNoToc.resolve_href opf_dir (href item)) = Ret doc ->
   DetectNoToc.extract_ncx_entries z opf_dir manifest spine_toc
   = Ret (DetectNoToc.navpoint_entries (ncx_navpoints doc)
            (DetectNoToc.resolve_href opf_dir (href item)))).
Proof.
  intros Hok Hsel Hitem.
  assert (Htruthy : truthy iid = true).
  { apply (manifest_ok_truthy manifest iid Hok). now apply select_ncx_id_In in Hsel. }
  unfold CheckCopyrightToc.extract_ncx_hrefs, DetectNoToc.extract_ncx_entries.
  rewrite Hsel. simpl. rewrite Htruthy. simpl. unfold dict_getitem. rewrite Hitem.
  simpl. split; intros -> ->; reflexivity.
Qed.

Lemma no_ncx_found (z : ZipFile) (opf_dir : string) (manifest : Manifest)
  (spine_toc : option string) :
  select_ncx_id manifest spine_toc = None ->
  CheckCopyrightToc.extract_ncx_hrefs resolve_href z opf_dir manifest spine_toc
  = Ret (None, Some "NO NCX FOUND") /\
  DetectNoToc.extract_ncx_entries z opf_dir manifest spine_toc = Ret [].
Proof.
  intros Hsel.
  unfold CheckCopyrightToc.extract_ncx_hrefs, DetectNoToc.extract_ncx_entries.
  rewrite Hsel. now split.
Qed.

End NcxExtraction.

(** * The embedding on the examples of the specification *)

Example resolve_parent : DetectNoToc.normalize_path "a/b/c.xhtml" "../d.xhtml" = Ret "a/d.xhtml".
Proof. reflexivity. Qed.

Example resolve_past_root : DetectNoToc.normalize_path "a.xhtml" "../../b.xhtml" = Ret "b.xhtml".
Proof. reflexivity. Qed.

Example resolve_percent :
  DetectNoToc.normalize_path "OEBPS/toc.ncx" "ch%201.xhtml"
  = DetectNoToc.normalize_path "OEBPS/toc.ncx" "ch 1.xhtml".
Proof. reflexivity. Qed.

Example unquote_malformed : unquote "100%.xhtml" = "100%.xhtml" /\ unquote "%zz%4" = "%zz%4".
Proof. split; reflexivity. Qed.

Example strip_fragment_top : strip_fragment "content/chapter1.xhtml#top" = Ret "content/chapter1.xhtml".
Proof. reflexivity. Qed.

Example no_toc_scenario :
  DetectNoToc.analyze_epub_single_chapter Scenario.open_zip Scenario.find_opf_path "no-toc.epub"
  = Ret ["no_toc"].
Proof. reflexivity. Qed.

Example ambiguous_scores :
  CheckCopyrightToc.find_copyright_path (Scenario.fixed_paths ["a.xhtml"; "b.xhtml"])
    Scenario.no_text (Scenario.table_score [("a.xhtml", 6%Z); ("b.xhtml", 5%Z)]) 5
    Scenario.legacy [] [] "OEBPS"
  = Ret None.
Proof. reflexivity. Qed.

(** The product of the guard is a [float].  Beyond 53 digits the conversion
    of the second-best score rounds: [9007199254740993 * 1.5] is
    [13510798882111488.0], and a best score of [13510798882111489] is not
    below it.  A score beyond the range of [float] cannot be converted. *)
Example product_of_a_large_score_rounds :
  PyFloat.int_mul 9007199254740993 PyFloat.one_and_a_half
  = Ret (SpecFloat.S754_finite false 6755399441055744 1) /\
  CheckCopyrightToc.find_copyright_path (Scenario.fixed_paths ["a.xhtml"; "b.xhtml"])
    Scenario.no_text
    (Scenario.table_score
       [("a.xhtml", 13510798882111489%Z); ("b.xhtml", 9007199254740993%Z)]) 5
    Scenario.legacy [] [] "OEBPS"
  = Ret (Some "a.xhtml").
Proof. split; vm_compute; reflexivity. Qed.

Example score_beyond_the_range_of_float :
  CheckCopyrightToc.find_copyright_path (Scenario.fixed_paths ["a.xhtml"; "b.xhtml"])
    Scenario.no_text
    (Scenario.table_score [("a.xhtml", (10 ^ 400)%Z); ("b.xhtml", (10 ^ 400)%Z)]) 5
    Scenario.legacy [] [] "OEBPS"
  = Raise (OverflowError "int too large to convert to float").
Proof. vm_compute. reflexivity. Qed.

(** * The claims *)

(** C1, as amended.  [analyze_toc_structure] counts the entries that survive
    the boilerplate filter and their distinct targets, and [single_toc_entry]
    is issued exactly when exactly one entry survives: the count of distinct
    targets does not enter the decision. *)
Theorem single_toc_entry_iff_one_content_entry `{PyStr}
  (toc_entries : list TocEntry) (content_files : list string) (z : ZipFile) :
  exists analysis reasons,
    DetectNoToc.analyze_toc_structure toc_entries content_files z = Ret analysis /\
    DetectNoToc.toc_reasons toc_entries content_files z = Ret reasons /\
    DetectNoToc.content_entries analysis
    = List.length (filter (is_content content_files) toc_entries) /\
    DetectNoToc.unique_targets analysis
    = List.length (nodup string_dec
                     (map entry_target (filter (is_content content_files) toc_entries))) /\
    (In "single_toc_entry" reasons <-> DetectNoToc.content_entries analysis = 1) /\
    (reasons = ["single_toc_entry"] <-> DetectNoToc.content_entries analysis = 1).
Proof.
  destruct (analyze_toc_structure_value toc_entries content_files z)
    as [analysis [Ha [Htoc [Hcount Htargets]]]].
  exists analysis. eexists. split; [exact Ha|].
  split; [apply toc_reasons_value|]. split; [exact Hcount|]. split; [exact Htargets|].
  rewrite Hcount.
  destruct toc_entries as [|e toc]; simpl nonempty; simpl negb; cbv iota.
  - simpl. repeat split; try discriminate. intros [E|[]]; discriminate.
  - destruct (List.length (filter (is_content content_files) (e :: toc))) as [|[|n]];
      repeat split; try discriminate; try reflexivity.
    + intros [E|[]]; discriminate.
    + intros _. now left.
    + intros [].
Qed.

(** C1, as stated, fails: three entries that all link the first of three
    chapters give [content_entries = 3] and [unique_targets = 1], and no
    reason is issued. *)
Lemma repeated_link_is_not_flagged :
  exists analysis reasons,
    DetectNoToc.analyze_toc_structure
      (DetectNoToc.anchor_entries Scenario.repeated_links "OEBPS/nav.xhtml")
      ["OEBPS/ch1.xhtml"; "OEBPS/ch2.xhtml"; "OEBPS/ch3.xhtml"] Scenario.three_chapters
    = Ret analysis /\
    DetectNoToc.analyze_epub_single_chapter Scenario.open_zip Scenario.find_opf_path
      "three-chapters.epub" = Ret reasons /\
    DetectNoToc.content_entries analysis = 3 /\
    DetectNoToc.unique_targets analysis = 1 /\
    reasons = [] /\
    ~ (In "single_toc_entry" reasons <->
       DetectNoToc.content_entries analysis = 1 \/ DetectNoToc.unique_targets analysis = 1).
Proof.
  eexists. eexists. split; [reflexivity|]. split; [reflexivity|].
  repeat split. intros [_ Hissued]. apply Hissued. now right.
Qed.

(** C2, as amended.  [normalize_path] of [check_copyright_toc.py], which is
    given the names of the archive, returns the decoded href as it is when
    it is one of these names. *)
Theorem check_normalize_path_exact_match `{PyStr}
  (base_path href : string) (namelist : list string) :
  In (unquote href) namelist ->
  CheckCopyrightToc.normalize_path base_path href namelist = Ret (unquote href).
Proof.
  intros Hin. rewrite check_normalize_path_detect.
  apply mem_In in Hin. now rewrite Hin.
Qed.

Lemma check_normalize_path_exact_match_witness :
  In (unquote "OEBPS/ch%201.xhtml") ["OEBPS/toc.ncx"; "OEBPS/ch 1.xhtml"] /\
  CheckCopyrightToc.normalize_path "OEBPS/toc.ncx" "OEBPS/ch%201.xhtml"
    ["OEBPS/toc.ncx"; "OEBPS/ch 1.xhtml"] = Ret "OEBPS/ch 1.xhtml".
Proof.
  split.
  - simpl. auto.
  - exact (check_normalize_path_exact_match "OEBPS/toc.ncx" "OEBPS/ch%201.xhtml"
             ["OEBPS/toc.ncx"; "OEBPS/ch 1.xhtml"] (or_intror (or_introl eq_refl))).
Defined.

(** C2, as stated, fails for [normalize_path] of [detect_no_toc.py]: an href
    that is the name of an archive member is still resolved against the
    directory of the base. *)
Lemma detect_normalize_path_no_exact_match :
  In (unquote "OEBPS/ch1.xhtml") ["OEBPS/toc.ncx"; "OEBPS/ch1.xhtml"] /\
  DetectNoToc.normalize_path "OEBPS/toc.ncx" "OEBPS/ch1.xhtml" = Ret "OEBPS/OEBPS/ch1.xhtml" /\
  DetectNoToc.normalize_path "OEBPS/toc.ncx" "OEBPS/ch1.xhtml"
  <> Ret (unquote "OEBPS/ch1.xhtml").
Proof.
  split; [simpl; auto|]. split; [reflexivity | discriminate].
Qed.

(** C3, as amended.  When the base has no directory part, the decoded href is
    relative and the resolved path has no percent escape left, resolving the
    resolved path again returns it unchanged, in both scripts. *)
Theorem normalize_path_idempotent_at_archive_root `{PyStr}
  (base_path href : string) (namelist : list string) :
  parent (parse base_path) = root_dir ->
  root (parse (unquote href)) = "" ->
  (exists r,
     DetectNoToc.normalize_path base_path href = Ret r /\
     (unquote r = r -> DetectNoToc.normalize_path base_path r = Ret r)) /\
  (exists r,
     CheckCopyrightToc.normalize_path base_path href namelist = Ret r /\
     (unquote r = r -> CheckCopyrightToc.normalize_path base_path r namelist = Ret r)).
Proof.
  intros Hbase Hrel. split.
  - now apply detect_normalize_path_idempotent.
  - now apply check_normalize_path_idempotent.
Qed.

Lemma normalize_path_idempotent_at_archive_root_witness :
  parent (parse "toc.ncx") = root_dir /\
  root (parse (unquote "text/../ch%201.xhtml")) = "" /\
  DetectNoToc.normalize_path "toc.ncx" "text/../ch%201.xhtml" = Ret "ch 1.xhtml" /\
  DetectNoToc.normalize_path "toc.ncx" "ch 1.xhtml" = Ret "ch 1.xhtml" /\
  CheckCopyrightToc.normalize_path "toc.ncx" "ch 1.xhtml" ["toc.ncx"] = Ret "ch 1.xhtml".
Proof.
  split; [reflexivity|]. split; [reflexivity|]. split; [reflexivity|].
  assert (Hbase : parent (parse "toc.ncx") = root_dir) by reflexivity.
  assert (Hrel : root (parse (unquote "text/../ch%201.xhtml")) = "") by reflexivity.
  destruct (normalize_path_idempotent_at_archive_root
              "toc.ncx" "text/../ch%201.xhtml" ["toc.ncx"] Hbase Hrel)
    as [[r [Hr Hidem]] [r' [Hr' Hidem']]].
  injection Hr as <-. injection Hr' as <-.
  split; [apply Hidem | apply Hidem']; reflexivity.
Defined.

(** C3, as stated, fails: with a base inside a directory, the directory is
    put in front of the resolved path once more. *)
Lemma normalize_path_not_idempotent :
  DetectNoToc.normalize_path "OEBPS/toc.ncx" "ch1.xhtml" = Ret "OEBPS/ch1.xhtml" /\
  DetectNoToc.normalize_path "OEBPS/toc.ncx" "OEBPS/ch1.xhtml" = Ret "OEBPS/OEBPS/ch1.xhtml" /\
  CheckCopyrightToc.normalize_path "OEBPS/toc.ncx" "ch1.xhtml" ["OEBPS/toc.ncx"]
  = Ret "OEBPS/ch1.xhtml" /\
  CheckCopyrightToc.normalize_path "OEBPS/toc.ncx" "OEBPS/ch1.xhtml" ["OEBPS/toc.ncx"]
  = Ret "OEBPS/OEBPS/ch1.xhtml" /\
  "OEBPS/OEBPS/ch1.xhtml" <> "OEBPS/ch1.xhtml".
Proof. repeat split; try reflexivity. discriminate. Qed.

(** C4, as amended.  An entry is discarded exactly when its lower-cased and
    stripped label is one of the boilerplate keywords, or contains [cover],
    [title page] or [copyright], or the file name of its resolved target
    contains [cover], [title], [copyright] or [toc], or its resolved target is
    not a content file.  The loop keeps the other entries, in order. *)
Theorem content_entry_discarded_iff `{PyStr}
  (content_files : list string) (entry : TocEntry) :
  exists kept,
    DetectNoToc.is_content_entry content_files entry = Ret kept /\
    (kept = false <->
     In (entry_label entry) DetectNoToc.boilerplate_keywords \/
     (exists keyword, In keyword ["cover"; "title page"; "copyright"] /\
                      contains keyword (entry_label entry) = true) \/
     (exists keyword, In keyword ["cover"; "title"; "copyright"; "toc"] /\
                      contains keyword (entry_filename entry) = true) \/
     ~ In (entry_target entry) content_files) /\
    forall toc_entries,
      filterM (DetectNoToc.is_content_entry content_files) toc_entries
      = Ret (filter (is_content content_files) toc_entries).
Proof.
  eexists. split; [apply is_content_entry_value|]. split.
  - rewrite !andb_false_iff, !negb_false_iff, orb_true_iff.
    rewrite mem_In, mem_false_In, !existsb_exists. tauto.
  - intros toc_entries. apply filterM_filter. intros e. apply is_content_entry_returns.
Qed.

(** C4, as stated, fails: the label [Protocol] contains the keyword [toc] and
    the entry is kept. *)
Lemma label_containing_toc_is_kept :
  In "toc" DetectNoToc.boilerplate_keywords /\
  contains "toc" (entry_label {| entry_href := "ch1.xhtml"; entry_text := "Protocol";
                                 entry_source := "OEBPS/nav.xhtml" |}) = true /\
  DetectNoToc.is_content_entry ["OEBPS/ch1.xhtml"]
    {| entry_href := "ch1.xhtml"; entry_text := "Protocol";
       entry_source := "OEBPS/nav.xhtml" |} = Ret true.
Proof. split; [simpl; tauto|]. split; reflexivity. Qed.

(** C5.  With a positive threshold: [find_copyright_path] returns [None] when
    the best score is below the threshold, and when best and second-best
    scores are positive with [best < second * 1.5]; otherwise it returns the
    path at the best index, whose score is the best score.  The best score
    bounds the score of every document; the second-best score bounds the
    score of every document but the best one and is 0 or the score of one
    of them.  The product [second * 1.5] is a [float]: the two clauses on it
    are for a second-best score whose triple is below [2 ** 53] (as it is for
    every score below [2 ** 51]), where the product is exact. *)
Theorem find_copyright_path_verdict
  (get_spine_xhtml_paths : ZipFile -> Manifest -> list string -> string -> list string)
  (extract_text_from_xhtml : ZipFile -> string -> string)
  (score_file : string -> string -> Z) (CONFIDENCE_THRESHOLD : Z)
  (z : ZipFile) (manifest : Manifest) (spine : list string) (opf_dir : string)
  (best_index : option nat) (best_score second_score : Z) :
  (0 < CONFIDENCE_THRESHOLD)%Z ->
  CheckCopyrightToc.score_loop extract_text_from_xhtml score_file z
    (get_spine_xhtml_paths z manifest spine opf_dir)
  = (best_index, best_score, second_score) ->
  let xhtml_paths := get_spine_xhtml_paths z manifest spine opf_dir in
  let score := score_of extract_text_from_xhtml score_file z in
  let result :=
    CheckCopyrightToc.find_copyright_path get_spine_xhtml_paths extract_text_from_xhtml
      score_file CONFIDENCE_THRESHOLD z manifest spine opf_dir in
  (forall p, In p xhtml_paths -> (score p <= best_score)%Z) /\
  ((0 <= second_score <= best_score)%Z /\
   (forall j p, nth_error xhtml_paths j = Some p -> best_index <> Some j ->
                (score p <= second_score)%Z) /\
   (second_score = 0%Z \/
    exists j p, best_index <> Some j /\ nth_error xhtml_paths j = Some p /\
                score p = second_score)) /\
  ((best_score < CONFIDENCE_THRESHOLD)%Z -> result = Ret None) /\
  ((3 * second_score < 2 ^ 53)%Z ->
   (0 < best_score)%Z -> (0 < second_score)%Z ->
   (2 * best_score < 3 * second_score)%Z -> result = Ret None) /\
  ((3 * second_score < 2 ^ 53)%Z ->
   (CONFIDENCE_THRESHOLD <= best_score)%Z ->
   ~ ((0 < best_score)%Z /\ (0 < second_score)%Z /\
      (2 * best_score < 3 * second_score)%Z) ->
   exists i p,
     best_index = Some i /\ nth_error xhtml_paths i = Some p /\
     score p = best_score /\ result = Ret (Some p)).
Proof.
  intros Hpos Hloop xhtml_paths score result.
  split; [|split; [|split; [|split]]].
  - eapply best_score_bounds. exact Hloop.
  - eapply second_score_bounds. exact Hloop.
  - eapply below_threshold. exact Hloop.
  - eapply ambiguous. exact Hloop.
  - intros Hsmall Hhigh Hclear. eapply confident_winner; eassumption.
Qed.

Lemma find_copyright_path_verdict_witness :
  (0 < 5)%Z /\
  CheckCopyrightToc.find_copyright_path
    (Scenario.fixed_paths ["cover.xhtml"; "title.xhtml"; "copyright.xhtml"])
    Scenario.no_text
    (Scenario.table_score [("cover.xhtml", 0%Z); ("title.xhtml", 2%Z); ("copyright.xhtml", 9%Z)])
    5 Scenario.legacy [] [] "OEBPS"
  = Ret (Some "copyright.xhtml") /\
  CheckCopyrightToc.find_copyright_path
    (Scenario.fixed_paths ["a.xhtml"; "b.xhtml"]) Scenario.no_text
    (Scenario.table_score [("a.xhtml", 6%Z); ("b.xhtml", 5%Z)])
    5 Scenario.legacy [] [] "OEBPS"
  = Ret None.
Proof.
  split; [lia|]. split.
  - assert (Hpos : (0 < 5)%Z) by lia.
    assert (Hloop :
      CheckCopyrightToc.score_loop Scenario.no_text
        (Scenario.table_score
           [("cover.xhtml", 0%Z); ("title.xhtml", 2%Z); ("copyright.xhtml", 9%Z)])
        Scenario.legacy
        (Scenario.fixed_paths ["cover.xhtml"; "title.xhtml"; "copyright.xhtml"]
           Scenario.legacy [] [] "OEBPS")
      = (Some 2, 9%Z, 2%Z)) by reflexivity.
    destruct (find_copyright_path_verdict _ _ _ _ _ _ _ _ _ _ _ Hpos Hloop)
      as (_ & _ & _ & _ & Hwin).
    destruct Hwin as (i & p & Hi & Hp & _ & Hres); [lia | lia | lia |].
    injection Hi as <-. injection Hp as <-. exact Hres.
  - assert (Hpos : (0 < 5)%Z) by lia.
    assert (Hloop :
      CheckCopyrightToc.score_loop Scenario.no_text
        (Scenario.table_score [("a.xhtml", 6%Z); ("b.xhtml", 5%Z)])
        Scenario.legacy
        (Scenario.fixed_paths ["a.xhtml"; "b.xhtml"] Scenario.legacy [] [] "OEBPS")
      = (Some 0, 6%Z, 5%Z)) by reflexivity.
    destruct (find_copyright_path_verdict _ _ _ _ _ _ _ _ _ _ _ Hpos Hloop)
      as (_ & _ & _ & Hamb & _).
    apply Hamb; lia.
Defined.

(** C10.  When two documents share the highest score and it is positive,
    [find_copyright_path] returns [None], whatever the threshold.  The guard
    multiplies the second-best score, here the shared score, by the [float]
    1.5: the statement is for a score whose triple is below [2 ** 53] (as it
    is for every score below [2 ** 51]), where the product is exact. *)
Theorem tied_best_score_is_rejected
  (get_spine_xhtml_paths : ZipFile -> Manifest -> list string -> string -> list string)
  (extract_text_from_xhtml : ZipFile -> string -> string)
  (score_file : string -> string -> Z) (CONFIDENCE_THRESHOLD : Z)
  (z : ZipFile) (manifest : Manifest) (spine : list string) (opf_dir : string)
  (i j : nat) (p q : string) :
  let xhtml_paths := get_spine_xhtml_paths z manifest spine opf_dir in
  let score := score_of extract_text_from_xhtml score_file z in
  i <> j ->
  nth_error xhtml_paths i = Some p ->
  nth_error xhtml_paths j = Some q ->
  score p = score q ->
  (0 < score p)%Z ->
  (3 * score p < 2 ^ 53)%Z ->
  (forall x, In x xhtml_paths -> (score x <= score p)%Z) ->
  CheckCopyrightToc.find_copyright_path get_spine_xhtml_paths extract_text_from_xhtml
    score_file CONFIDENCE_THRESHOLD z manifest spine opf_dir
  = Ret None.
Proof. intros xhtml_paths score. apply tie_rejected. Qed.

Lemma tied_best_score_is_rejected_witness :
  CheckCopyrightToc.find_copyright_path
    (Scenario.fixed_paths ["cover.xhtml"; "legal.xhtml"; "rights.xhtml"])
    Scenario.no_text
    (Scenario.table_score [("cover.xhtml", 1%Z); ("legal.xhtml", 9%Z); ("rights.xhtml", 9%Z)])
    5 Scenario.legacy [] [] "OEBPS"
  = Ret None.
Proof.
  apply (tied_best_score_is_rejected
           (Scenario.fixed_paths ["cover.xhtml"; "legal.xhtml"; "rights.xhtml"])
           Scenario.no_text
           (Scenario.table_score
              [("cover.xhtml", 1%Z); ("legal.xhtml", 9%Z); ("rights.xhtml", 9%Z)])
           5%Z Scenario.legacy [] [] "OEBPS" 1 2 "legal.xhtml" "rights.xhtml").
  - discriminate.
  - reflexivity.
  - reflexivity.
  - reflexivity.
  - reflexivity.
  - reflexivity.
  - intros x [<-|[<-|[<-|[]]]]; vm_compute; discriminate.
Defined.

(** C6.  Once a copyright page has been found, the analysis reports
    [in ncx] exactly when some entry of the navigation map, with its fragment
    stripped and resolved against its source, has the parts of the copyright
    path; an href with a fragment reaches whatever the href without it
    reaches. *)
Theorem in_ncx_iff_an_entry_reaches_the_page `{PyStr}
  (open_zip : string -> exc ZipFile)
  (find_opf_path : ZipFile -> exc (option string))
  (resolve_href : string -> string -> string)
  (get_spine_xhtml_paths : ZipFile -> Manifest -> list string -> string -> list string)
  (extract_text_from_xhtml : ZipFile -> string -> string)
  (score_file : string -> string -> Z) (CONFIDENCE_THRESHOLD : Z)
  (epub_path : string) (z : ZipFile) (opf_path : string)
  (manifest : Manifest) (spine : list string) (opf_dir : string)
  (spine_toc : option string)
  (ncx_hrefs : option (list (string * string))) (ncx_error : option string)
  (copyright_path : string) :
  open_zip epub_path = Ret z ->
  find_opf_path z = Ret (Some opf_path) ->
  parse_opf z opf_path = Ret (manifest, spine, opf_dir, spine_toc) ->
  CheckCopyrightToc.extract_ncx_hrefs resolve_href z opf_dir manifest spine_toc
  = Ret (ncx_hrefs, ncx_error) ->
  CheckCopyrightToc.find_copyright_path get_spine_xhtml_paths extract_text_from_xhtml
    score_file CONFIDENCE_THRESHOLD z manifest spine opf_dir
  = Ret (Some copyright_path) ->
  (exists result warnings,
     CheckCopyrightToc.analyze_epub open_zip find_opf_path resolve_href
       get_spine_xhtml_paths extract_text_from_xhtml score_file
       CONFIDENCE_THRESHOLD epub_path
     = Ret (result, warnings) /\
     (In "in ncx" (match result with Some hits => hits | None => [] end) <->
      exists href source_path,
        In (href, source_path) (match ncx_hrefs with Some l => l | None => [] end) /\
        parts (parse (value "" (CheckCopyrightToc.normalize_path source_path
                                  (fragment_free href) (namelist z))))
        = parts (parse copyright_path))) /\
  (forall href fragment source_path,
     has_char "#" href = false ->
     reaches (namelist z) copyright_path (href ++ String "#" fragment, source_path)%string
     = reaches (namelist z) copyright_path (href, source_path)).
Proof.
  intros Hopen Hopf Hparse Hncx Hfind. split.
  - unfold CheckCopyrightToc.analyze_epub.
    rewrite Hopen, bind_Ret, Hopf, bind_Ret, Hparse, bind_Ret.
    rewrite Hncx, bind_Ret, Hfind, bind_Ret.
    rewrite reachability_hits_value, bind_Ret.
    cbn [try_except]. eexists. eexists. split; [reflexivity|].
    set (links := match ncx_hrefs with Some l => l | None => [] end).
    set (human := CheckCopyrightToc.extract_human_toc_hrefs _ _ _ _ _).
    assert (Hin : existsb (reaches (namelist z) copyright_path) links = true <->
                  exists href source_path,
                    In (href, source_path) links /\
                    parts (parse (value "" (CheckCopyrightToc.normalize_path source_path
                                              (fragment_free href) (namelist z))))
                    = parts (parse copyright_path)).
    { rewrite existsb_exists. split.
      - intros [[href source_path] [Hl Hr]]. exists href, source_path.
        split; [assumption|]. now apply parts_eqb_eq in Hr.
      - intros [href [source_path [Hl Hr]]]. exists (href, source_path).
        split; [assumption|]. now apply parts_eqb_eq. }
    rewrite <- Hin.
    destruct (existsb (reaches (namelist z) copyright_path) links);
      destruct (existsb (reaches (namelist z) copyright_path) human); simpl;
      split; intros Hx; try reflexivity; try discriminate; auto;
      repeat (destruct Hx as [Hx|Hx]; try discriminate); try contradiction.
  - intros href fragment source_path Hplain.
    unfold reaches, href_target. cbn [fst snd].
    now rewrite fragment_free_fragment, fragment_free_plain.
Qed.

Lemma in_ncx_iff_an_entry_reaches_the_page_witness :
  CheckCopyrightToc.analyze_epub Scenario.open_zip Scenario.find_opf_path
    DetectNoToc.resolve_href Scenario.spine_paths Scenario.no_text
    (Scenario.table_score Scenario.legacy_scores) 5 "legacy.epub"
  = Ret (Some ["in ncx"], []) /\
  exists href source_path,
    In (href, source_path) [("content/chapter1.xhtml#top", "OEBPS/toc.ncx")] /\
    parts (parse (value "" (CheckCopyrightToc.normalize_path source_path
                              (fragment_free href) (namelist Scenario.legacy))))
    = parts (parse "OEBPS/content/chapter1.xhtml").
Proof.
  split; [reflexivity|].
  assert (Hopen : Scenario.open_zip "legacy.epub" = Ret Scenario.legacy) by reflexivity.
  assert (Hopf : Scenario.find_opf_path Scenario.legacy = Ret (Some "OEBPS/content.opf"))
    by reflexivity.
  destruct (parse_opf Scenario.legacy "OEBPS/content.opf")
    as [e | [[[manifest spine] opf_dir] spine_toc]] eqn:Hparse; [discriminate|].
  injection Hparse as <- <- <- <-.
  match goal with
  | |- context [In _ ?l] =>
      assert (Hncx : CheckCopyrightToc.extract_ncx_hrefs DetectNoToc.resolve_href
                       Scenario.legacy "OEBPS"
                       (build_manifest
                          match opf_manifest Scenario.legacy_opf with
                          | Some items => items
                          | None => []
                          end)
                       (Some "ncx")
                     = Ret (Some l, None)) by reflexivity
  end.
  assert (Hfind : CheckCopyrightToc.find_copyright_path Scenario.spine_paths
                    Scenario.no_text (Scenario.table_score Scenario.legacy_scores) 5
                    Scenario.legacy
                    (build_manifest
                       match opf_manifest Scenario.legacy_opf with
                       | Some items => items
                       | None => []
                       end)
                    ["cover"; "title"; "chapter1"] "OEBPS"
                  = Ret (Some "OEBPS/content/chapter1.xhtml")) by reflexivity.
  destruct (in_ncx_iff_an_entry_reaches_the_page
              Scenario.open_zip Scenario.find_opf_path DetectNoToc.resolve_href
              Scenario.spine_paths Scenario.no_text
              (Scenario.table_score Scenario.legacy_scores) 5%Z
              "legacy.epub" Scenario.legacy "OEBPS/content.opf" _ _ _ _ _ _ _
              Hopen Hopf eq_refl Hncx Hfind)
    as [[result [warnings [Hres Hiff]]] _].
  injection Hres as <- <-. apply Hiff. simpl. auto.
Defined.

(** C7.  On a manifest as [parse_opf] builds it, the navigation map is the
    item named by the [toc] attribute of the spine when the manifest has that
    id, otherwise the first item of media type [application/x-dtbncx+xml];
    with neither, [extract_ncx_hrefs] returns the warning [NO NCX FOUND] and
    [extract_ncx_entries] no entry.  The item chosen is the document that is
    read, and neither function raises. *)
Theorem navigation_map_selection `{PyStr}
  (resolve_href : string -> string -> string)
  (z : ZipFile) (opf_dir : string) (manifest : Manifest) (spine_toc : option string) :
  manifest_ok manifest ->
  (forall t, spine_toc = Some t -> In t (map fst manifest) ->
             select_ncx_id manifest spine_toc = Some t) /\
  ((forall t, spine_toc = Some t -> ~ In t (map fst manifest)) ->
   (forall before iid item after,
      manifest = before ++ (iid, item) :: after ->
      Forall (fun kv => ~ is_ncx (snd kv)) before ->
      is_ncx item ->
      select_ncx_id manifest spine_toc = Some iid) /\
   (Forall (fun kv => ~ is_ncx (snd kv)) manifest ->
    CheckCopyrightToc.extract_ncx_hrefs resolve_href z opf_dir manifest spine_toc
    = Ret (None, Some "NO NCX FOUND") /\
    DetectNoToc.extract_ncx_entries z opf_dir manifest spine_toc = Ret [])) /\
  (forall iid item doc,
     select_ncx_id manifest spine_toc = Some iid ->
     dict_get manifest iid = Some item ->
     (mem (resolve_href opf_dir (href item)) (namelist z) = true ->
      ncx_tree z (resolve_href opf_dir (href item)) = Ret doc ->
      CheckCopyrightToc.extract_ncx_hrefs resolve_href z opf_dir manifest spine_toc
      = Ret (Some (CheckCopyrightToc.content_hrefs (ncx_contents doc)
                     (resolve_href opf_dir (href item))), None)) /\
     (mem (DetectNoToc.resolve_href opf_dir (href item)) (namelist z) = true ->
      ncx_tree z (DetectNoToc.resolve_href opf_dir (href item)) = Ret doc ->
      DetectNoToc.extract_ncx_entries z opf_dir manifest spine_toc
      = Ret (DetectNoToc.navpoint_entries (ncx_navpoints doc)
               (DetectNoToc.resolve_href opf_dir (href item))))) /\
  returns (CheckCopyrightToc.extract_ncx_hrefs resolve_href z opf_dir manifest spine_toc) /\
  returns (DetectNoToc.extract_ncx_entries z opf_dir manifest spine_toc).
Proof.
  intros Hok. split; [|split; [|split; [|split]]].
  - intros t -> Hin. now apply select_declared.
  - intros Habsent. split.
    + intros before iid item after -> Hbefore Hitem.
      rewrite select_fallback by assumption. now apply first_ncx_item_found.
    + intros Hnone. apply no_ncx_found.
      rewrite select_fallback by assumption. now apply first_ncx_item_none.
  - intros iid item doc. now apply selected_map_is_read.
  - apply extract_ncx_hrefs_returns.
  - apply extract_ncx_entries_returns.
Qed.

Lemma navigation_map_selection_witness :
  manifest_ok
    (build_manifest match opf_manifest Scenario.legacy_opf with
                    | Some items => items
                    | None => []
                    end) /\
  select_ncx_id
    (build_manifest match opf_manifest Scenario.legacy_opf with
                    | Some items => items
                    | None => []
                    end) (Some "ncx") = Some "ncx".
Proof.
  assert (Hok : manifest_ok
                  (build_manifest match opf_manifest Scenario.legacy_opf with
                                  | Some items => items
                                  | None => []
                                  end))
    by (repeat constructor).
  split; [exact Hok|].
  apply (navigation_map_selection DetectNoToc.resolve_href Scenario.legacy "OEBPS" _
           (Some "ncx") Hok).
  - reflexivity.
  - simpl. auto.
Defined.

(** C8.  [analyze_epub_single_chapter] never raises: whatever is raised while
    a file is analysed becomes [error_parsing_epub]; without a package
    document the result is [no_opf], and without content files
    [no_content_files]. *)
Theorem analyze_epub_single_chapter_never_raises `{PyStr}
  (open_zip : string -> exc ZipFile)
  (find_opf_path : ZipFile -> exc (option string)) (path : string) :
  let result := DetectNoToc.analyze_epub_single_chapter open_zip find_opf_path path in
  returns result /\
  (forall e, DetectNoToc.single_chapter_body open_zip find_opf_path path = Raise e ->
             result = Ret ["error_parsing_epub"]) /\
  (forall e, open_zip path = Raise e -> result = Ret ["error_parsing_epub"]) /\
  (forall z e, open_zip path = Ret z -> find_opf_path z = Raise e ->
               result = Ret ["error_parsing_epub"]) /\
  (forall z opf_path e,
     open_zip path = Ret z -> find_opf_path z = Ret opf_path ->
     truthy_opt opf_path = true -> parse_opf z (or_empty opf_path) = Raise e ->
     result = Ret ["error_parsing_epub"]) /\
  (forall z opf_path,
     open_zip path = Ret z -> find_opf_path z = Ret opf_path ->
     truthy_opt opf_path = false ->
     result = Ret ["no_opf"]) /\
  (forall z opf_path manifest spine opf_dir spine_toc,
     open_zip path = Ret z -> find_opf_path z = Ret opf_path ->
     truthy_opt opf_path = true ->
     parse_opf z (or_empty opf_path) = Ret (manifest, spine, opf_dir, spine_toc) ->
     DetectNoToc.get_content_files z manifest spine opf_dir = [] ->
     result = Ret ["no_content_files"]).
Proof.
  intros result. subst result.
  unfold DetectNoToc.analyze_epub_single_chapter. repeat split.
  - apply try_except_returns. intros e. apply returns_Ret.
  - intros e ->. reflexivity.
  - intros e He. unfold DetectNoToc.single_chapter_body. now rewrite He.
  - intros z e Hz He. unfold DetectNoToc.single_chapter_body.
    now rewrite Hz, bind_Ret, He.
  - intros z opf_path e Hz Hopf Htruthy He. unfold DetectNoToc.single_chapter_body.
    now rewrite Hz, bind_Ret, Hopf, bind_Ret, Htruthy, He.
  - intros z opf_path Hz Hopf Hfalsy. unfold DetectNoToc.single_chapter_body.
    now rewrite Hz, bind_Ret, Hopf, bind_Ret, Hfalsy.
  - intros z opf_path manifest spine opf_dir spine_toc Hz Hopf Htruthy Hparse Hfiles.
    unfold DetectNoToc.single_chapter_body.
    now rewrite Hz, bind_Ret, Hopf, bind_Ret, Htruthy, Hparse, bind_Ret, Hfiles.
Qed.

Lemma analyze_epub_single_chapter_never_raises_witness :
  DetectNoToc.analyze_epub_single_chapter Scenario.open_zip Scenario.find_opf_path
    "zero-bytes.epub" = Ret ["error_parsing_epub"] /\
  DetectNoToc.analyze_epub_single_chapter Scenario.open_zip Scenario.find_opf_path
    "no-opf.epub" = Ret ["no_opf"] /\
  DetectNoToc.analyze_epub_single_chapter Scenario.open_zip Scenario.find_opf_path
    "cover-only.epub" = Ret ["no_content_files"].
Proof.
  split; [|split].
  - apply (analyze_epub_single_chapter_never_raises
             Scenario.open_zip Scenario.find_opf_path "zero-bytes.epub")
      with (e := Exception "File is not a zip file").
    reflexivity.
  - destruct (analyze_epub_single_chapter_never_raises
                Scenario.open_zip Scenario.find_opf_path "no-opf.epub")
      as (_ & _ & _ & _ & _ & Hno_opf & _).
    apply (Hno_opf Scenario.no_opf_package None); reflexivity.
  - destruct (analyze_epub_single_chapter_never_raises
                Scenario.open_zip Scenario.find_opf_path "cover-only.epub")
      as (_ & _ & _ & _ & _ & _ & Hno_files).
    apply (Hno_files Scenario.cover_only (Some "content.opf")
             (build_manifest [Scenario.xhtml_item "cover" "cover.xhtml" None])
             ["cover"] "." None); reflexivity.
Defined.

(** C9.  [normalize_path], in both scripts, and [strip_fragment] return a
    value for every base path and href; a [..] that would pop past the root
    is dropped. *)
Theorem resolution_never_raises `{PyStr}
  (base_path href : string) (namelist : list string) :
  returns (DetectNoToc.normalize_path base_path href) /\
  returns (CheckCopyrightToc.normalize_path base_path href namelist) /\
  returns (DetectNoToc.strip_fragment href) /\
  returns (CheckCopyrightToc.strip_fragment href) /\
  (forall rest, collapse (".." :: rest) [] = collapse rest []) /\
  (forall parts normalized_parts, returns (collapse parts normalized_parts)).
Proof.
  repeat split.
  - apply detect_normalize_path_returns.
  - apply check_normalize_path_returns.
  - apply strip_fragment_returns.
  - apply strip_fragment_returns.
  - apply collapse_returns.
Qed.

(** * Further properties of the two scripts *)

(** ** Href resolution *)

Lemma split_once_head (href : string) :
  exists r more,
    split "#" (Some 1) href = r :: more /\
    has_char "#" r = false /\
    ((more = [] /\ href = r) \/
     exists fragment, more = [fragment] /\ href = (r ++ String "#" fragment)%string).
Proof.
  induction href as [|c href IH].
  - exists "", []. repeat split. now left.
  - destruct (c =? "#")%char eqn:E.
    + apply Ascii.eqb_eq in E. subst c.
      exists "", [href]. split.
      * simpl. fold (split "#" (Some 0) href). now rewrite split_no_more.
      * split; [reflexivity|]. right. now exists href.
    + destruct IH as (r & more & Hsplit & Hplain & Hshape).
      exists (String c r), more. split.
      * simpl. rewrite E. simpl. fold (split "#" (Some 1) href). now rewrite Hsplit.
      * split; [simpl; now rewrite E|].
        destruct Hshape as [[-> ->] | (fragment & -> & ->)].
        -- now left.
        -- right. now exists fragment.
Qed.

(** X1.  [strip_fragment] returns the part of the href before its first
    [#]: a prefix without [#], followed in the href by nothing or by [#] and
    the fragment; stripping it again changes nothing. *)
Theorem strip_fragment_is_the_part_before_the_fragment (href : string) :
  exists r rest,
    strip_fragment href = Ret r /\
    href = (r ++ rest)%string /\
    has_char "#" r = false /\
    (rest = "" \/ exists fragment, rest = String "#" fragment) /\
    strip_fragment r = Ret r.
Proof.
  destruct (split_once_head href) as (r & more & Hsplit & Hplain & Hshape).
  assert (Hidem : strip_fragment r = Ret r).
  { unfold strip_fragment. now rewrite split_once_plain. }
  destruct Hshape as [[-> ->] | (fragment & -> & ->)].
  - exists r, "". unfold strip_fragment at 1. rewrite Hsplit.
    repeat split; try assumption.
    + clear. induction r; simpl; congruence.
    + now left.
  - exists r, (String "#" fragment). unfold strip_fragment at 1. rewrite Hsplit.
    repeat split; try assumption. right. now exists fragment.
Qed.

Lemma truthy_nonempty (s : string) : truthy s = true <-> s <> "".
Proof.
  unfold truthy. destruct (String.eqb_spec s ""); simpl; split; intros; congruence.
Qed.

Lemma solid_not_special (x : string) :
  solid_segment x -> x <> "" /\ x <> "." /\ x <> "..".
Proof.
  intros [[[Hk _] Hne] | [-> | ->]]; [|repeat split; discriminate ..].
  unfold keep_segment in Hk. apply andb_true_iff in Hk as [Ht Hd].
  apply truthy_nonempty in Ht. apply negb_true_iff, String.eqb_neq in Hd.
  now repeat split.
Qed.

Lemma parts_solid (p : PurePosixPath) :
  wf_path p -> Forall (fun x => solid_segment x \/ x = "..") (parts p).
Proof.
  intros [Hroot Htail]. unfold parts.
  assert (Ht : Forall (fun x => solid_segment x \/ x = "..") (tail p)).
  { eapply Forall_impl; [|exact Htail]. intros x Hx.
    destruct (String.eqb_spec x "..") as [->|Hne]; [now right|].
    left. left. now split. }
  destruct (truthy (root p)) eqn:E; [|exact Ht].
  constructor; [|exact Ht].
  apply truthy_nonempty in E.
  destruct Hroot as [Hr | [Hr | Hr]]; [congruence | |]; left; right; auto.
Qed.

Lemma collapse_solid (parts acc : list string) :
  Forall (fun x => solid_segment x \/ x = "..") parts ->
  Forall solid_segment acc ->
  exists out, collapse parts acc = Ret out /\ Forall solid_segment out.
Proof.
  intros Hparts. revert acc.
  induction Hparts as [|part rest Hpart _ IH]; intros acc Hacc; simpl.
  - now exists acc.
  - destruct (String.eqb_spec part "..") as [->|Hne].
    + destruct acc as [|a acc]; simpl.
      * now apply IH.
      * apply IH. now apply (Forall_removelast _ (a :: acc)).
    + destruct Hpart as [Hsolid | ->]; [|congruence].
      destruct (solid_not_special part Hsolid) as (_ & Hdot & _).
      apply String.eqb_neq in Hdot. rewrite Hdot. simpl. apply IH.
      unfold append. apply Forall_app. split; [assumption|].
      constructor; [assumption | constructor].
Qed.

Lemma truediv_wf (p q : PurePosixPath) : wf_path p -> wf_path q -> wf_path (truediv p q).
Proof.
  intros [Hp Htp] [Hq Htq]. unfold truediv.
  destruct (truthy (root q)); [now split|].
  split; [exact Hp|]. simpl. apply Forall_app. now split.
Qed.

Lemma parent_wf (p : PurePosixPath) : wf_path p -> wf_path (parent p).
Proof.
  intros [Hp Htp]. unfold parent. destruct (tail p) as [|x l] eqn:E.
  - split; [exact Hp | now rewrite E].
  - split; [exact Hp|]. cbn [tail]. now apply Forall_removelast.
Qed.

(** The parts that [normalize_path] collapses are the parts of the directory
    of the base joined with the href. *)
Lemma resolved_parts (base_path decoded : string) :
  parts (parse (as_posix (truediv (parent (parse base_path)) (parse decoded))))
  = parts (truediv (parent (parse base_path)) (parse decoded)).
Proof.
  rewrite parse_as_posix; [reflexivity|].
  apply truediv_wf; [apply parent_wf|]; apply parse_wf.
Qed.

(** X2.  With a base, [normalize_path] of [detect_no_toc.py] returns
    collapsed segments joined by [/]: no segment is empty, [.] or [..], and
    only the root of an absolute path holds a [/].  [normalize_path] of
    [check_copyright_toc.py] returns such a path or the decoded href itself,
    when that is the name of an archive member. *)
Theorem normalize_path_leaves_no_dot_segment `{PyStr}
  (base_path href : string) (namelist : list string) :
  truthy base_path = true ->
  (exists out,
     DetectNoToc.normalize_path base_path href = Ret (join "/" out) /\
     Forall solid_segment out /\
     Forall (fun x => x <> "" /\ x <> "." /\ x <> "..") out) /\
  ((In (unquote href) namelist /\
    CheckCopyrightToc.normalize_path base_path href namelist = Ret (unquote href)) \/
   CheckCopyrightToc.normalize_path base_path href namelist
   = DetectNoToc.normalize_path base_path href).
Proof.
  intros Hbase. split.
  - unfold DetectNoToc.normalize_path. rewrite Hbase. simpl negb. cbv iota.
    destruct (collapse_solid
                (parts (parse (as_posix (truediv (parent (parse base_path))
                                           (parse (unquote href)))))) [])
      as [out [Hout Hsolid]].
    + rewrite resolved_parts. apply parts_solid.
      apply truediv_wf; [apply parent_wf|]; apply parse_wf.
    + constructor.
    + rewrite Hout, bind_Ret. exists out. split.
      * destruct out; reflexivity.
      * split; [assumption|]. eapply Forall_impl; [|exact Hsolid].
        apply solid_not_special.
  - rewrite check_normalize_path_detect.
    destruct (mem (unquote href) namelist) eqn:Hmem.
    + left. split; [now apply mem_In | reflexivity].
    + now right.
Qed.

Lemma normalize_path_leaves_no_dot_segment_witness :
  truthy "OEBPS/text/toc.ncx" = true /\
  exists out,
    DetectNoToc.normalize_path "OEBPS/text/toc.ncx" "./../img/../ch1.xhtml"
    = Ret (join "/" out) /\
    Forall (fun x => x <> "" /\ x <> "." /\ x <> "..") out.
Proof.
  split; [reflexivity|].
  assert (Hbase : truthy "OEBPS/text/toc.ncx" = true) by reflexivity.
  destruct (normalize_path_leaves_no_dot_segment
              "OEBPS/text/toc.ncx" "./../img/../ch1.xhtml" [] Hbase)
    as [[out [Hout [_ Hclean]]] _].
  exists out. now split.
Defined.

Lemma collapse_app (l1 l2 acc : list string) :
  collapse (l1 ++ l2) acc = bind (collapse l1 acc) (collapse l2).
Proof.
  revert acc. induction l1 as [|part rest IH]; intros acc; simpl; [reflexivity|].
  destruct (part =? "..").
  - destruct acc as [|a acc]; simpl; apply IH.
  - destruct (negb (part =? ".")); apply IH.
Qed.

Lemma collapse_cancel (x : string) (rest acc : list string) :
  x <> ".." -> x <> "." ->
  collapse (x :: ".." :: rest) acc = collapse rest acc.
Proof.
  intros Hdd Hd. apply String.eqb_neq in Hdd, Hd.
  cbn [collapse]. rewrite Hdd, Hd. simpl negb. cbv iota.
  change (".." =? "..") with true. cbv iota.
  unfold append. destruct (acc ++ [x]) as [|a l] eqn:E.
  - now destruct acc.
  - cbn [nonempty pop bind]. rewrite <- E, removelast_last. reflexivity.
Qed.

Lemma parent_root_tail (p : PurePosixPath) :
  root (parent p) = root p /\ tail (parent p) = removelast (tail p).
Proof.
  unfold parent. destruct (tail p) eqn:E; [now rewrite E | now split].
Qed.

Lemma parts_truediv_relative (p q : PurePosixPath) :
  root q = "" -> parts (truediv p q) = parts p ++ tail q.
Proof.
  intros Hq. unfold truediv, parts. rewrite Hq. simpl.
  now destruct (truthy (root p)).
Qed.

(** X3.  [normalize_path] resolves against the directory of the base: for a
    relative base and a relative href without [..] segments, the result is
    the segments of the base without its last one, followed by the segments
    of the decoded href. *)
Theorem normalize_path_resolves_in_the_directory_of_the_base `{PyStr}
  (base_path href : string) :
  truthy base_path = true ->
  root (parse base_path) = "" ->
  root (parse (unquote href)) = "" ->
  ~ In ".." (tail (parse base_path)) ->
  ~ In ".." (tail (parse (unquote href))) ->
  DetectNoToc.normalize_path base_path href
  = Ret (join "/" (removelast (tail (parse base_path)) ++ tail (parse (unquote href)))).
Proof.
  intros Hbase Hrel_base Hrel_href Hdd_base Hdd_href.
  unfold DetectNoToc.normalize_path. rewrite Hbase. simpl negb. cbv iota.
  rewrite resolved_parts, parts_truediv_relative by assumption.
  destruct (parent_root_tail (parse base_path)) as [Hroot Htail].
  rewrite parts_relative by congruence. rewrite Htail.
  assert (Hplain : Forall plain_segment
                     (removelast (tail (parse base_path)) ++ tail (parse (unquote href)))).
  { apply Forall_app. split.
    - apply Forall_removelast. apply Forall_forall. intros x Hx. split.
      + destruct (parse_wf base_path) as [_ Hall]. rewrite Forall_forall in Hall. auto.
      + intros ->. contradiction.
    - apply Forall_forall. intros x Hx. split.
      + destruct (parse_wf (unquote href)) as [_ Hall]. rewrite Forall_forall in Hall. auto.
      + intros ->. contradiction. }
  rewrite collapse_of_plain by assumption. rewrite bind_Ret. simpl app.
  destruct (removelast (tail (parse base_path)) ++ tail (parse (unquote href)));
    reflexivity.
Qed.

Lemma normalize_path_resolves_in_the_directory_of_the_base_witness :
  DetectNoToc.normalize_path "OEBPS/text/toc.ncx" "img/ch%201.xhtml"
  = Ret "OEBPS/text/img/ch 1.xhtml".
Proof.
  assert (H1 : truthy "OEBPS/text/toc.ncx" = true) by reflexivity.
  assert (H2 : root (parse "OEBPS/text/toc.ncx") = "") by reflexivity.
  assert (H3 : root (parse (unquote "img/ch%201.xhtml")) = "") by reflexivity.
  assert (H4 : ~ In ".." (tail (parse "OEBPS/text/toc.ncx"))).
  { simpl. intros [E|[E|[E|[]]]]; discriminate. }
  assert (H5 : ~ In ".." (tail (parse (unquote "img/ch%201.xhtml")))).
  { simpl. intros [E|[E|[]]]; discriminate. }
  exact (normalize_path_resolves_in_the_directory_of_the_base
           "OEBPS/text/toc.ncx" "img/ch%201.xhtml" H1 H2 H3 H4 H5).
Defined.

(** X4.  With a base, a [..] segment of a relative href cancels the segment
    before it: the href resolves as the href without the two segments. *)
Theorem dotdot_cancels_the_segment_before_it `{PyStr}
  (base_path href shorter : string) (before : list string) (x : string)
  (after : list string) :
  truthy base_path = true ->
  root (parse (unquote href)) = "" ->
  root (parse (unquote shorter)) = "" ->
  tail (parse (unquote href)) = before ++ x :: ".." :: after ->
  tail (parse (unquote shorter)) = before ++ after ->
  x <> ".." ->
  DetectNoToc.normalize_path base_path href
  = DetectNoToc.normalize_path base_path shorter.
Proof.
  intros Hbase Hrel Hrel' Htail Htail' Hx.
  assert (Hdot : x <> ".").
  { destruct (parse_wf (unquote href)) as [_ Hall]. rewrite Htail in Hall.
    apply Forall_app in Hall as [_ Hall]. inversion Hall as [|? ? [Hk _] _]; subst.
    unfold keep_segment in Hk. apply andb_true_iff in Hk as [_ Hk].
    now apply negb_true_iff, String.eqb_neq in Hk. }
  unfold DetectNoToc.normalize_path. rewrite Hbase. simpl negb. cbv iota.
  rewrite !resolved_parts, !parts_truediv_relative by assumption.
  rewrite Htail, Htail'.
  rewrite !app_assoc.
  set (front := parts (parent (parse base_path)) ++ before).
  rewrite (collapse_app front (x :: ".." :: after)), (collapse_app front after).
  destruct (collapse front []) as [e|acc]; [reflexivity|].
  rewrite !bind_Ret. now rewrite collapse_cancel.
Qed.

Lemma dotdot_cancels_the_segment_before_it_witness :
  DetectNoToc.normalize_path "OEBPS/toc.ncx" "text/img/../ch1.xhtml"
  = DetectNoToc.normalize_path "OEBPS/toc.ncx" "text/ch1.xhtml".
Proof.
  assert (H1 : truthy "OEBPS/toc.ncx" = true) by reflexivity.
  assert (H2 : root (parse (unquote "text/img/../ch1.xhtml")) = "") by reflexivity.
  assert (H3 : root (parse (unquote "text/ch1.xhtml")) = "") by reflexivity.
  assert (H4 : tail (parse (unquote "text/img/../ch1.xhtml"))
               = ["text"] ++ "img" :: ".." :: ["ch1.xhtml"]) by reflexivity.
  assert (H5 : tail (parse (unquote "text/ch1.xhtml")) = ["text"] ++ ["ch1.xhtml"])
    by reflexivity.
  assert (H6 : "img" <> "..") by discriminate.
  exact (dotdot_cancels_the_segment_before_it
           "OEBPS/toc.ncx" "text/img/../ch1.xhtml" "text/ch1.xhtml"
           ["text"] "img" ["ch1.xhtml"] H1 H2 H3 H4 H5 H6).
Defined.

(** ** The package document *)

Lemma as_posix_truthy (p : PurePosixPath) : truthy (as_posix p) = true.
Proof. unfold as_posix. now destruct (root p ++ join "/" (tail p))%string. Qed.

(** X5.  [resolve_href] returns the text of a path: it is never empty and
    parsing it gives the same text back; with the directory [.] of a package
    document at the archive root it resolves as with no directory. *)
Theorem resolve_href_is_canonical `{PyStr} (opf_dir href : string) :
  truthy (DetectNoToc.resolve_href opf_dir href) = true /\
  as_posix (parse (DetectNoToc.resolve_href opf_dir href))
  = DetectNoToc.resolve_href opf_dir href /\
  DetectNoToc.resolve_href "." href = DetectNoToc.resolve_href "" href.
Proof.
  unfold DetectNoToc.resolve_href. split; [|split].
  - destruct (negb (truthy opf_dir)); apply as_posix_truthy.
  - destruct (negb (truthy opf_dir)).
    + apply as_posix_parse_idem.
    + rewrite parse_as_posix; [reflexivity|]. apply truediv_wf; apply parse_wf.
  - simpl negb. cbv iota. change (parse ".") with root_dir.
    now rewrite truediv_root_dir.
Qed.

Lemma build_manifest_fold (items : list OpfItem) :
  build_manifest items = fold_left manifest_step items [].
Proof. reflexivity. Qed.

Lemma dict_get_set (manifest : Manifest) (k k' : string) (v : ManifestItem) :
  dict_get (dict_set manifest k v) k' = if k =? k' then Some v else dict_get manifest k'.
Proof.
  induction manifest as [|[k0 v0] rest IH]; simpl.
  - reflexivity.
  - destruct (String.eqb_spec k0 k) as [->|Hne]; simpl.
    + destruct (k =? k'); reflexivity.
    + rewrite IH. destruct (String.eqb_spec k0 k') as [->|Hne'].
      * apply String.eqb_neq in Hne. rewrite String.eqb_sym in Hne. now rewrite Hne.
      * reflexivity.
Qed.

Lemma manifest_step_get (manifest : Manifest) (item : OpfItem) (iid : string) :
  dict_get (manifest_step manifest item) iid =
  if declares iid item then Some (declared_entry item) else dict_get manifest iid.
Proof.
  unfold manifest_step, declares, declared_entry.
  destruct (item_id item) as [i|]; [|reflexivity].
  destruct (item_href item) as [h|]; [|reflexivity].
  destruct (truthy i && truthy h) eqn:E.
  - rewrite dict_get_set. rewrite <- andb_assoc, E, andb_true_r. reflexivity.
  - rewrite <- andb_assoc, E, andb_false_r. reflexivity.
Qed.

Lemma fold_manifest_step_get (items : list OpfItem) (manifest : Manifest) (iid : string) :
  Forall (fun item => declares iid item = false) items ->
  dict_get (fold_left manifest_step items manifest) iid = dict_get manifest iid.
Proof.
  intros Hnone. revert manifest.
  induction Hnone as [|item items Hitem _ IH]; intros manifest; simpl; [reflexivity|].
  now rewrite IH, manifest_step_get, Hitem.
Qed.

(** X6.  The manifest maps an id to the last [<item>] that declares it with
    a non-empty id and href, and has no entry for an id that no item
    declares so. *)
Theorem manifest_keeps_the_last_declaration
  (items : list OpfItem) (iid : string) :
  (forall before item after,
     items = before ++ item :: after ->
     declares iid item = true ->
     Forall (fun later => declares iid later = false) after ->
     dict_get (build_manifest items) iid = Some (declared_entry item)) /\
  (Forall (fun item => declares iid item = false) items ->
   dict_get (build_manifest items) iid = None).
Proof.
  rewrite build_manifest_fold. split.
  - intros before item after -> Hitem Hafter.
    rewrite fold_left_app. cbn [fold_left].
    rewrite fold_manifest_step_get by assumption.
    now rewrite manifest_step_get, Hitem.
  - intros Hnone. now rewrite fold_manifest_step_get.
Qed.

Lemma manifest_keeps_the_last_declaration_witness :
  dict_get
    (build_manifest
       [Scenario.xhtml_item "ch1" "old.xhtml" None;
        Scenario.xhtml_item "ch2" "ch2.xhtml" None;
        Scenario.xhtml_item "ch1" "new.xhtml" (Some "nav");
        {| item_id := Some "ch1"; item_href := None;
           item_media_type := None; item_properties := None |}])
    "ch1"
  = Some {| href := "new.xhtml"; media_type := Some "application/xhtml+xml";
            properties := "nav" |}.
Proof.
  apply (proj1 (manifest_keeps_the_last_declaration _ "ch1")
           [Scenario.xhtml_item "ch1" "old.xhtml" None;
            Scenario.xhtml_item "ch2" "ch2.xhtml" None]
           (Scenario.xhtml_item "ch1" "new.xhtml" (Some "nav"))
           [{| item_id := Some "ch1"; item_href := None;
               item_media_type := None; item_properties := None |}]).
  - reflexivity.
  - reflexivity.
  - repeat constructor.
Defined.

Lemma dict_set_keys (manifest : Manifest) (k : string) (v : ManifestItem) :
  forall x, In x (map fst (dict_set manifest k v)) <-> x = k \/ In x (map fst manifest).
Proof.
  induction manifest as [|[k0 v0] rest IH]; intros x; simpl.
  - intuition.
  - destruct (String.eqb_spec k0 k) as [->|Hne]; simpl.
    + intuition.
    + rewrite IH. intuition.
Qed.

Lemma dict_set_wf (manifest : Manifest) (k : string) (v : ManifestItem) :
  truthy k = true -> truthy (href v) = true ->
  manifest_wf manifest -> manifest_wf (dict_set manifest k v).
Proof.
  intros Hk Hv [Hnd Hall]. induction manifest as [|[k0 v0] rest IH]; simpl.
  - split; [repeat constructor; auto | repeat constructor; assumption].
  - simpl in Hnd. inversion Hnd as [|? ? Hnotin Hnd']; subst.
    inversion Hall as [|? ? Hkv Hall']; subst.
    destruct (String.eqb_spec k0 k) as [->|Hne].
    + split; [exact Hnd | constructor; [now split | assumption]].
    + destruct (IH Hnd' Hall') as [Hnd'' Hall''].
      split; [|constructor; assumption].
      simpl. constructor; [|assumption].
      rewrite dict_set_keys. intros [E|Hin]; [congruence | contradiction].
Qed.

Lemma build_manifest_wf (items : list OpfItem) : manifest_wf (build_manifest items).
Proof.
  rewrite build_manifest_fold.
  assert (H : forall acc, manifest_wf acc -> manifest_wf (fold_left manifest_step items acc)).
  { induction items as [|item items IH]; intros acc Hacc; simpl; [assumption|].
    apply IH. unfold manifest_step.
    destruct (item_id item) as [iid|]; [|assumption].
    destruct (item_href item) as [h|]; [|assumption].
    destruct (truthy iid && truthy h) eqn:E; [|assumption].
    apply andb_true_iff in E as [Hi Hh]. now apply dict_set_wf. }
  apply H. split; constructor.
Qed.

Lemma build_spine_truthy (itemrefs : list (option string)) :
  Forall (fun idref => truthy idref = true) (build_spine itemrefs).
Proof.
  unfold build_spine.
  assert (H : forall acc, Forall (fun idref => truthy idref = true) acc ->
    Forall (fun idref => truthy idref = true)
      (fold_left
         (fun spine idref =>
            match idref with
            | Some i => if truthy i then append spine i else spine
            | None => spine
            end) itemrefs acc)).
  { induction itemrefs as [|idref itemrefs IH]; intros acc Hacc; simpl; [assumption|].
    apply IH. destruct idref as [i|]; [|assumption].
    destruct (truthy i) eqn:E; [|assumption].
    unfold append. apply Forall_app. split; [assumption | now repeat constructor]. }
  apply H. constructor.
Qed.

(** X7.  [parse_opf] fails only when the package document cannot be read.
    What it returns is well formed: the ids of the manifest are distinct and
    not empty, no href is empty, no spine id is empty, and the directory of
    the package document is the text of a path, never empty. *)
Theorem parse_opf_result_is_well_formed (z : ZipFile) (opf_path : string) :
  (returns (parse_opf z opf_path) <-> returns (opf_tree z opf_path)) /\
  forall manifest spine opf_dir spine_toc,
    parse_opf z opf_path = Ret (manifest, spine, opf_dir, spine_toc) ->
    NoDup (map fst manifest) /\
    Forall (fun kv => truthy (fst kv) = true /\ truthy (href (snd kv)) = true) manifest /\
    Forall (fun idref => truthy idref = true) spine /\
    truthy opf_dir = true /\
    as_posix (parse opf_dir) = opf_dir.
Proof.
  unfold parse_opf. destruct (opf_tree z opf_path) as [e|doc]; simpl.
  - split.
    + split; intros [a Ha]; discriminate.
    + discriminate.
  - split.
    + split; intros _; eexists; reflexivity.
    + intros manifest spine opf_dir spine_toc [= <- <- <- _].
      assert (Hm : manifest_wf match opf_manifest doc with
                               | Some items => build_manifest items
                               | None => []
                               end).
      { destruct (opf_manifest doc); [apply build_manifest_wf | split; constructor]. }
      destruct Hm as [Hnd Hall]. repeat split; try assumption.
      * destruct (opf_spine doc); [apply build_spine_truthy | constructor].
      * apply as_posix_truthy.
      * rewrite parse_as_posix; [reflexivity|]. apply parent_wf, parse_wf.
Qed.

Lemma parse_opf_result_is_well_formed_witness :
  exists manifest spine spine_toc,
    parse_opf Scenario.legacy "OEBPS/content.opf"
    = Ret (manifest, spine, "OEBPS", spine_toc) /\
    NoDup (map fst manifest) /\
    Forall (fun idref => truthy idref = true) spine.
Proof.
  destruct (parse_opf Scenario.legacy "OEBPS/content.opf")
    as [e | [[[manifest spine] opf_dir] spine_toc]] eqn:Hparse; [discriminate|].
  destruct (proj2 (parse_opf_result_is_well_formed Scenario.legacy "OEBPS/content.opf")
              manifest spine opf_dir spine_toc Hparse)
    as (Hnd & _ & Hspine & _).
  exists manifest, spine, spine_toc.
  injection Hparse as <- <- <- <-. repeat split; assumption.
Defined.

(** ** Content files and TOC entries *)

Section ContentFiles.
Context {U : PyStr}.

Lemma get_content_files_flat_map (z : ZipFile) (manifest : Manifest)
  (spine : list string) (opf_dir : string) :
  DetectNoToc.get_content_files z manifest spine opf_dir
  = flat_map (content_file_of manifest opf_dir) spine.
Proof.
  unfold DetectNoToc.get_content_files.
  set (step := fun files idref => _).
  assert (H : forall acc,
             fold_left step spine acc
             = acc ++ flat_map (content_file_of manifest opf_dir) spine).
  { induction spine as [|idref spine IH]; intros acc; simpl.
    - now rewrite app_nil_r.
    - rewrite IH, app_assoc. f_equal.
      unfold step, content_file_of, is_content_path.
      destruct (dict_get manifest idref) as [item|]; [|now rewrite app_nil_r].
      destruct (existsb _ DetectNoToc.content_suffixes); simpl;
        [|now rewrite app_nil_r].
      rewrite !orb_false_r.
      destruct (contains "cover" _); simpl; [now rewrite app_nil_r|].
      destruct (contains "title" _); simpl; [now rewrite app_nil_r|].
      destruct (contains "copyright" _); simpl; [now rewrite app_nil_r|].
      destruct (contains "toc" _); simpl; [now rewrite app_nil_r | reflexivity]. }
  apply H.
Qed.

Lemma In_get_content_files (z : ZipFile) (manifest : Manifest)
  (spine : list string) (opf_dir f : string) :
  In f (DetectNoToc.get_content_files z manifest spine opf_dir) <->
  exists idref item,
    In idref spine /\ dict_get manifest idref = Some item /\
    f = DetectNoToc.resolve_href opf_dir (href item) /\
    existsb (endswith (lower f)) DetectNoToc.content_suffixes = true /\
    forall keyword, In keyword ["cover"; "title"; "copyright"; "toc"] ->
                    contains keyword (lower (name (parse f))) = false.
Proof.
  rewrite get_content_files_flat_map, in_flat_map. split.
  - intros [idref [Hin Hf]]. unfold content_file_of in Hf.
    destruct (dict_get manifest idref) as [item|] eqn:Hget; [|contradiction].
    destruct (is_content_path _) eqn:Hc; [|contradiction].
    destruct Hf as [<-|[]]. exists idref, item.
    unfold is_content_path in Hc. apply andb_true_iff in Hc as [Hext Hkw].
    repeat split; try assumption.
    intros keyword Hk. apply negb_true_iff in Hkw.
    destruct (contains keyword _) eqn:E; [|reflexivity].
    assert (Hex : existsb (fun keyword => contains keyword
                   (lower (name (parse (DetectNoToc.resolve_href opf_dir (href item))))))
                   ["cover"; "title"; "copyright"; "toc"] = true).
    { apply existsb_exists. now exists keyword. }
    congruence.
  - intros (idref & item & Hin & Hget & -> & Hext & Hkw).
    exists idref. split; [assumption|]. unfold content_file_of. rewrite Hget.
    unfold is_content_path. rewrite Hext. simpl.
    rewrite !Hkw by (simpl; auto). simpl. now left.
Qed.

Lemma content_file_has_no_keyword (z : ZipFile) (manifest : Manifest)
  (spine : list string) (opf_dir f : string) :
  In f (DetectNoToc.get_content_files z manifest spine opf_dir) ->
  existsb (fun keyword => contains keyword (lower (name (parse f))))
    ["cover"; "title"; "copyright"; "toc"] = false.
Proof.
  intros Hin. apply In_get_content_files in Hin.
  destruct Hin as (idref & item & _ & _ & _ & _ & Hkw).
  simpl. now rewrite !Hkw by (simpl; auto).
Qed.

(** X8.  [get_content_files] returns, in spine order, the resolved hrefs of
    the spine ids found in the manifest that have a markup extension and no
    boilerplate keyword in their file name; a spine id without manifest entry
    adds nothing, and the archive is not consulted. *)
Theorem get_content_files_selects_content_documents
  (z : ZipFile) (manifest : Manifest) (spine : list string) (opf_dir : string) :
  (forall f,
     In f (DetectNoToc.get_content_files z manifest spine opf_dir) <->
     exists idref item,
       In idref spine /\ dict_get manifest idref = Some item /\
       f = DetectNoToc.resolve_href opf_dir (href item) /\
       existsb (endswith (lower f)) DetectNoToc.content_suffixes = true /\
       forall keyword, In keyword ["cover"; "title"; "copyright"; "toc"] ->
                       contains keyword (lower (name (parse f))) = false) /\
  (forall before idref after,
     spine = before ++ idref :: after ->
     dict_get manifest idref = None ->
     DetectNoToc.get_content_files z manifest spine opf_dir
     = DetectNoToc.get_content_files z manifest (before ++ after) opf_dir) /\
  (forall before after,
     DetectNoToc.get_content_files z manifest (before ++ after) opf_dir
     = DetectNoToc.get_content_files z manifest before opf_dir
       ++ DetectNoToc.get_content_files z manifest after opf_dir) /\
  (forall z', DetectNoToc.get_content_files z' manifest spine opf_dir
              = DetectNoToc.get_content_files z manifest spine opf_dir) /\
  List.length (DetectNoToc.get_content_files z manifest spine opf_dir)
  <= List.length spine.
Proof.
  split; [|split; [|split; [|split]]].
  - intros f. apply In_get_content_files.
  - intros before idref after -> Hget.
    rewrite !get_content_files_flat_map, !flat_map_app. simpl.
    unfold content_file_of at 2. now rewrite Hget.
  - intros before after. now rewrite !get_content_files_flat_map, flat_map_app.
  - intros z'. now rewrite !get_content_files_flat_map.
  - rewrite get_content_files_flat_map.
    induction spine as [|idref spine IH]; simpl; [lia|].
    rewrite length_app. unfold content_file_of at 1.
    destruct (dict_get manifest idref); [|simpl; lia].
    destruct (is_content_path _); simpl; lia.
Qed.

(** X9.  When the content files are those of [get_content_files], the test
    of the target's file name in [analyze_toc_structure] discards nothing:
    an entry is kept exactly when its label is no boilerplate and its target
    is a content file. *)
Theorem file_name_test_discards_nothing
  (z : ZipFile) (manifest : Manifest) (spine : list string) (opf_dir : string)
  (entry : TocEntry) :
  DetectNoToc.is_content_entry
    (DetectNoToc.get_content_files z manifest spine opf_dir) entry
  = Ret (negb (mem (entry_label entry) DetectNoToc.boilerplate_keywords
               || existsb (fun keyword => contains keyword (entry_label entry))
                    ["cover"; "title page"; "copyright"])
         && mem (entry_target entry)
              (DetectNoToc.get_content_files z manifest spine opf_dir)).
Proof.
  rewrite is_content_entry_value.
  destruct (mem (entry_target entry)
              (DetectNoToc.get_content_files z manifest spine opf_dir)) eqn:Hmem.
  - apply mem_In, content_file_has_no_keyword in Hmem.
    unfold entry_filename. rewrite Hmem. simpl negb. now rewrite andb_true_r.
  - now rewrite !andb_false_r.
Qed.

End ContentFiles.

Section TocExtraction.
Context {U : PyStr}.

Lemma nav_items_loop_skip (z : ZipFile) (opf_dir : string) (item : ManifestItem)
  (rest : list ManifestItem) :
  usable_nav z opf_dir item = false ->
  DetectNoToc.nav_items_loop z opf_dir (item :: rest)
  = DetectNoToc.nav_items_loop z opf_dir rest.
Proof.
  unfold usable_nav. cbn [DetectNoToc.nav_items_loop]. intros Hun.
  destruct (mem "nav" _); [|reflexivity].
  destruct (mem _ (namelist z)); [|reflexivity].
  destruct (nav_tree z _); [reflexivity | discriminate].
Qed.

Lemma anchor_entries_well_formed (items : list (option Anchor)) (nav_path : string) :
  Forall (fun e => truthy (entry_href e) = true /\ entry_source e = nav_path)
    (DetectNoToc.anchor_entries items nav_path).
Proof.
  unfold DetectNoToc.anchor_entries. apply Forall_forall. intros e He.
  apply in_flat_map in He as [li [_ He]].
  destruct li as [a|]; [|contradiction].
  destruct (truthy_opt (a_href a)) eqn:E; [|contradiction].
  destruct He as [<-|[]]. simpl. split; [|reflexivity].
  now destruct (a_href a).
Qed.

Lemma nav_document_entries_well_formed (doc : NavDoc) (nav_path : string) :
  Forall (fun e => truthy (entry_href e) = true /\ entry_source e = nav_path)
    (DetectNoToc.nav_document_entries doc nav_path).
Proof.
  unfold DetectNoToc.nav_document_entries.
  destruct (find DetectNoToc.is_toc_nav (doc_navs doc)); apply anchor_entries_well_formed.
Qed.

(** X10.  [extract_nav_entries] reads one navigation document: the first
    manifest item marked [nav] whose file is in the archive and parses.  Its
    entries, possibly none, are the result, whatever later items hold; each
    has a non-empty href and that document as source.  Without such an item
    the result is empty. *)
Theorem nav_entries_come_from_the_first_usable_document
  (z : ZipFile) (opf_dir : string) (manifest : Manifest) :
  (forall before iid item after doc,
     manifest = before ++ (iid, item) :: after ->
     Forall (fun kv => usable_nav z opf_dir (snd kv) = false) before ->
     mem "nav" (split_ws (properties item)) = true ->
     mem (DetectNoToc.resolve_href opf_dir (href item)) (namelist z) = true ->
     nav_tree z (DetectNoToc.resolve_href opf_dir (href item)) = Ret doc ->
     DetectNoToc.extract_nav_entries z opf_dir manifest
     = DetectNoToc.nav_document_entries doc (DetectNoToc.resolve_href opf_dir (href item)) /\
     Forall (fun e => truthy (entry_href e) = true /\
                      entry_source e = DetectNoToc.resolve_href opf_dir (href item))
       (DetectNoToc.extract_nav_entries z opf_dir manifest)) /\
  (Forall (fun kv => usable_nav z opf_dir (snd kv) = false) manifest ->
   DetectNoToc.extract_nav_entries z opf_dir manifest = []).
Proof.
  unfold DetectNoToc.extract_nav_entries. split.
  - intros before iid item after doc -> Hbefore Hnav Hmem Hdoc.
    assert (Heq : DetectNoToc.nav_items_loop z opf_dir
                    (map snd (before ++ (iid, item) :: after))
                  = DetectNoToc.nav_document_entries doc
                      (DetectNoToc.resolve_href opf_dir (href item))).
    { induction Hbefore as [|kv before Hkv _ IH].
      - cbn [app map snd DetectNoToc.nav_items_loop]. now rewrite Hnav, Hmem, Hdoc.
      - cbn [app map]. now rewrite nav_items_loop_skip. }
    rewrite Heq. split; [reflexivity | apply nav_document_entries_well_formed].
  - induction 1 as [|kv rest Hkv _ IH]; [reflexivity|].
    cbn [map]. now rewrite nav_items_loop_skip.
Qed.

Lemma navpoint_entries_well_formed (navpoints : list NavPoint) (ncx_href : string) :
  Forall (fun e => truthy (entry_href e) = true /\ entry_source e = ncx_href)
    (DetectNoToc.navpoint_entries navpoints ncx_href).
Proof.
  unfold DetectNoToc.navpoint_entries. apply Forall_forall. intros e He.
  apply in_flat_map in He as [np [_ He]].
  destruct (truthy_opt (np_src np)) eqn:E; [|contradiction].
  destruct He as [<-|[]]. simpl. split; [|reflexivity].
  now destruct (np_src np).
Qed.

(** X11.  [extract_ncx_entries] never raises.  Each entry it returns has a
    non-empty href and, as source, the resolved href of the chosen navigation
    map, which is in the archive; when that file is missing from the archive
    or does not parse, the result is empty. *)
Theorem ncx_entries_are_well_formed
  (z : ZipFile) (opf_dir : string) (manifest : Manifest) (spine_toc : option string) :
  exists entries,
    DetectNoToc.extract_ncx_entries z opf_dir manifest spine_toc = Ret entries /\
    (forall e, In e entries ->
       truthy (entry_href e) = true /\
       In (entry_source e) (namelist z) /\
       exists iid item,
         select_ncx_id manifest spine_toc = Some iid /\
         dict_get manifest iid = Some item /\
         entry_source e = DetectNoToc.resolve_href opf_dir (href item)) /\
    (forall iid item,
       select_ncx_id manifest spine_toc = Some iid ->
       dict_get manifest iid = Some item ->
       ~ In (DetectNoToc.resolve_href opf_dir (href item)) (namelist z) \/
       (exists e, ncx_tree z (DetectNoToc.resolve_href opf_dir (href item)) = Raise e) ->
       entries = []).
Proof.
  unfold DetectNoToc.extract_ncx_entries.
  destruct (select_ncx_id manifest spine_toc) as [iid|] eqn:Hsel; simpl;
    [|exists []; split; [reflexivity|]; split; [intros x [] | discriminate]].
  destruct (truthy iid) eqn:Hid; simpl;
    [|exists []; split; [reflexivity|]; split; [intros x [] | reflexivity]].
  pose proof Hsel as Hin. apply select_ncx_id_In, dict_get_In in Hin.
  unfold dict_getitem. destruct (dict_get manifest iid) as [item|] eqn:Hget; [|congruence].
  simpl.
  destruct (mem _ (namelist z)) eqn:Hmem; simpl;
    [|exists []; split; [reflexivity|]; split; [intros x [] | reflexivity]].
  destruct (ncx_tree z _) as [err|doc] eqn:Hdoc; simpl.
  - exists []. split; [reflexivity|]. split; [intros x [] | reflexivity].
  - eexists. split; [reflexivity|]. split.
    + intros e He.
      pose proof (navpoint_entries_well_formed (ncx_navpoints doc)
                    (DetectNoToc.resolve_href opf_dir (href item))) as Hwf.
      rewrite Forall_forall in Hwf. destruct (Hwf e He) as [Hh Hs].
      split; [assumption|]. split.
      * rewrite Hs. now apply mem_In.
      * exists iid, item. now repeat split.
    + intros iid' item' Hs Hg Hcase. injection Hs as <-.
      rewrite Hget in Hg. injection Hg as <-.
      destruct Hcase as [Hmissing | [err Herr]].
      * apply mem_In in Hmem. contradiction.
      * congruence.
Qed.

End TocExtraction.

Lemma nav_entries_come_from_the_first_usable_document_witness :
  DetectNoToc.extract_nav_entries Scenario.three_chapters "OEBPS"
    (build_manifest match opf_manifest Scenario.three_chapters_opf with
                    | Some items => items
                    | None => []
                    end)
  = DetectNoToc.nav_document_entries Scenario.repeated_nav "OEBPS/nav.xhtml".
Proof.
  apply (proj1 (nav_entries_come_from_the_first_usable_document
                  Scenario.three_chapters "OEBPS" _)
           [] "nav"
           {| href := "nav.xhtml"; media_type := Some "application/xhtml+xml";
              properties := "nav" |}
           [("ch1", {| href := "ch1.xhtml"; media_type := Some "application/xhtml+xml";
                       properties := "" |});
            ("ch2", {| href := "ch2.xhtml"; media_type := Some "application/xhtml+xml";
                       properties := "" |});
            ("ch3", {| href := "ch3.xhtml"; media_type := Some "application/xhtml+xml";
                       properties := "" |})]
           Scenario.repeated_nav).
  - reflexivity.
  - constructor.
  - reflexivity.
  - reflexivity.
  - reflexivity.
Defined.

(** ** The structural classifier *)

Section Analysis.
Context {U : PyStr}.

Lemma analyze_toc_structure_targets (toc_entries : list TocEntry)
  (content_files : list string) (z : ZipFile) :
  nonempty toc_entries = true ->
  exists targets,
    DetectNoToc.analyze_toc_structure toc_entries content_files z
    = Ret {| DetectNoToc.has_toc := true;
             DetectNoToc.content_entries :=
               List.length (filter (is_content content_files) toc_entries);
             DetectNoToc.unique_targets := List.length targets;
             DetectNoToc.single_file_target :=
               match targets with
               | [t] => Some t
               | _ => None
               end |} /\
    NoDup targets /\
    forall x, In x targets <->
              In x (map entry_target (filter (is_content content_files) toc_entries)).
Proof.
  intros Hne. unfold DetectNoToc.analyze_toc_structure. rewrite Hne. simpl negb. cbv iota.
  rewrite filterM_filter by apply is_content_entry_returns. rewrite bind_Ret.
  fold (is_content content_files).
  set (kept := filter (is_content content_files) toc_entries).
  destruct (unique_targets_value content_files kept [])
    as [targets [-> [Hnd Hin]]]; [| constructor |].
  { apply Forall_forall. intros x Hx. apply filter_In in Hx as [_ Hx].
    now apply is_content_in_content_files. }
  rewrite bind_Ret. exists targets. split.
  - destruct targets as [|t [|t' targets]]; reflexivity.
  - split; [assumption|]. intros x. rewrite Hin. simpl. tauto.
Qed.

(** X12.  The counts of [analyze_toc_structure] are ordered: distinct
    targets are at most as many as content entries, which are at most as many
    as TOC entries, and one is 0 exactly when the other is.  The single
    file target is set exactly when there is one distinct target; it is then
    a content file and the target of every content entry. *)
Theorem toc_analysis_counts_are_consistent
  (toc_entries : list TocEntry) (content_files : list string) (z : ZipFile) :
  exists analysis,
    DetectNoToc.analyze_toc_structure toc_entries content_files z = Ret analysis /\
    (DetectNoToc.has_toc analysis = false <-> toc_entries = []) /\
    DetectNoToc.unique_targets analysis <= DetectNoToc.content_entries analysis /\
    DetectNoToc.content_entries analysis <= List.length toc_entries /\
    (DetectNoToc.unique_targets analysis = 0 <-> DetectNoToc.content_entries analysis = 0) /\
    (DetectNoToc.single_file_target analysis <> None <->
     DetectNoToc.unique_targets analysis = 1) /\
    (forall t, DetectNoToc.single_file_target analysis = Some t ->
       In t content_files /\
       forall e, In e toc_entries -> is_content content_files e = true ->
                 entry_target e = t).
Proof.
  destruct toc_entries as [|e0 toc].
  - eexists. split; [reflexivity|]. simpl.
    repeat split; try lia; try congruence; try discriminate.
  - destruct (analyze_toc_structure_targets (e0 :: toc) content_files z eq_refl)
      as [targets [Ha [Hnd Hin]]].
    eexists. split; [exact Ha|]. cbn [DetectNoToc.has_toc DetectNoToc.content_entries
      DetectNoToc.unique_targets DetectNoToc.single_file_target].
    set (kept := filter (is_content content_files) (e0 :: toc)) in *.
    assert (Hle : List.length targets <= List.length kept).
    { rewrite <- (length_map entry_target kept).
      apply NoDup_incl_length; [assumption|]. intros x Hx. now apply Hin. }
    split; [split; discriminate|]. split; [exact Hle|].
    split; [apply filter_length_le|]. split; [|split].
    + split; [|lia]. intros Hzero. destruct kept as [|e kept'] eqn:Hk; [reflexivity|].
      destruct targets; [|discriminate].
      exfalso. apply (proj2 (Hin (entry_target e))). now left.
    + destruct targets as [|t [|t' targets]]; simpl; split;
        try congruence; try discriminate; try lia.
    + intros t Ht. destruct targets as [|t0 [|t' targets]]; try discriminate.
      injection Ht as ->.
      assert (Hkept : forall e, In e kept -> entry_target e = t).
      { intros e He.
        assert (Hx : In (entry_target e) [t]) by (apply Hin; now apply in_map).
        destruct Hx as [<-|[]]. reflexivity. }
      split.
      * assert (Ht : In t (map entry_target kept)) by (apply Hin; now left).
        apply in_map_iff in Ht as [e [<- He]].
        apply filter_In in He as [_ He].
        now apply mem_In, is_content_in_content_files.
      * intros e He Hc. apply Hkept. apply filter_In. now split.
Qed.

(** X13.  [analyze_epub_single_chapter] returns the empty list or exactly
    one of the six reason codes. *)
Theorem single_chapter_analysis_gives_at_most_one_reason
  (open_zip : string -> exc ZipFile)
  (find_opf_path : ZipFile -> exc (option string)) (path : string) :
  exists reasons,
    DetectNoToc.analyze_epub_single_chapter open_zip find_opf_path path = Ret reasons /\
    In reasons reason_lists /\
    List.length reasons <= 1.
Proof.
  assert (Hlen : forall r, In r reason_lists -> List.length r <= 1).
  { intros r Hr. unfold reason_lists in Hr. simpl in Hr.
    repeat (destruct Hr as [<-|Hr]; [simpl; lia|]). contradiction. }
  assert (H : exists reasons,
    DetectNoToc.analyze_epub_single_chapter open_zip find_opf_path path = Ret reasons /\
    In reasons reason_lists).
  { unfold DetectNoToc.analyze_epub_single_chapter, DetectNoToc.single_chapter_body.
    unfold reason_lists.
    destruct (open_zip path) as [e|z]; [eexists; split; [reflexivity|simpl; tauto]|].
    rewrite bind_Ret.
    destruct (find_opf_path z) as [e|opf_path]; [eexists; split; [reflexivity|simpl; tauto]|].
    rewrite bind_Ret.
    destruct (negb (truthy_opt opf_path)); [eexists; split; [reflexivity|simpl; tauto]|].
    destruct (parse_opf z (or_empty opf_path)) as [e|[[[manifest spine] opf_dir] spine_toc]];
      [eexists; split; [reflexivity|simpl; tauto]|].
    rewrite bind_Ret.
    destruct (negb (nonempty _)); [eexists; split; [reflexivity|simpl; tauto]|].
    destruct (extract_ncx_entries_returns z opf_dir manifest spine_toc) as [ncx ->].
    rewrite bind_Ret, toc_reasons_value. cbn [try_except].
    eexists. split; [reflexivity|].
    destruct (negb (nonempty _)); [simpl; tauto|].
    destruct (List.length _) as [|[|n]]; simpl; tauto. }
  destruct H as [reasons [Hr Hin]]. exists reasons. auto.
Qed.

(** X14.  For a package that opens, has a package document and content
    files: [no_toc] is the result exactly when neither the navigation
    document nor the navigation map yields an entry, and the entries of the
    navigation document, when there are any, decide alone. *)
Theorem no_toc_iff_no_entry_from_either_source
  (open_zip : string -> exc ZipFile)
  (find_opf_path : ZipFile -> exc (option string)) (path : string)
  (z : ZipFile) (opf_path : string) (manifest : Manifest) (spine : list string)
  (opf_dir : string) (spine_toc : option string) :
  open_zip path = Ret z ->
  find_opf_path z = Ret (Some opf_path) ->
  truthy opf_path = true ->
  parse_opf z opf_path = Ret (manifest, spine, opf_dir, spine_toc) ->
  DetectNoToc.get_content_files z manifest spine opf_dir <> [] ->
  let result := DetectNoToc.analyze_epub_single_chapter open_zip find_opf_path path in
  let content_files := DetectNoToc.get_content_files z manifest spine opf_dir in
  let nav_entries := DetectNoToc.extract_nav_entries z opf_dir manifest in
  (result = Ret ["no_toc"] <->
   nav_entries = [] /\
   DetectNoToc.extract_ncx_entries z opf_dir manifest spine_toc = Ret []) /\
  (nav_entries <> [] ->
   result = DetectNoToc.toc_reasons nav_entries content_files z).
Proof.
  intros Hopen Hopf Htruthy Hparse Hfiles result content_files nav_entries.
  assert (Hresult : forall ncx,
    DetectNoToc.extract_ncx_entries z opf_dir manifest spine_toc = Ret ncx ->
    result = DetectNoToc.toc_reasons
               (if nonempty nav_entries then nav_entries else ncx) content_files z).
  { intros ncx Hncx. subst result.
    unfold DetectNoToc.analyze_epub_single_chapter, DetectNoToc.single_chapter_body.
    rewrite Hopen, bind_Ret, Hopf, bind_Ret. cbn [truthy_opt or_empty].
    rewrite Htruthy. simpl negb. cbv iota. rewrite Hparse, bind_Ret.
    fold content_files.
    destruct content_files as [|f files] eqn:Hcf; [contradiction|].
    simpl nonempty. simpl negb. cbv iota.
    fold nav_entries. rewrite Hncx, bind_Ret.
    rewrite toc_reasons_value. reflexivity. }
  destruct (extract_ncx_entries_returns z opf_dir manifest spine_toc) as [ncx Hncx].
  rewrite (Hresult ncx Hncx), Hncx. split.
  - rewrite toc_reasons_value. split.
    + intros Hno. destruct nav_entries as [|e nav]; simpl in Hno.
      * destruct ncx as [|e ncx']; [now split|]. simpl in Hno.
        destruct (List.length _) as [|[|n]]; discriminate.
      * destruct (List.length _) as [|[|n]]; discriminate.
    + intros [-> Hempty]. injection Hempty as ->. reflexivity.
  - intros Hnav. destruct nav_entries; [contradiction | reflexivity].
Qed.

End Analysis.

Lemma no_toc_iff_no_entry_from_either_source_witness :
  DetectNoToc.analyze_epub_single_chapter Scenario.open_zip Scenario.find_opf_path
    "no-toc.epub" = Ret ["no_toc"].
Proof.
  assert (H1 : Scenario.open_zip "no-toc.epub" = Ret Scenario.no_toc_package) by reflexivity.
  assert (H2 : Scenario.find_opf_path Scenario.no_toc_package = Ret (Some "OEBPS/content.opf"))
    by reflexivity.
  assert (H3 : truthy "OEBPS/content.opf" = true) by reflexivity.
  destruct (parse_opf Scenario.no_toc_package "OEBPS/content.opf")
    as [e | [[[manifest spine] opf_dir] spine_toc]] eqn:Hparse; [discriminate|].
  assert (H5 : DetectNoToc.get_content_files Scenario.no_toc_package manifest spine opf_dir
               <> []).
  { injection Hparse as <- <- <- <-. discriminate. }
  apply (proj1 (no_toc_iff_no_entry_from_either_source
                  Scenario.open_zip Scenario.find_opf_path "no-toc.epub"
                  Scenario.no_toc_package "OEBPS/content.opf" manifest spine opf_dir
                  spine_toc H1 H2 H3 Hparse H5)).
  injection Hparse as <- <- <- <-. split; reflexivity.
Defined.

(** ** The copyright page *)

Section Winner.
Variable get_spine_xhtml_paths : ZipFile -> Manifest -> list string -> string -> list string.
Variable extract_text_from_xhtml : ZipFile -> string -> string.
Variable score_file : string -> string -> Z.
Variable CONFIDENCE_THRESHOLD : Z.
Variables (z : ZipFile) (manifest : Manifest) (spine : list string) (opf_dir : string).

Local Abbreviation xhtml_paths := (get_spine_xhtml_paths z manifest spine opf_dir).
Local Abbreviation score := (Props.score_of extract_text_from_xhtml score_file z).
Local Abbreviation find_copyright_path :=
  (CheckCopyrightToc.find_copyright_path get_spine_xhtml_paths extract_text_from_xhtml
     score_file CONFIDENCE_THRESHOLD z manifest spine opf_dir).

(** X15.  With a positive threshold, and scores whose triple is below
    [2 ** 53] (as it is for every score below [2 ** 51]) so that the product
    with the [float] 1.5 is exact, [find_copyright_path] does not raise, and a
    path it returns is a spine document whose score reaches the threshold and
    beats the score of every other document by the factor 1.5. *)
Theorem copyright_page_beats_every_other_document :
  (0 < CONFIDENCE_THRESHOLD)%Z ->
  (forall q, In q xhtml_paths -> (3 * score q < 2 ^ 53)%Z) ->
  returns find_copyright_path /\
  forall p, find_copyright_path = Ret (Some p) ->
    (CONFIDENCE_THRESHOLD <= score p)%Z /\
    exists i,
      nth_error xhtml_paths i = Some p /\
      forall j q, nth_error xhtml_paths j = Some q -> j <> i ->
                  (3 * score q <= 2 * score p)%Z /\ (score q < score p)%Z.
Proof.
  intros Hpos Hsmall.
  destruct (CheckCopyrightToc.score_loop extract_text_from_xhtml score_file z xhtml_paths)
    as [[best_index best_score] second_score] eqn:Hloop.
  pose proof (score_loop_scored extract_text_from_xhtml score_file z xhtml_paths) as Hinv.
  rewrite Hloop in Hinv. destruct Hinv as (Hord & _ & Hsecond & Hmet & Hidx).
  assert (Hexact : (3 * second_score < 2 ^ 53)%Z).
  { destruct Hmet as [-> | (j & q & _ & _ & Hq & <-)]; [reflexivity|].
    apply Hsmall. now apply nth_error_In in Hq. }
  unfold CheckCopyrightToc.find_copyright_path.
  destruct (negb (nonempty xhtml_paths)); [split; [apply returns_Ret | discriminate]|].
  rewrite Hloop.
  destruct (Z.ltb_spec best_score CONFIDENCE_THRESHOLD);
    [split; [apply returns_Ret | discriminate]|].
  rewrite guard_exact, bind_Ret by assumption.
  destruct ((0 <? best_score)%Z && (0 <? second_score)%Z
            && (2 * best_score <? 3 * second_score)%Z) eqn:Hguard;
    [split; [apply returns_Ret | discriminate]|].
  destruct best_index as [i|]; [|lia].
  destruct Hidx as (Hi & Hbpos & w & Hw & Hscore).
  unfold getitem. rewrite Hw. rewrite bind_Ret.
  split; [apply returns_Ret|]. intros p [= <-].
  split; [lia|]. exists i. split; [assumption|].
  intros j q Hq Hne.
  assert (Hj : j < List.length xhtml_paths) by (apply nth_error_Some; congruence).
  assert (Hle : (score q <= second_score)%Z).
  { apply (Hsecond j q Hj Hq). congruence. }
  assert (Hmargin : (3 * second_score <= 2 * best_score)%Z).
  { apply andb_false_iff in Hguard as [Hguard | Hguard].
    - apply andb_false_iff in Hguard as [Hguard | Hguard];
        apply Z.ltb_ge in Hguard; lia.
    - apply Z.ltb_ge in Hguard. lia. }
  lia.
Qed.

End Winner.

Lemma copyright_page_beats_every_other_document_witness :
  (0 < 5)%Z /\
  (forall q, In q ["cover.xhtml"; "title.xhtml"; "copyright.xhtml"] ->
     (3 * score_of Scenario.no_text
            (Scenario.table_score
               [("cover.xhtml", 0%Z); ("title.xhtml", 2%Z); ("copyright.xhtml", 9%Z)])
            Scenario.legacy q < 2 ^ 53)%Z) /\
  returns
    (CheckCopyrightToc.find_copyright_path
       (Scenario.fixed_paths ["cover.xhtml"; "title.xhtml"; "copyright.xhtml"])
       Scenario.no_text
       (Scenario.table_score
          [("cover.xhtml", 0%Z); ("title.xhtml", 2%Z); ("copyright.xhtml", 9%Z)])
       5 Scenario.legacy [] [] "OEBPS").
Proof.
  assert (Hpos : (0 < 5)%Z) by lia.
  assert (Hsmall : forall q, In q ["cover.xhtml"; "title.xhtml"; "copyright.xhtml"] ->
            (3 * score_of Scenario.no_text
                   (Scenario.table_score
                      [("cover.xhtml", 0%Z); ("title.xhtml", 2%Z); ("copyright.xhtml", 9%Z)])
                   Scenario.legacy q < 2 ^ 53)%Z).
  { intros q [<-|[<-|[<-|[]]]]; reflexivity. }
  split; [exact Hpos|]. split; [exact Hsmall|].
  exact (proj1 (copyright_page_beats_every_other_document
                  (Scenario.fixed_paths ["cover.xhtml"; "title.xhtml"; "copyright.xhtml"])
                  Scenario.no_text
                  (Scenario.table_score
                     [("cover.xhtml", 0%Z); ("title.xhtml", 2%Z); ("copyright.xhtml", 9%Z)])
                  5%Z Scenario.legacy [] [] "OEBPS" Hpos Hsmall)).
Defined.

Section Links.
Context {U : PyStr}.
Variable resolve_href : string -> string -> string.

Local Abbreviation human_toc_links := (MoreProps.human_toc_links resolve_href).

Lemma content_hrefs_well_formed (contents : list (option string)) (ncx_href : string) :
  Forall (fun link => truthy (fst link) = true /\ snd link = ncx_href)
    (CheckCopyrightToc.content_hrefs contents ncx_href).
Proof.
  unfold CheckCopyrightToc.content_hrefs. apply Forall_forall. intros link Hl.
  apply in_flat_map in Hl as [src [_ Hl]].
  destruct (truthy_opt src) eqn:E; [|contradiction].
  destruct Hl as [<-|[]]. simpl. split; [|reflexivity]. now destruct src.
Qed.

(** X16.  [extract_ncx_hrefs] never raises and returns either a list of
    links and no message, or no list and a non-empty message.  Each link has
    a non-empty href, and its source is the resolved href of the chosen
    navigation map, a member of the archive. *)
Theorem ncx_hrefs_come_with_links_or_with_a_message
  (z : ZipFile) (opf_dir : string) (manifest : Manifest) (spine_toc : option string) :
  (exists links,
     CheckCopyrightToc.extract_ncx_hrefs resolve_href z opf_dir manifest spine_toc
     = Ret (Some links, None) /\
     forall link, In link links ->
       truthy (fst link) = true /\
       In (snd link) (namelist z) /\
       exists iid item,
         select_ncx_id manifest spine_toc = Some iid /\
         dict_get manifest iid = Some item /\
         snd link = resolve_href opf_dir (href item)) \/
  (exists message,
     CheckCopyrightToc.extract_ncx_hrefs resolve_href z opf_dir manifest spine_toc
     = Ret (None, Some message) /\
     truthy message = true).
Proof.
  unfold CheckCopyrightToc.extract_ncx_hrefs.
  destruct (select_ncx_id manifest spine_toc) as [iid|] eqn:Hsel; simpl;
    [|right; eexists; split; reflexivity].
  destruct (truthy iid) eqn:Hid; simpl; [|right; eexists; split; reflexivity].
  pose proof Hsel as Hin. apply select_ncx_id_In, dict_get_In in Hin.
  unfold dict_getitem. destruct (dict_get manifest iid) as [item|] eqn:Hget; [|congruence].
  simpl.
  destruct (mem _ (namelist z)) eqn:Hmem; simpl;
    [|right; eexists; split; reflexivity].
  destruct (ncx_tree z _) as [err|doc]; simpl.
  - right. eexists. split; reflexivity.
  - left. eexists. split; [reflexivity|]. intros link Hl.
    pose proof (content_hrefs_well_formed (ncx_contents doc)
                  (resolve_href opf_dir (href item))) as Hwf.
    rewrite Forall_forall in Hwf. destruct (Hwf link Hl) as [Hh Hs].
    split; [assumption|]. split.
    + rewrite Hs. now apply mem_In.
    + exists iid, item. now repeat split.
Qed.

Lemma extract_human_toc_hrefs_flat_map (z : ZipFile) (manifest : Manifest)
  (spine : list string) (opf_dir : string) :
  CheckCopyrightToc.extract_human_toc_hrefs resolve_href z manifest spine opf_dir
  = flat_map (human_toc_links z manifest opf_dir) spine.
Proof.
  unfold CheckCopyrightToc.extract_human_toc_hrefs.
  set (step := fun results idref => _).
  assert (H : forall acc,
             fold_left step spine acc
             = acc ++ flat_map (human_toc_links z manifest opf_dir) spine).
  { induction spine as [|idref spine IH]; intros acc; simpl.
    - now rewrite app_nil_r.
    - rewrite IH, app_assoc. f_equal.
      unfold step, human_toc_links.
      destruct (dict_get manifest idref) as [item|]; [|now rewrite app_nil_r].
      destruct (contains "toc" _); destruct (contains "contents" _); simpl;
        try (destruct (mem _ (namelist z)); simpl;
             [destruct (html_anchors z _); [now rewrite app_nil_r | reflexivity]
             | now rewrite app_nil_r]).
      now rewrite app_nil_r. }
  apply H.
Qed.

(** X17.  Each link of [extract_human_toc_hrefs] has a non-empty href and,
    as source, the resolved href of a spine item of the manifest that is in
    the archive and whose file name contains [toc] or [contents]; a page that
    does not parse adds no link and does not stop the others. *)
Theorem human_toc_links_come_from_toc_pages
  (z : ZipFile) (manifest : Manifest) (spine : list string) (opf_dir : string) :
  (forall link,
     In link (CheckCopyrightToc.extract_human_toc_hrefs resolve_href z manifest
                spine opf_dir) ->
     truthy (fst link) = true /\
     In (snd link) (namelist z) /\
     (contains "toc" (lower (name (parse (snd link)))) = true \/
      contains "contents" (lower (name (parse (snd link)))) = true) /\
     exists idref item,
       In idref spine /\ dict_get manifest idref = Some item /\
       snd link = resolve_href opf_dir (href item)) /\
  (forall before idref after item e,
     spine = before ++ idref :: after ->
     dict_get manifest idref = Some item ->
     html_anchors z (resolve_href opf_dir (href item)) = Raise e ->
     CheckCopyrightToc.extract_human_toc_hrefs resolve_href z manifest spine opf_dir
     = CheckCopyrightToc.extract_human_toc_hrefs resolve_href z manifest before opf_dir
       ++ CheckCopyrightToc.extract_human_toc_hrefs resolve_href z manifest after opf_dir).
Proof.
  split.
  - intros link Hl. rewrite extract_human_toc_hrefs_flat_map in Hl.
    apply in_flat_map in Hl as [idref [Hin Hl]]. unfold human_toc_links in Hl.
    destruct (dict_get manifest idref) as [item|] eqn:Hget; [|contradiction].
    destruct ((contains "toc" _ || contains "contents" _) && mem _ (namelist z)) eqn:Hc;
      [|contradiction].
    apply andb_true_iff in Hc as [Hname Hmem]. apply orb_true_iff in Hname.
    destruct (html_anchors z _) as [e|anchors]; [contradiction|].
    apply in_flat_map in Hl as [a [_ Hl]].
    destruct (truthy_opt a) eqn:Ha; [|contradiction].
    destruct Hl as [<-|[]]. simpl. repeat split.
    + now destruct a.
    + now apply mem_In.
    + exact Hname.
    + now exists idref, item.
  - intros before idref after item e -> Hget Hraise.
    rewrite !extract_human_toc_hrefs_flat_map, flat_map_app. simpl.
    unfold human_toc_links at 2. rewrite Hget, Hraise.
    destruct (_ && _); reflexivity.
Qed.

(** X18.  [hrefs_contain_path] never raises; it answers [True] exactly when
    some link, resolved, has the parts of the path, so the answer for two
    lists put together is the disjunction of the answers, and the empty
    list gives [False]. *)
Theorem hrefs_contain_path_is_an_existence_test
  (hrefs more : list (string * string)) (copyright_path : string)
  (namelist : list string) :
  exists found found_more,
    CheckCopyrightToc.hrefs_contain_path hrefs copyright_path namelist = Ret found /\
    CheckCopyrightToc.hrefs_contain_path more copyright_path namelist = Ret found_more /\
    CheckCopyrightToc.hrefs_contain_path (hrefs ++ more) copyright_path namelist
    = Ret (found || found_more) /\
    CheckCopyrightToc.hrefs_contain_path [] copyright_path namelist = Ret false /\
    (found = true <->
     exists href source_path,
       In (href, source_path) hrefs /\
       parts (parse (href_target namelist (href, source_path)))
       = parts (parse copyright_path)).
Proof.
  rewrite !hrefs_contain_path_value, existsb_app.
  eexists. eexists. repeat split.
  - intros Hex. apply existsb_exists in Hex as [[href source_path] [Hin Hr]].
    exists href, source_path. split; [assumption|]. now apply parts_eqb_eq in Hr.
  - intros [href [source_path [Hin Hr]]]. apply existsb_exists.
    exists (href, source_path). split; [assumption|]. now apply parts_eqb_eq.
Qed.

End Links.

(** ** The copyright analysis of one file *)

Section Analyze.
Context {U : PyStr}.
Variable open_zip : string -> exc ZipFile.
Variable find_opf_path : ZipFile -> exc (option string).
Variable resolve_href : string -> string -> string.
Variable get_spine_xhtml_paths : ZipFile -> Manifest -> list string -> string -> list string.
Variable extract_text_from_xhtml : ZipFile -> string -> string.
Variable score_file : string -> string -> Z.
Variable CONFIDENCE_THRESHOLD : Z.

Local Abbreviation analyze_epub :=
  (CheckCopyrightToc.analyze_epub open_zip find_opf_path resolve_href
     get_spine_xhtml_paths extract_text_from_xhtml score_file CONFIDENCE_THRESHOLD).

(** X19.  [analyze_epub] never raises.  Its result is [None] or a non-empty
    list of hits, [in ncx] before [in human toc page]; it carries at most one
    warning; a failure to open the file gives no result and the message of
    the exception after [error: ], and a missing package document gives
    [OPF not found]. *)
Theorem analyze_epub_never_raises (epub_path : string) :
  (exists result warnings,
     analyze_epub epub_path = Ret (result, warnings) /\
     In result hit_lists /\
     result <> Some [] /\
     List.length warnings <= 1) /\
  (forall e, open_zip epub_path = Raise e ->
     analyze_epub epub_path = Ret (None, [("error: " ++ str_of e)%string])) /\
  (forall z, open_zip epub_path = Ret z -> find_opf_path z = Ret None ->
     analyze_epub epub_path = Ret (None, ["OPF not found"])).
Proof.
  split; [|split].
  - unfold CheckCopyrightToc.analyze_epub, hit_lists.
    destruct (open_zip epub_path) as [e|z];
      [eexists; eexists; split; [reflexivity|]; simpl; repeat split; auto; discriminate|].
    rewrite bind_Ret.
    destruct (find_opf_path z) as [e|[opf_path|]];
      try (eexists; eexists; split; [reflexivity|]; simpl; repeat split; auto; discriminate).
    rewrite bind_Ret.
    destruct (parse_opf z opf_path) as [e|[[[manifest spine] opf_dir] spine_toc]];
      [eexists; eexists; split; [reflexivity|]; simpl; repeat split; auto; discriminate|].
    rewrite bind_Ret.
    destruct (extract_ncx_hrefs_returns resolve_href z opf_dir manifest spine_toc)
      as [[ncx_hrefs ncx_error] ->].
    rewrite bind_Ret.
    assert (Hw : List.length (if truthy_opt ncx_error then [or_empty ncx_error] else []) <= 1).
    { destruct (truthy_opt ncx_error); simpl; lia. }
    destruct (CheckCopyrightToc.find_copyright_path _ _ _ _ z manifest spine opf_dir)
      as [e|[copyright_path|]];
      [eexists; eexists; split; [reflexivity|]; simpl; repeat split; auto; discriminate
      | | eexists; eexists; split; [reflexivity|]; repeat split;
          [simpl; auto | discriminate | exact Hw]].
    rewrite bind_Ret, reachability_hits_value, bind_Ret. cbn [try_except].
    eexists. eexists. split; [reflexivity|].
    destruct (existsb _ match ncx_hrefs with Some l => l | None => [] end);
      destruct (existsb _ (CheckCopyrightToc.extract_human_toc_hrefs _ _ _ _ _));
      simpl; repeat split; auto; try discriminate; exact Hw.
  - intros e He. unfold CheckCopyrightToc.analyze_epub. now rewrite He.
  - intros z Hz Hopf. unfold CheckCopyrightToc.analyze_epub.
    now rewrite Hz, bind_Ret, Hopf.
Qed.

(** X20.  Once a copyright page has been found, the analysis reports
    [in human toc page] exactly when some anchor of a human TOC page, with
    its fragment stripped and resolved against that page, has the parts of
    the copyright path; the warning of the navigation map is kept in the
    result. *)
Theorem in_human_toc_page_iff_an_anchor_reaches_the_page
  (epub_path : string) (z : ZipFile) (opf_path : string)
  (manifest : Manifest) (spine : list string) (opf_dir : string)
  (spine_toc : option string)
  (ncx_hrefs : option (list (string * string))) (ncx_error : option string)
  (copyright_path : string) :
  open_zip epub_path = Ret z ->
  find_opf_path z = Ret (Some opf_path) ->
  parse_opf z opf_path = Ret (manifest, spine, opf_dir, spine_toc) ->
  CheckCopyrightToc.extract_ncx_hrefs resolve_href z opf_dir manifest spine_toc
  = Ret (ncx_hrefs, ncx_error) ->
  CheckCopyrightToc.find_copyright_path get_spine_xhtml_paths extract_text_from_xhtml
    score_file CONFIDENCE_THRESHOLD z manifest spine opf_dir
  = Ret (Some copyright_path) ->
  exists result,
    analyze_epub epub_path
    = Ret (result, if truthy_opt ncx_error then [or_empty ncx_error] else []) /\
    (In "in human toc page" (match result with Some hits => hits | None => [] end) <->
     exists href source_path,
       In (href, source_path)
         (CheckCopyrightToc.extract_human_toc_hrefs resolve_href z manifest spine opf_dir) /\
       parts (parse (href_target (namelist z) (href, source_path)))
       = parts (parse copyright_path)).
Proof.
  intros Hopen Hopf Hparse Hncx Hfind.
  unfold CheckCopyrightToc.analyze_epub.
  rewrite Hopen, bind_Ret, Hopf, bind_Ret, Hparse, bind_Ret.
  rewrite Hncx, bind_Ret, Hfind, bind_Ret.
  rewrite reachability_hits_value, bind_Ret. cbn [try_except].
  eexists. split; [reflexivity|].
  set (links := match ncx_hrefs with Some l => l | None => [] end).
  set (human := CheckCopyrightToc.extract_human_toc_hrefs _ _ _ _ _).
  assert (Hin : existsb (reaches (namelist z) copyright_path) human = true <->
                exists href source_path,
                  In (href, source_path) human /\
                  parts (parse (href_target (namelist z) (href, source_path)))
                  = parts (parse copyright_path)).
  { rewrite existsb_exists. split.
    - intros [[href source_path] [Hl Hr]]. exists href, source_path.
      split; [assumption|]. now apply parts_eqb_eq in Hr.
    - intros [href [source_path [Hl Hr]]]. exists (href, source_path).
      split; [assumption|]. now apply parts_eqb_eq. }
  rewrite <- Hin.
  destruct (existsb (reaches (namelist z) copyright_path) links);
    destruct (existsb (reaches (namelist z) copyright_path) human); simpl;
    split; intros Hx; try reflexivity; try discriminate; auto;
    repeat (destruct Hx as [Hx|Hx]; try discriminate); try contradiction.
Qed.

End Analyze.

Lemma in_human_toc_page_iff_an_anchor_reaches_the_page_witness :
  CheckCopyrightToc.analyze_epub Scenario.open_book Scenario.find_opf_path
    DetectNoToc.resolve_href Scenario.spine_paths Scenario.no_text
    (Scenario.table_score Scenario.contents_page_scores) 5 "contents-page.epub"
  = Ret (Some ["in human toc page"], ["NO NCX FOUND"]) /\
  In ("copyright.xhtml#notice", "OEBPS/contents.xhtml")
    (CheckCopyrightToc.extract_human_toc_hrefs DetectNoToc.resolve_href
       Scenario.contents_page
       (build_manifest match opf_manifest Scenario.contents_page_opf with
                       | Some items => items
                       | None => []
                       end)
       ["cover"; "contents"; "copyright"; "ch1"] "OEBPS") /\
  (exists result,
     CheckCopyrightToc.analyze_epub Scenario.open_book Scenario.find_opf_path
       DetectNoToc.resolve_href Scenario.spine_paths Scenario.no_text
       (Scenario.table_score Scenario.contents_page_scores) 5 "contents-page.epub"
     = Ret (result, ["NO NCX FOUND"]) /\
     In "in human toc page" match result with Some hits => hits | None => [] end) /\
  CheckCopyrightToc.analyze_epub Scenario.open_zip Scenario.find_opf_path
    DetectNoToc.resolve_href Scenario.spine_paths Scenario.no_text
    (Scenario.table_score Scenario.legacy_scores) 5 "legacy.epub"
  = Ret (Some ["in ncx"], []) /\
  ~ exists href source_path,
      In (href, source_path)
        (CheckCopyrightToc.extract_human_toc_hrefs DetectNoToc.resolve_href
           Scenario.legacy
           (build_manifest match opf_manifest Scenario.legacy_opf with
                           | Some items => items
                           | None => []
                           end)
           ["cover"; "title"; "chapter1"] "OEBPS") /\
      parts (parse (href_target (namelist Scenario.legacy) (href, source_path)))
      = parts (parse "OEBPS/content/chapter1.xhtml").
Proof.
  split; [reflexivity|]. split; [simpl; auto|]. split; [|split; [reflexivity|]].
  - (* the contents page links the copyright notice *)
    assert (Hopen : Scenario.open_book "contents-page.epub" = Ret Scenario.contents_page)
      by reflexivity.
    assert (Hopf : Scenario.find_opf_path Scenario.contents_page
                   = Ret (Some "OEBPS/content.opf")) by reflexivity.
    assert (Hparse : parse_opf Scenario.contents_page "OEBPS/content.opf"
                     = Ret (build_manifest match opf_manifest Scenario.contents_page_opf with
                                           | Some items => items
                                           | None => []
                                           end,
                            ["cover"; "contents"; "copyright"; "ch1"], "OEBPS", None))
      by reflexivity.
    assert (Hncx : CheckCopyrightToc.extract_ncx_hrefs DetectNoToc.resolve_href
                     Scenario.contents_page "OEBPS"
                     (build_manifest match opf_manifest Scenario.contents_page_opf with
                                     | Some items => items
                                     | None => []
                                     end)
                     None
                   = Ret (None, Some "NO NCX FOUND")) by reflexivity.
    assert (Hfind : CheckCopyrightToc.find_copyright_path Scenario.spine_paths
                      Scenario.no_text (Scenario.table_score Scenario.contents_page_scores) 5
                      Scenario.contents_page
                      (build_manifest match opf_manifest Scenario.contents_page_opf with
                                      | Some items => items
                                      | None => []
                                      end)
                      ["cover"; "contents"; "copyright"; "ch1"] "OEBPS"
                    = Ret (Some "OEBPS/copyright.xhtml")) by reflexivity.
    destruct (in_human_toc_page_iff_an_anchor_reaches_the_page
                Scenario.open_book Scenario.find_opf_path DetectNoToc.resolve_href
                Scenario.spine_paths Scenario.no_text
                (Scenario.table_score Scenario.contents_page_scores) 5%Z
                "contents-page.epub" Scenario.contents_page "OEBPS/content.opf" _ _ _ _ _ _ _
                Hopen Hopf Hparse Hncx Hfind)
      as [result [Hres Hiff]].
    exists result. split; [exact Hres|].
    apply Hiff. exists "copyright.xhtml#notice", "OEBPS/contents.xhtml".
    split; [simpl; auto | reflexivity].
  - (* the legacy package has no such page *)
    assert (Hopen : Scenario.open_zip "legacy.epub" = Ret Scenario.legacy) by reflexivity.
    assert (Hopf : Scenario.find_opf_path Scenario.legacy = Ret (Some "OEBPS/content.opf"))
      by reflexivity.
    assert (Hparse : parse_opf Scenario.legacy "OEBPS/content.opf"
                     = Ret (build_manifest match opf_manifest Scenario.legacy_opf with
                                           | Some items => items
                                           | None => []
                                           end,
                            ["cover"; "title"; "chapter1"], "OEBPS", Some "ncx"))
      by reflexivity.
    assert (Hncx : CheckCopyrightToc.extract_ncx_hrefs DetectNoToc.resolve_href
                     Scenario.legacy "OEBPS"
                     (build_manifest match opf_manifest Scenario.legacy_opf with
                                     | Some items => items
                                     | None => []
                                     end)
                     (Some "ncx")
                   = Ret (Some [("content/chapter1.xhtml#top", "OEBPS/toc.ncx")], None))
      by reflexivity.
    assert (Hfind : CheckCopyrightToc.find_copyright_path Scenario.spine_paths
                      Scenario.no_text (Scenario.table_score Scenario.legacy_scores) 5
                      Scenario.legacy
                      (build_manifest match opf_manifest Scenario.legacy_opf with
                                      | Some items => items
                                      | None => []
                                      end)
                      ["cover"; "title"; "chapter1"] "OEBPS"
                    = Ret (Some "OEBPS/content/chapter1.xhtml")) by reflexivity.
    destruct (in_human_toc_page_iff_an_anchor_reaches_the_page
                Scenario.open_zip Scenario.find_opf_path DetectNoToc.resolve_href
                Scenario.spine_paths Scenario.no_text
                (Scenario.table_score Scenario.legacy_scores) 5%Z
                "legacy.epub" Scenario.legacy "OEBPS/content.opf" _ _ _ _ _ _ _
                Hopen Hopf Hparse Hncx Hfind)
      as [result [Hres Hiff]].
    injection Hres as <-. intros Hex. apply Hiff in Hex.
    simpl in Hex. destruct Hex as [E|[]]. discriminate.
Defined.

(** ** The batch drivers *)

Section Printing.
Variable write_error : list string -> string -> option exception.
Hypothesis writable : forall out line, write_error out line = None.

Lemma io_bind_lift {A B : Type} (m : exc A) (k : A -> io B) (out : list string) :
  io_bind (lift m) k out
  = match m with
    | Ret a => k a out
    | Raise e => (out, Raise e)
    end.
Proof. unfold io_bind, lift. now destruct m. Qed.

Lemma io_bind_print {B : Type} (line : string) (k : unit -> io B) (out : list string) :
  io_bind (print write_error line) k out = k tt (append out line).
Proof. unfold io_bind, print. now rewrite writable. Qed.

End Printing.

Section DetectBatch.
Context {U : PyStr}.
Variable open_zip : string -> exc ZipFile.
Variable find_opf_path : ZipFile -> exc (option string).
Variable file_system : FileSystem.
Variable write_error : list string -> string -> option exception.

Local Abbreviation analyze := (DetectNoToc.analyze_epub_single_chapter open_zip find_opf_path).
Local Abbreviation main :=
  (DetectNoTocMain.main open_zip find_opf_path file_system write_error).
Local Abbreviation issue_line := (MoreProps.issue_line open_zip find_opf_path).

Lemma analyze_epub_single_chapter_returns (path : string) : returns (analyze path).
Proof.
  unfold DetectNoToc.analyze_epub_single_chapter.
  apply try_except_returns. intros e. apply returns_Ret.
Qed.

Lemma detect_report_loop_value (epubs : list string) (found_issues : nat)
  (out : list string) :
  (forall out line, write_error out line = None) ->
  DetectNoTocMain.report_loop open_zip find_opf_path write_error epubs found_issues out
  = (out ++ flat_map issue_line epubs,
     Ret (found_issues + List.length (flat_map issue_line epubs))).
Proof.
  intros writable.
  revert found_issues out. induction epubs as [|epub rest IH]; intros found_issues out.
  - simpl. unfold io_ret. now rewrite Nat.add_0_r, app_nil_r.
  - cbn [DetectNoTocMain.report_loop flat_map].
    rewrite io_bind_lift. unfold issue_line at 1 3.
    destruct (analyze_epub_single_chapter_returns epub) as [reasons ->].
    cbn [value].
    destruct (nonempty reasons).
    + rewrite io_bind_print by assumption. rewrite IH.
      unfold append. rewrite <- app_assoc, length_app. simpl.
      f_equal. f_equal. lia.
    + rewrite IH. reflexivity.
Qed.

(** X21.  [main] of [detect_no_toc.py], with [debug] left at [False] and a
    standard output that takes every line.  After the heading it resolves the
    folder, tests it and lists it; what one of these three raises ends the
    run, with the heading alone printed.  It exits with status 1, after the
    line [Folder not found], exactly when the folder is no directory.  Over a
    directory with EPUB files it returns after printing one line for each
    file with reasons, in order, each depending on that file alone: a file
    that cannot be analysed gets its line and the others are still reported.
    The closing line is printed exactly when no file has a reason. *)
Theorem detect_main_reports_each_file_on_its_own (folder : string) :
  (forall out line, write_error out line = None) ->
  let heading := "Detecting EPUBs with single-chapter issues..." in
  (forall e, resolve_folder file_system folder = Raise e ->
     main folder [] = ([heading], Raise e)) /\
  (forall p, resolve_folder file_system folder = Ret p ->
     (forall e, is_dir file_system p = Raise e ->
        main folder [] = ([heading], Raise e)) /\
     (is_dir file_system p = Ret false ->
        main folder [] = ([heading; ("Folder not found: " ++ p)%string], Ret (Some 1))) /\
     (is_dir file_system p = Ret true ->
        (forall e, rglob_epub file_system p = Raise e ->
           main folder [] = ([heading], Raise e)) /\
        (rglob_epub file_system p = Ret [] ->
           main folder [] = ([heading; "No EPUB files found"], Ret None)) /\
        (forall epub_paths,
           rglob_epub file_system p = Ret epub_paths -> epub_paths <> [] ->
           main folder []
           = (heading :: flat_map issue_line epub_paths
                ++ (if nonempty (flat_map issue_line epub_paths)
                    then [] else ["No single-chapter issues detected"]),
              Ret None)))).
Proof.
  intros writable heading. unfold DetectNoTocMain.main.
  rewrite io_bind_print, io_bind_lift by assumption. cbn [append app].
  split; [intros e ->; reflexivity|].
  intros p ->. rewrite io_bind_lift.
  split; [intros e ->; reflexivity|].
  split.
  - intros ->. cbn [negb]. now rewrite io_bind_print by assumption.
  - intros ->. cbn [negb]. rewrite io_bind_lift.
    split; [intros e ->; reflexivity|].
    split.
    + intros ->. cbn [nonempty negb]. now rewrite io_bind_print by assumption.
    + intros epub_paths -> Hne.
      destruct epub_paths as [|epub rest]; [now elim Hne|].
      change (negb (nonempty (epub :: rest))) with false. cbv iota.
      unfold io_bind at 1. rewrite detect_report_loop_value by assumption.
      unfold heading. cbn [app].
      set (lines := flat_map issue_line (epub :: rest)). clearbody lines.
      destruct lines as [|l ls].
      * cbn [List.length Nat.add Nat.eqb nonempty].
        now rewrite io_bind_print by assumption.
      * replace (0 + List.length (l :: ls) =? 0)%nat with false by reflexivity.
        cbn [nonempty]. unfold io_ret. now rewrite app_nil_r.
Qed.

(** X23.  [count_headings_in_file] returns 0 for every archive and every
    path: the path expression of the first heading tag raises, and the
    handler answers 0, as it does when the page cannot be read or has no
    body. *)
Theorem count_headings_in_file_is_always_zero
  (Body : Type) (html_body : ZipFile -> string -> exc (option Body))
  (findall : Body -> string -> list string) (z : ZipFile) (filepath : string) :
  DetectNoTocMain.count_headings_in_file Body html_body findall z filepath = Ret 0.
Proof.
  unfold DetectNoTocMain.count_headings_in_file.
  destruct (html_body z filepath) as [e|[body|]]; reflexivity.
Qed.

End DetectBatch.

Lemma detect_main_reports_each_file_on_its_own_witness :
  (forall out line, Shelf.writable out line = None) /\
  DetectNoTocMain.main Shelf.open_zip Scenario.find_opf_path Shelf.file_system
    Shelf.writable "books" []
  = (["Detecting EPUBs with single-chapter issues...";
      "broken: error_parsing_epub"; "contents-page: no_toc"; "legacy: single_toc_entry"],
     Ret None) /\
  DetectNoTocMain.main Shelf.open_zip Scenario.find_opf_path Shelf.file_system
    Shelf.writable "films" []
  = (["Detecting EPUBs with single-chapter issues...";
      "Folder not found: /home/reader/films"],
     Ret (Some 1)) /\
  DetectNoTocMain.main Shelf.open_zip Scenario.find_opf_path Shelf.file_system
    Shelf.writable "~ghost/books" []
  = (["Detecting EPUBs with single-chapter issues..."],
     Raise (RuntimeError "Could not determine home directory.")).
Proof.
  assert (Hw : forall out line, Shelf.writable out line = None) by reflexivity.
  split; [exact Hw|]. split; [|split].
  - destruct (detect_main_reports_each_file_on_its_own
                Shelf.open_zip Scenario.find_opf_path Shelf.file_system Shelf.writable
                "books" Hw) as [_ Hfolder].
    destruct (Hfolder "/home/reader/books" eq_refl) as (_ & _ & Hdir).
    destruct (Hdir eq_refl) as (_ & _ & Hfiles).
    rewrite (Hfiles ["/home/reader/books/broken.epub";
                     "/home/reader/books/contents-page.epub";
                     "/home/reader/books/legacy.epub";
                     "/home/reader/books/three-chapters.epub"] eq_refl);
      [reflexivity | discriminate].
  - destruct (detect_main_reports_each_file_on_its_own
                Shelf.open_zip Scenario.find_opf_path Shelf.file_system Shelf.writable
                "films" Hw) as [_ Hfolder].
    destruct (Hfolder "/home/reader/films" eq_refl) as (_ & Hmissing & _).
    exact (Hmissing eq_refl).
  - destruct (detect_main_reports_each_file_on_its_own
                Shelf.open_zip Scenario.find_opf_path Shelf.file_system Shelf.writable
                "~ghost/books" Hw) as [Hraise _].
    exact (Hraise _ eq_refl).
Defined.

Section CheckBatch.
Context {U : PyStr}.
Variable open_zip : string -> exc ZipFile.
Variable find_opf_path : ZipFile -> exc (option string).
Variable resolve_href : string -> string -> string.
Variable get_spine_xhtml_paths : ZipFile -> Manifest -> list string -> string -> list string.
Variable extract_text_from_xhtml : ZipFile -> string -> string.
Variable score_file : string -> string -> Z.
Variable CONFIDENCE_THRESHOLD : Z.
Variable file_system : FileSystem.
Variable write_error : list string -> string -> option exception.
Variable slice_to : nat -> string -> string.

Local Abbreviation analyze_epub :=
  (CheckCopyrightToc.analyze_epub open_zip find_opf_path resolve_href
     get_spine_xhtml_paths extract_text_from_xhtml score_file CONFIDENCE_THRESHOLD).
Local Abbreviation main :=
  (CheckCopyrightTocMain.main open_zip find_opf_path resolve_href
     get_spine_xhtml_paths extract_text_from_xhtml score_file CONFIDENCE_THRESHOLD
     file_system write_error slice_to).
Local Abbreviation outcome :=
  (MoreProps.outcome open_zip find_opf_path resolve_href get_spine_xhtml_paths
     extract_text_from_xhtml score_file CONFIDENCE_THRESHOLD).
Local Abbreviation lines_of :=
  (MoreProps.lines_of open_zip find_opf_path resolve_href get_spine_xhtml_paths
     extract_text_from_xhtml score_file CONFIDENCE_THRESHOLD slice_to).
Local Abbreviation has_hits :=
  (MoreProps.has_hits open_zip find_opf_path resolve_href get_spine_xhtml_paths
     extract_text_from_xhtml score_file CONFIDENCE_THRESHOLD).

Lemma analyze_epub_returns (epub_path : string) : returns (analyze_epub epub_path).
Proof.
  unfold CheckCopyrightToc.analyze_epub.
  apply try_except_returns. intros e. apply returns_Ret.
Qed.

Lemma print_all_value (lines out : list string) :
  (forall out line, write_error out line = None) ->
  CheckCopyrightTocMain.print_all write_error lines out = (out ++ lines, Ret tt).
Proof.
  intros writable. revert out. induction lines as [|line rest IH]; intros out.
  - simpl. unfold io_ret. now rewrite app_nil_r.
  - cbn [CheckCopyrightTocMain.print_all].
    rewrite io_bind_print, IH by assumption.
    unfold append. now rewrite <- app_assoc.
Qed.

Lemma check_report_loop_value (epubs : list string) (found : nat) (out : list string) :
  (forall out line, write_error out line = None) ->
  CheckCopyrightTocMain.report_loop open_zip find_opf_path resolve_href
    get_spine_xhtml_paths extract_text_from_xhtml score_file CONFIDENCE_THRESHOLD
    write_error slice_to epubs found out
  = (out ++ flat_map lines_of epubs,
     Ret (found + List.length (filter has_hits epubs))).
Proof.
  intros writable.
  revert found out. induction epubs as [|epub rest IH]; intros found out.
  - simpl. unfold io_ret. now rewrite Nat.add_0_r, app_nil_r.
  - cbn [CheckCopyrightTocMain.report_loop flat_map filter].
    rewrite io_bind_lift.
    unfold lines_of at 1, has_hits at 1, outcome.
    destruct (analyze_epub_returns epub) as [[result warnings] ->].
    cbn [value fst snd].
    unfold io_bind at 1. rewrite print_all_value by assumption.
    rewrite IH, <- app_assoc.
    destruct (CheckCopyrightTocMain.truthy_result result); simpl; f_equal; f_equal; lia.
Qed.

(** X22.  [main] of [check_copyright_toc.py], with a standard output that
    takes every line.  It resolves the folder, tests it and lists it; what one
    of these three raises ends the run, with nothing printed.  It exits with
    status 1, after the line [Folder not found], exactly when the folder is no
    directory.  Over a directory with EPUB files it returns after printing for
    each file, in order, its warnings and then its hits, whatever happens
    with the other files, and the closing line exactly when no file has a
    hit. *)
Theorem check_main_reports_each_file_on_its_own (folder : string) :
  (forall out line, write_error out line = None) ->
  (forall e, resolve_folder file_system folder = Raise e ->
     main folder [] = ([], Raise e)) /\
  (forall p, resolve_folder file_system folder = Ret p ->
     (forall e, is_dir file_system p = Raise e -> main folder [] = ([], Raise e)) /\
     (is_dir file_system p = Ret false ->
        main folder [] = ([("Folder not found: " ++ p)%string], Ret (Some 1))) /\
     (is_dir file_system p = Ret true ->
        (forall e, rglob_epub file_system p = Raise e ->
           main folder [] = ([], Raise e)) /\
        (rglob_epub file_system p = Ret [] ->
           main folder [] = (["No EPUB files found"], Ret None)) /\
        (forall epub_paths,
           rglob_epub file_system p = Ret epub_paths -> epub_paths <> [] ->
           main folder []
           = (flat_map lines_of epub_paths
                ++ (if nonempty (filter has_hits epub_paths)
                    then [] else ["No copyright pages found in any TOC"]),
              Ret None)))).
Proof.
  intros writable. unfold CheckCopyrightTocMain.main.
  rewrite io_bind_lift.
  split; [intros e ->; reflexivity|].
  intros p ->. rewrite io_bind_lift.
  split; [intros e ->; reflexivity|].
  split.
  - intros ->. cbn [negb]. now rewrite io_bind_print by assumption.
  - intros ->. cbn [negb]. rewrite io_bind_lift.
    split; [intros e ->; reflexivity|].
    split.
    + intros ->. cbn [nonempty negb]. now rewrite io_bind_print by assumption.
    + intros epub_paths -> Hne.
      destruct epub_paths as [|epub rest]; [now elim Hne|].
      change (negb (nonempty (epub :: rest))) with false. cbv iota.
      unfold io_bind at 1. rewrite check_report_loop_value by assumption.
      cbn [app].
      set (hits := filter has_hits (epub :: rest)). clearbody hits.
      destruct hits as [|l ls].
      * cbn [List.length Nat.add Nat.eqb nonempty].
        now rewrite io_bind_print by assumption.
      * replace (0 + List.length (l :: ls) =? 0)%nat with false by reflexivity.
        cbn [nonempty]. unfold io_ret. now rewrite app_nil_r.
Qed.

End CheckBatch.

Lemma check_main_reports_each_file_on_its_own_witness :
  (forall out line, Shelf.writable out line = None) /\
  CheckCopyrightTocMain.main Shelf.open_zip Scenario.find_opf_path
    DetectNoToc.resolve_href Scenario.spine_paths Scenario.no_text
    (Scenario.table_score Shelf.scores) 5 Shelf.file_system Shelf.writable
    Shelf.slice_to "books" []
  = (["broken: error: File is not a zip file";
      "contents-page: NO NCX FOUND"; "contents-page: in human toc page";
      "legacy: in ncx"; "three-chapters: NO NCX FOUND"],
     Ret None) /\
  CheckCopyrightTocMain.main Shelf.open_zip Scenario.find_opf_path
    DetectNoToc.resolve_href Scenario.spine_paths Scenario.no_text
    (Scenario.table_score Shelf.scores) 5 Shelf.file_system Shelf.writable
    Shelf.slice_to "films" []
  = (["Folder not found: /home/reader/films"], Ret (Some 1)) /\
  CheckCopyrightTocMain.main Shelf.open_zip Scenario.find_opf_path
    DetectNoToc.resolve_href Scenario.spine_paths Scenario.no_text
    (Scenario.table_score Shelf.scores) 5 Shelf.file_system Shelf.writable
    Shelf.slice_to "~ghost/books" []
  = ([], Raise (RuntimeError "Could not determine home directory.")).
Proof.
  assert (Hw : forall out line, Shelf.writable out line = None) by reflexivity.
  split; [exact Hw|]. split; [|split].
  - destruct (check_main_reports_each_file_on_its_own
                Shelf.open_zip Scenario.find_opf_path DetectNoToc.resolve_href
                Scenario.spine_paths Scenario.no_text (Scenario.table_score Shelf.scores)
                5%Z Shelf.file_system Shelf.writable Shelf.slice_to "books" Hw)
      as [_ Hfolder].
    destruct (Hfolder "/home/reader/books" eq_refl) as (_ & _ & Hdir).
    destruct (Hdir eq_refl) as (_ & _ & Hfiles).
    rewrite (Hfiles ["/home/reader/books/broken.epub";
                     "/home/reader/books/contents-page.epub";
                     "/home/reader/books/legacy.epub";
                     "/home/reader/books/three-chapters.epub"] eq_refl);
      [reflexivity | discriminate].
  - destruct (check_main_reports_each_file_on_its_own
                Shelf.open_zip Scenario.find_opf_path DetectNoToc.resolve_href
                Scenario.spine_paths Scenario.no_text (Scenario.table_score Shelf.scores)
                5%Z Shelf.file_system Shelf.writable Shelf.slice_to "films" Hw)
      as [_ Hfolder].
    destruct (Hfolder "/home/reader/films" eq_refl) as (_ & Hmissing & _).
    exact (Hmissing eq_refl).
  - destruct (check_main_reports_each_file_on_its_own
                Shelf.open_zip Scenario.find_opf_path DetectNoToc.resolve_href
                Scenario.spine_paths Scenario.no_text (Scenario.table_score Shelf.scores)
                5%Z Shelf.file_system Shelf.writable Shelf.slice_to "~ghost/books" Hw)
      as [Hraise _].
    exact (Hraise _ eq_refl).
Defined.

(** ** Fragments *)

(** X24.  The fragment of an href plays no part in the classification: an
    entry whose href carries a fragment has the target of the entry without
    it, and is kept or discarded like it, so links to several anchors of one
    file count as one target. *)
Theorem fragment_plays_no_part_in_the_classification `{PyStr}
  (content_files : list string) (href fragment text source : string) :
  has_char "#" href = false ->
  entry_target {| entry_href := (href ++ String "#" fragment)%string;
                  entry_text := text; entry_source := source |}
  = entry_target {| entry_href := href; entry_text := text; entry_source := source |} /\
  DetectNoToc.is_content_entry content_files
    {| entry_href := (href ++ String "#" fragment)%string;
       entry_text := text; entry_source := source |}
  = DetectNoToc.is_content_entry content_files
      {| entry_href := href; entry_text := text; entry_source := source |}.
Proof.
  intros Hplain.
  assert (Htarget :
    entry_target {| entry_href := (href ++ String "#" fragment)%string;
                    entry_text := text; entry_source := source |}
    = entry_target {| entry_href := href; entry_text := text; entry_source := source |}).
  { unfold entry_target. cbn [entry_href entry_source].
    now rewrite fragment_free_fragment, fragment_free_plain. }
  split; [exact Htarget|].
  rewrite !is_content_entry_value. unfold entry_filename, entry_label.
  rewrite Htarget. reflexivity.
Qed.

Lemma fragment_plays_no_part_in_the_classification_witness :
  DetectNoToc.is_content_entry ["OEBPS/ch1.xhtml"]
    {| entry_href := "ch1.xhtml#section-2"; entry_text := "Section 2";
       entry_source := "OEBPS/nav.xhtml" |}
  = DetectNoToc.is_content_entry ["OEBPS/ch1.xhtml"]
      {| entry_href := "ch1.xhtml"; entry_text := "Section 2";
         entry_source := "OEBPS/nav.xhtml" |}.
Proof.
  assert (Hplain : has_char "#" "ch1.xhtml" = false) by reflexivity.
  exact (proj2 (fragment_plays_no_part_in_the_classification
                  ["OEBPS/ch1.xhtml"] "ch1.xhtml" "section-2" "Section 2"
                  "OEBPS/nav.xhtml" Hplain)).
Defined.
